(** * DictionaRead: a shallow embedding of the extension's scripts

    The development follows the two scripts of the extension:
    - [background.js]: the shortcut handler, the sanitizer, the message
      router and the definition fetcher;
    - [content.js]: the popup lifecycle, the theme detection and the
      placement of the popup.

    JavaScript strings are sequences of UTF-16 code units; they are modelled
    as lists of [N].  Pixel coordinates are JavaScript numbers; they are
    modelled as exact rationals ([Q]), rounding is not modelled.  The model
    and the script agree where the script's arithmetic is exact: on
    measurements that are multiples of 1/64 of a pixel ([Grid.measured]) for
    the placement, which adds, subtracts, halves and compares them, and on
    colour components up to 255 for the comparisons of the brightness.  The
    properties that state exact relations between positions are stated for
    such measurements.  Promises, the DOM and the browser API are modelled
    by explicit environments (what the browser answers) and explicit traces
    (what the script asks). *)

From Stdlib Require Import List Bool Arith NArith ZArith QArith Lia String Ascii.
From Stdlib Require DecimalString DecimalN.
From Stdlib Require Import Lqa.
Import ListNotations.

Set Implicit Arguments.

(** ** JavaScript strings *)

Module JsString.

(** A string is a list of UTF-16 code units. *)
Definition t := list N.

(** A literal of the source, given in ASCII. *)
Definition lit (s : string) : t := map N_of_ascii (list_ascii_of_string s).

Definition eqb (a b : t) : bool :=
  if list_eq_dec N.eq_dec a b then true else false.

Definition between (lo hi c : N) : bool := ((lo <=? c) && (c <=? hi))%N.

Definition isDigit (c : N) : bool := between 48 57 c.
Definition isLetter (c : N) : bool := between 65 90 c || between 97 122 c.

(** [\w] without the [u] and [i] flags: [A-Za-z0-9_]. *)
Definition isWord (c : N) : bool := isLetter c || isDigit c || (c =? 95)%N.

(** [\s], and the characters removed by [String.prototype.trim]: the
    WhiteSpace and LineTerminator code points of ECMAScript. *)
Definition isSpace (c : N) : bool :=
  (between 9 13 c || (c =? 32) || (c =? 160) || (c =? 5760)
   || between 8192 8202 c || (c =? 8232) || (c =? 8233) || (c =? 8239)
   || (c =? 8287) || (c =? 12288) || (c =? 65279))%N.

Fixpoint dropWhile (p : N -> bool) (s : t) : t :=
  match s with
  | [] => []
  | c :: r => if p c then dropWhile p r else s
  end.

(** The longest prefix whose characters satisfy [p], and the rest. *)
Fixpoint span (p : N -> bool) (s : t) : t * t :=
  match s with
  | [] => ([], [])
  | c :: r => if p c then let (a, b) := span p r in (c :: a, b) else ([], s)
  end.

Definition trimStart (s : t) : t := dropWhile isSpace s.
Definition trimEnd (s : t) : t := rev (dropWhile isSpace (rev s)).

(** [s.trim()] *)
Definition trim (s : t) : t := trimEnd (trimStart s).

(** [s.substring(0, n)] for a natural [n]. *)
Definition substring0 (n : nat) (s : t) : t := firstn n s.

Fixpoint startsWith (p s : t) : bool :=
  match p, s with
  | [], _ => true
  | _ :: _, [] => false
  | a :: p', b :: s' => (a =? b)%N && startsWith p' s'
  end.

(** [s.includes(p)] *)
Fixpoint includes (s p : t) : bool :=
  startsWith p s || match s with [] => false | _ :: r => includes r p end.

End JsString.

Import JsString.

(** ** background.js: the sanitizer *)

Module Sanitizer.

Definition amp : N := 38.
Definition semicolon : N := 59.
Definition space : N := 32.

(** The class [[a-zA-Z0-9#]] of the entity pattern. *)
Definition isEntityChar (c : N) : bool := isLetter c || isDigit c || (c =? 35)%N.

(** One attempt of [/&[a-zA-Z0-9#]+;/] at the head of [s]; the result is
    what follows the match.  The class excludes [;], so the greedy run is
    the only run that can be followed by [;]. *)
Definition matchEntity (s : JsString.t) : option JsString.t :=
  match s with
  | [] => None
  | c :: r =>
      if (c =? amp)%N then
        match span isEntityChar r with
        | (_ :: _, d :: rest) => if (d =? semicolon)%N then Some rest else None
        | _ => None
        end
      else None
  end.

(** [.replace(/&[a-zA-Z0-9#]+;/g, '')]: scan from the left, drop each
    match and resume after it. *)
Fixpoint removeEntitiesFrom (fuel : nat) (s : JsString.t) : JsString.t :=
  match fuel with
  | O => s
  | S fuel' =>
      match s with
      | [] => []
      | c :: r =>
          match matchEntity s with
          | Some rest => removeEntitiesFrom fuel' rest
          | None => c :: removeEntitiesFrom fuel' r
          end
      end
  end.

Definition removeEntities (s : JsString.t) : JsString.t :=
  removeEntitiesFrom (List.length s) s.

(** The characters kept by [.replace(/[^\w\s'-]/g, '')]. *)
Definition isKept (c : N) : bool :=
  (isWord c || isSpace c || (c =? 39) || (c =? 45))%N.

Definition removeSpecial (s : JsString.t) : JsString.t := filter isKept s.

(** [.replace(/\s+/g, ' ')]: [inRun] tells that the previous character
    belongs to the whitespace run being replaced. *)
Fixpoint collapseFrom (inRun : bool) (s : JsString.t) : JsString.t :=
  match s with
  | [] => []
  | c :: r =>
      if isSpace c
      then if inRun then collapseFrom true r else space :: collapseFrom true r
      else c :: collapseFrom false r
  end.

Definition normalizeWhitespace (s : JsString.t) : JsString.t := collapseFrom false s.

Definition sanitizeText (text : JsString.t) : JsString.t :=
  trim (normalizeWhitespace (removeSpecial (removeEntities text))).

(** Decidable form of: no two adjacent characters are both whitespace. *)
Fixpoint noSpaceRun (s : JsString.t) : bool :=
  match s with
  | [] => true
  | a :: r =>
      match r with
      | [] => true
      | b :: _ => negb (isSpace a && isSpace b) && noSpaceRun r
      end
  end.

End Sanitizer.

(** ** Completions, and the scripts' calls to the browser *)

Module Js.

(** A thrown [Error] object: its constructor name and its [message]. *)
Record Error := { name : JsString.t; message : JsString.t }.

Definition mkError (msg : string) : Error :=
  {| name := lit "Error"; message := lit msg |}.
Definition mkTypeError (msg : string) : Error :=
  {| name := lit "TypeError"; message := lit msg |}.
Definition mkURIError (msg : string) : Error :=
  {| name := lit "URIError"; message := lit msg |}.

(** How an evaluation ends: with a value, or with a throw.  A settled
    promise is read the same way: [await] returns the value of a fulfilled
    promise and throws the reason of a rejected one. *)
Inductive completion (A : Type) : Type :=
| Normal (a : A)
| Throw (e : Error).
Arguments Normal {A} a.
Arguments Throw {A} e.

Definition bind {A B} (c : completion A) (k : A -> completion B) : completion B :=
  match c with
  | Normal a => k a
  | Throw e => Throw e
  end.

(** [try { c } catch (error) { h error }] *)
Definition tryCatch {A} (c : completion A) (h : Error -> completion A) : completion A :=
  match c with
  | Normal a => Normal a
  | Throw e => h e
  end.

Definition isHighSurrogate (c : N) : bool := between 55296 56319 c.
Definition isLowSurrogate (c : N) : bool := between 56320 57343 c.

(** No lone surrogate: the strings on which [encodeURIComponent] returns. *)
Fixpoint isWellFormed (s : JsString.t) : bool :=
  match s with
  | [] => true
  | c :: r =>
      if isHighSurrogate c then
        match r with
        | d :: r' => isLowSurrogate d && isWellFormed r'
        | [] => false
        end
      else negb (isLowSurrogate c) && isWellFormed r
  end.

(** Whether [encodeURIComponent(s)] returns; the encoded text itself is
    not modelled. *)
Definition encodeURIComponent (s : JsString.t) : completion unit :=
  if isWellFormed s then Normal tt else Throw (mkURIError "URI malformed").

(** [a < b] on numbers. *)
Definition Qltb (a b : Q) : bool := negb (Qle_bool b a).

(** [`${n}`] for a non-negative integer. *)
Definition showN (n : N) : JsString.t :=
  lit (DecimalString.NilEmpty.string_of_uint (N.to_uint n)).

End Js.

Import Js.

(** ** JSON values, as [response.json()] produces them *)

Module Json.

#[warnings="-register-all"]
Inductive value : Type :=
| Null
| Bool (b : bool)
| Num (q : Q)
| Str (s : JsString.t)
| Arr (items : list value)
| Obj (fields : list (JsString.t * value)).

End Json.

(** ** The messages exchanged by the two scripts *)

Module Msg.

(** The envelope returned by the fetcher: [{success: true, data, word}] or
    [{success: false, error, word}]. *)
Inductive LookupResult : Type :=
| Success (word : JsString.t) (data : Json.value)
| Failure (word : JsString.t) (error : JsString.t).

Definition success (r : LookupResult) : bool :=
  match r with Success _ _ => true | Failure _ _ => false end.

Inductive Message : Type :=
| ShowLoading (selectedText : JsString.t)
| ShowDefinition (selectedText : JsString.t) (definition : LookupResult)
| ShowError (error : JsString.t)
| OtherAction (action : JsString.t).

End Msg.

Import Msg.

(** ** background.js: the definition fetcher *)

Module Fetcher.

Definition API_TIMEOUT : N := 5000.

(** What [fetch] resolves to: the fields the script reads, and what
    [response.json()] settles to. *)
Record Response := {
  ok : bool;
  status : N;
  statusText : JsString.t;
  json : completion Json.value
}.

(** The network, for one call: what [fetch(url)] settles to, and the time
    in milliseconds after the call at which the promise chained on it
    settles ([None]: it never does). *)
Record Network := {
  fetched : completion Response;
  settledAt : option N
}.

(** A promise that settles: when, and how. *)
Definition Settling (A : Type) : Type := (N * completion A)%type.

(** [Promise.race([p, q])], for a promise [q] whose timer was started
    before the request of [p]: the promise that settles first decides, and
    when both are due at the same time the timer, started first, fires
    first, so [q] decides. *)
Definition race {A} (p : option (Settling A)) (q : Settling A) : completion A :=
  match p with
  | Some (t, c) => if (t <? fst q)%N then c else snd q
  | None => snd q
  end.

(** [new Promise((_, reject) => setTimeout(() => reject(new Error('API timeout')), API_TIMEOUT))] *)
Definition timeoutPromise : Settling Json.value :=
  (API_TIMEOUT, Throw (mkError "API timeout")).

(** The [.then] callback on the response. *)
Definition onResponse (response : Response) : completion Json.value :=
  if negb (ok response)
  then Throw {| name := lit "Error";
                message := lit "API returned " ++ showN (status response)
                           ++ lit ": " ++ statusText response |}
  else json response.

(** [fetch(...).then(response => ...)] *)
Definition apiPromise (net : Network) : option (Settling Json.value) :=
  match settledAt net with
  | Some t => Some (t, bind (fetched net) onResponse)
  | None => None
  end.

(** [Array.isArray(result) && result.length > 0], with [result[0]]. *)
Definition firstOfArray (result : Json.value) : option Json.value :=
  match result with
  | Json.Arr (first :: _) => Some first
  | _ => None
  end.

Definition fetchDictionaryDefinition (net : Network) (word : JsString.t)
  : completion LookupResult :=
  tryCatch
    (bind (encodeURIComponent word) (fun _ =>
     bind (race (apiPromise net) timeoutPromise) (fun result =>
     match firstOfArray result with
     | Some first => Normal (Success word first)
     | None => Normal (Failure word (lit "No definition found"))
     end)))
    (fun error =>
       Normal (Failure word
                 (if JsString.eqb (message error) (lit "API timeout")
                  then lit "Request timed out"
                  else lit "Failed to fetch definition"))).

(** The reason the specification gives for a response that is not 2xx:
    the status, a space, the status text. *)
Definition specHttpReason (response : Response) : JsString.t :=
  showN (status response) ++ lit " " ++ statusText response.

End Fetcher.

(** ** background.js: calls to the browser, recorded *)

Module Trace.

(** The calls of the background script that the claims speak about. *)
Inductive Action : Type :=
| StorageGet
| TabsQuery
| ReadSelection (tabId : N)
| Sanitize (text : JsString.t)
| SendMessage (tabId : N) (message : Message)
| InjectContentScript (tabId : N)
| Wait (ms : N)
| FetchDefinition (word : JsString.t)
| ConsoleError (what : JsString.t).

(** A computation: the calls it made, in order, and how it ended. *)
Definition M (A : Type) : Type := (list Action * completion A)%type.

Definition ret {A} (a : A) : M A := ([], Normal a).

Definition bind {A B} (m : M A) (k : A -> M B) : M B :=
  match m with
  | (tr, Normal a) => let (tr', r) := k a in (tr ++ tr', r)
  | (tr, Throw e) => (tr, Throw e)
  end.

Definition tryCatch {A} (m : M A) (h : Error -> M A) : M A :=
  match m with
  | (tr, Normal a) => (tr, Normal a)
  | (tr, Throw e) => let (tr', r) := h e in (tr ++ tr', r)
  end.

(** A call to the browser and what it answered. *)
Definition call {A} (a : Action) (answer : completion A) : M A := ([a], answer).

Definition throw {A} (e : Error) : M A := ([], Throw e).

Definition count (p : Action -> bool) (tr : list Action) : nat :=
  List.length (filter p tr).

Definition isSend (a : Action) : bool :=
  match a with SendMessage _ _ => true | _ => false end.
Definition isInject (a : Action) : bool :=
  match a with InjectContentScript _ => true | _ => false end.
Definition isWait (a : Action) : bool :=
  match a with Wait _ => true | _ => false end.
Definition isSanitize (a : Action) : bool :=
  match a with Sanitize _ => true | _ => false end.
Definition isConsoleError (a : Action) : bool :=
  match a with ConsoleError _ => true | _ => false end.

End Trace.

Import Trace.

Declare Scope js_scope.
Notation "x <- c ;; k" := (Trace.bind c (fun x => k))
  (at level 61, c at next level, right associativity) : js_scope.
Notation "c ;;; k" := (Trace.bind c (fun _ => k))
  (at level 61, right associativity) : js_scope.
Open Scope js_scope.

(** ** background.js: the message router *)

Module Router.

(** What the browser answers during one delivery. *)
Record Delivery := {
  firstSend : completion unit;
  injection : completion unit;
  retrySend : completion unit
}.

(** The test of the [catch] block on the first failure. *)
Definition notInitialized (error : Error) : bool :=
  includes (message error) (lit "Could not establish connection")
  || includes (message error) (lit "Receiving end does not exist").

Definition sendMessageToContentScript (d : Delivery) (tabId : N) (message : Message)
  : M bool :=
  tryCatch
    (call (SendMessage tabId message) (firstSend d) ;;;
     ret true)
    (fun error =>
       if notInitialized error then
         tryCatch
           (call (InjectContentScript tabId) (injection d) ;;;
            call (Wait 100) (Normal tt) ;;;
            call (SendMessage tabId message) (retrySend d) ;;;
            ret true)
           (fun retryError =>
              call (ConsoleError (lit "Failed to inject content script or send message:"))
                   (Normal tt) ;;;
              ret false)
       else
         call (ConsoleError (lit "Error sending message to content script:"))
              (Normal tt) ;;;
         ret false).

(** The first send failed and the [catch] block takes the failure for a
    page whose script is not loaded yet. *)
Definition receiverMissing (d : Delivery) : Prop :=
  exists e, firstSend d = Throw e /\ notInitialized e = true.

End Router.

(** ** background.js: the shortcut handler *)

Module Lookup.

(** What the browser answers during one run of the handler. *)
Record Browser := {
  (** [result.extensionEnabled] of [chrome.storage.local.get]; [None] when
      the key is not stored. *)
  storedEnabled : completion (option Json.value);
  (** the first tab of [chrome.tabs.query], its id *)
  activeTab : completion (option N);
  (** [selection.toString()] in the page, [None] when the injected function
      gave no result *)
  pageSelection : completion (option JsString.t);
  loadingDelivery : Router.Delivery;
  network : Fetcher.Network;
  definitionDelivery : Router.Delivery;
  (** the second [chrome.tabs.query], of the [catch] block *)
  activeTabAgain : completion (option N);
  errorDelivery : Router.Delivery
}.

(** [result.extensionEnabled !== false] *)
Definition isEnabled (stored : option Json.value) : bool :=
  match stored with
  | Some (Json.Bool false) => false
  | _ => true
  end.

(** [getSelectedText]: the injected function trims the selection;
    [results[0]?.result || ''] and the [catch] give the empty string. *)
Definition getSelectedText (b : Browser) (tabId : N) : M JsString.t :=
  tryCatch
    (results <- call (ReadSelection tabId) (pageSelection b) ;;
     ret (match results with
          | Some text => trim text
          | None => []
          end))
    (fun error =>
       call (ConsoleError (lit "Error getting selected text:")) (Normal tt) ;;;
       ret []).

(** An assignment to a binding declared with [const]: the right-hand side
    is evaluated, then the assignment throws; the binding keeps its value. *)
Definition assignConst {A} (rhs : A) : M unit :=
  throw (mkTypeError "Assignment to constant variable.").

Definition isEmpty (s : JsString.t) : bool :=
  match s with [] => true | _ => false end.

(** The body of the [try] block. *)
Definition lookupWord (b : Browser) : M unit :=
  result <- call StorageGet (storedEnabled b) ;;
  if negb (isEnabled result) then ret tt else
  tab <- call TabsQuery (activeTab b) ;;
  match tab with
  | None => call (ConsoleError (lit "No active tab found")) (Normal tt)
  | Some tabId =>
      selectedText <- getSelectedText b tabId ;;
      if isEmpty selectedText || (List.length (trim selectedText) =? 0)
      then ret tt else
      (if 50 <? List.length selectedText
       then assignConst (substring0 50 selectedText)
       else ret tt) ;;;
      sanitizedText <- call (Sanitize selectedText)
                            (Normal (Sanitizer.sanitizeText selectedText)) ;;
      if List.length sanitizedText <? 1 then ret tt else
      Router.sendMessageToContentScript (loadingDelivery b) tabId
        (ShowLoading sanitizedText) ;;;
      definition <- call (FetchDefinition sanitizedText)
                         (Fetcher.fetchDictionaryDefinition (network b) sanitizedText) ;;
      Router.sendMessageToContentScript (definitionDelivery b) tabId
        (ShowDefinition sanitizedText definition) ;;;
      ret tt
  end.

(** The message of the [catch] block. *)
Definition failureNotice : Message :=
  ShowError (lit "Failed to fetch definition. Please try again.").

(** The [catch] block. *)
Definition reportError (b : Browser) : M unit :=
  call (ConsoleError (lit "Error in command handler:")) (Normal tt) ;;;
  tryCatch
    (tab <- call TabsQuery (activeTabAgain b) ;;
     match tab with
     | Some tabId =>
         Router.sendMessageToContentScript (errorDelivery b) tabId failureNotice ;;;
         ret tt
     | None => ret tt
     end)
    (fun sendError =>
       call (ConsoleError (lit "Error sending error message to content script:"))
            (Normal tt)).

(** The listener of [chrome.commands.onCommand]. *)
Definition onCommand (b : Browser) (command : JsString.t) : M unit :=
  if JsString.eqb command (lit "lookup-word")
  then tryCatch (lookupWord b) (fun error => reportError b)
  else ret tt.

(** The texts handed to the sanitizer during a run. *)
Definition sanitizerInputs (tr : list Action) : list JsString.t :=
  flat_map (fun a => match a with Sanitize text => [text] | _ => [] end) tr.

(** The messages sent to the page during a run. *)
Definition sentMessages (tr : list Action) : list Message :=
  flat_map (fun a => match a with SendMessage _ m => [m] | _ => [] end) tr.

End Lookup.

Close Scope js_scope.

(** ** content.js: theme detection *)

Module Theme.

Record Colors := {
  background : JsString.t;
  text : JsString.t;
  border : JsString.t;
  shadow : JsString.t
}.

Record ThemeInfo := {
  isDark : bool;
  brightness : Q;
  colors : Colors
}.

(** What the script reads from the page: the computed background colour of
    the body, and whether [body] and the root element carry the class
    [dark]. *)
Record Page := {
  backgroundColor : JsString.t;
  bodyHasDark : bool;
  rootHasDark : bool
}.

(** [Number(ds)] for a run of decimal digits: the number the digits
    write, which [Number] gives without rounding below 2^53. *)
Definition digitsValue (ds : JsString.t) : N :=
  fold_left (fun acc d => (acc * 10 + (d - 48))%N) ds 0%N.

(** [(\d+)]: the greedy run of digits, which must not be empty. *)
Definition digits1 (s : JsString.t) : option (N * JsString.t) :=
  match span isDigit s with
  | (d :: ds, rest) => Some (digitsValue (d :: ds), rest)
  | ([], _) => None
  end.

Fixpoint stripPrefix (p s : JsString.t) : option JsString.t :=
  match p, s with
  | [], _ => Some s
  | _ :: _, [] => None
  | a :: p', b :: s' => if (a =? b)%N then stripPrefix p' s' else None
  end.

(** One attempt of [/rgb\((\d+),\s*(\d+),\s*(\d+)\)/] at the head of
    [s].  Digits, commas and whitespace are disjoint classes, so the greedy
    runs are the only ones that can match. *)
Definition matchRgbAt (s : JsString.t) : option (N * N * N) :=
  match stripPrefix (lit "rgb(") s with
  | None => None
  | Some s1 =>
  match digits1 s1 with
  | None => None
  | Some (r, s2) =>
  match stripPrefix (lit ",") s2 with
  | None => None
  | Some s3 =>
  match digits1 (dropWhile isSpace s3) with
  | None => None
  | Some (g, s4) =>
  match stripPrefix (lit ",") s4 with
  | None => None
  | Some s5 =>
  match digits1 (dropWhile isSpace s5) with
  | None => None
  | Some (b, s6) =>
  match stripPrefix (lit ")") s6 with
  | None => None
  | Some _ => Some (r, g, b)
  end end end end end end end.

(** [backgroundColor.match(...)]: the leftmost match, if any. *)
Fixpoint rgbMatch (s : JsString.t) : option (N * N * N) :=
  match matchRgbAt s with
  | Some m => Some m
  | None => match s with
            | [] => None
            | _ :: rest => rgbMatch rest
            end
  end.

Definition ofN (n : N) : Q := inject_Z (Z.of_N n).

(** [(r * 299 + g * 587 + b * 114) / 1000], as a rational.  For components
    up to 255 the script's sum is exact and its quotient is the nearest
    number to this rational, on the same side of 128 and of 200. *)
Definition brightnessOf (r g b : N) : Q :=
  (ofN r * 299 + ofN g * 587 + ofN b * 114) / 1000.

Definition calculateContrastColors (brightness : Q) (isDark : bool) : Colors :=
  if Qltb 200 brightness then
    {| background := lit "#2c3e50"; text := lit "#ffffff";
       border := lit "#34495e"; shadow := lit "rgba(0, 0, 0, 0.3)" |}
  else if Qltb 128 brightness then
    {| background := lit "#34495e"; text := lit "#ecf0f1";
       border := lit "#2c3e50"; shadow := lit "rgba(0, 0, 0, 0.25)" |}
  else
    {| background := lit "#ffffff"; text := lit "#2c3e50";
       border := lit "#e9ecef"; shadow := lit "rgba(0, 0, 0, 0.15)" |}.

Definition detectThemeAndContrast (page : Page) : ThemeInfo :=
  let brightness :=
    match rgbMatch (backgroundColor page) with
    | Some (r, g, b) => brightnessOf r g b
    | None => 255
    end in
  let isDarkTheme :=
    Qltb brightness 128
    || bodyHasDark page
    || rootHasDark page
    || includes (backgroundColor page) (lit "rgb(0, 0, 0)")
    || includes (backgroundColor page) (lit "rgb(20, 20, 20)") in
  {| isDark := isDarkTheme;
     brightness := brightness;
     colors := calculateContrastColors brightness isDarkTheme |}.

End Theme.

(** ** content.js: placement of the popup *)

Module Placement.

(** [selection.getBoundingClientRect()], in viewport coordinates. *)
Record Rect := {
  top : Q;
  bottom : Q;
  left : Q;
  width : Q
}.

(** The window when the popup is placed, and the measured box of the
    popup. *)
Record View := {
  pageYOffset : Q;
  docScrollTop : Q;
  pageXOffset : Q;
  docScrollLeft : Q;
  innerHeight : Q;
  innerWidth : Q;
  popupHeight : Q;
  popupWidth : Q
}.

Record Placed := {
  finalTop : Q;
  finalLeft : Q;
  positionAbove : bool
}.

(** [a || b] on numbers: [b] when [a] is zero. *)
Definition orElse (a b : Q) : Q := if Qeq_bool a 0 then b else a.

(** [Math.max], [Math.min] *)
Definition max (a b : Q) : Q := if Qle_bool a b then b else a.
Definition min (a b : Q) : Q := if Qle_bool a b then a else b.

Definition margin : Q := 5.

Definition scrollTop (v : View) : Q := orElse (pageYOffset v) (docScrollTop v).
Definition scrollLeft (v : View) : Q := orElse (pageXOffset v) (docScrollLeft v).

Definition spaceAbove (rect : Rect) : Q := top rect.
Definition spaceBelow (rect : Rect) (v : View) : Q := innerHeight v - bottom rect.

(** The vertical side and [finalTop], with the sums taken in the
    rationals: the script's sums are these on measurements of the grid
    ([Grid.measured]). *)
Definition vertical (rect : Rect) (v : View) : bool * Q :=
  if Qle_bool (popupHeight v + margin) (spaceAbove rect) then
    (true, top rect + scrollTop v - popupHeight v - margin)
  else if Qle_bool (popupHeight v + margin) (spaceBelow rect v) then
    (false, bottom rect + scrollTop v + margin)
  else if Qltb (spaceBelow rect v) (spaceAbove rect) then
    (true, max 10 (top rect + scrollTop v - popupHeight v - margin))
  else
    (false, min (innerHeight v + scrollTop v - popupHeight v - 10)
                (bottom rect + scrollTop v + margin)).

Definition minLeft : Q := 10.
Definition maxLeft (v : View) : Q := innerWidth v - popupWidth v - 10.

(** [finalLeft], before and after it is kept between the two bounds, with
    the sums and halves taken in the rationals, as the script's are on
    measurements of the grid ([Grid.measured]). *)
Definition centred (rect : Rect) (v : View) : Q :=
  left rect + scrollLeft v + (width rect / 2) - (popupWidth v / 2).

Definition horizontal (rect : Rect) (v : View) : Q :=
  let finalLeft := centred rect v in
  if Qltb finalLeft minLeft then minLeft
  else if Qltb (maxLeft v) finalLeft then maxLeft v
  else finalLeft.

(** The values [positionPopup] writes to the popup's style and classes. *)
Definition positionPopup (rect : Rect) (v : View) : Placed :=
  let (above, finalTop) := vertical rect v in
  {| finalTop := finalTop;
     finalLeft := horizontal rect v;
     positionAbove := above |}.

End Placement.

(** ** content.js: the popup lifecycle *)

Module Content.

(** What [innerHTML] is set to: the text substituted in the template. *)
Inductive Body : Type :=
| LoadingBody (selectedText : JsString.t)
| DefinitionBody (meaning : JsString.t)
| ErrorBody (selectedText : JsString.t).

(** A popup element.  Elements are told apart by [pid]; the other fields
    are what the script stores on the element. *)
Record Popup := {
  pid : nat;
  themeInfo : Theme.ThemeInfo;
  innerHTML : option Body;
  placed : option Placement.Placed;
  escHandler : option nat;
  clickHandler : option nat
}.

(** The three globals of the script, and the part of the document it
    changes: the popup elements that are children of [document.body] and
    the listeners registered on [document], each named by the popup whose
    setup created it; [created] counts the elements created so far. *)
Record State := {
  currentPopup : option Popup;
  currentSelection : option Placement.Rect;
  isPopupVisible : bool;
  attached : list nat;
  keydownListeners : list nat;
  clickListeners : list nat;
  created : nat
}.

Definition initial : State :=
  {| currentPopup := None; currentSelection := None; isPopupVisible := false;
     attached := []; keydownListeners := []; clickListeners := [];
     created := 0 |}.

(** What the script reads from the window while it handles a message. *)
Record Window := {
  rangeCount : nat;
  rangeAt0 : Placement.Rect;
  page : Theme.Page;
  view : Placement.View
}.

(** [{success: true}] or [{success: false, error}] *)
Record Response := {
  success : bool;
  error : option JsString.t
}.

(** A step of the script: the state it leaves, and how it ended. *)
Definition Dom (A : Type) : Type := State -> State * completion A.

Definition ret {A} (a : A) : Dom A := fun st => (st, Normal a).

Definition bind {A B} (m : Dom A) (k : A -> Dom B) : Dom B :=
  fun st =>
    match m st with
    | (st', Normal a) => k a st'
    | (st', Throw e) => (st', Throw e)
    end.

Definition lift {A} (c : completion A) : Dom A := fun st => (st, c).

Definition modify (f : State -> State) : Dom unit := fun st => (f st, Normal tt).

Definition unregister (h : nat) (listeners : list nat) : list nat :=
  remove Nat.eq_dec h listeners.

Definition isAttached (p : Popup) (st : State) : bool :=
  existsb (Nat.eqb (pid p)) (attached st).

Definition removeCurrentPopup (st : State) : State :=
  match currentPopup st with
  | Some p =>
      {| currentPopup := None;
         currentSelection := None;
         isPopupVisible := false;
         attached := if isAttached p st
                     then remove Nat.eq_dec (pid p) (attached st)
                     else attached st;
         keydownListeners := match escHandler p with
                             | Some h => unregister h (keydownListeners st)
                             | None => keydownListeners st
                             end;
         clickListeners := match clickHandler p with
                           | Some h => unregister h (clickListeners st)
                           | None => clickListeners st
                           end;
         created := created st |}
  | None => st
  end.

Definition setSelection (r : Placement.Rect) (st : State) : State :=
  {| currentPopup := currentPopup st; currentSelection := Some r;
     isPopupVisible := isPopupVisible st; attached := attached st;
     keydownListeners := keydownListeners st;
     clickListeners := clickListeners st; created := created st |}.

Definition setVisible (st : State) : State :=
  {| currentPopup := currentPopup st; currentSelection := currentSelection st;
     isPopupVisible := true; attached := attached st;
     keydownListeners := keydownListeners st;
     clickListeners := clickListeners st; created := created st |}.

(** [currentPopup = createPopupElement()]: a new element, styled for the
    page's theme. *)
Definition createPopupElement (w : Window) (st : State) : State :=
  {| currentPopup :=
       Some {| pid := created st;
               themeInfo := Theme.detectThemeAndContrast (page w);
               innerHTML := None; placed := None;
               escHandler := None; clickHandler := None |};
     currentSelection := currentSelection st;
     isPopupVisible := isPopupVisible st; attached := attached st;
     keydownListeners := keydownListeners st;
     clickListeners := clickListeners st; created := S (created st) |}.

(** A change of the element [currentPopup] refers to. *)
Definition onPopup (f : Popup -> Popup) (st : State) : State :=
  {| currentPopup := option_map f (currentPopup st);
     currentSelection := currentSelection st;
     isPopupVisible := isPopupVisible st; attached := attached st;
     keydownListeners := keydownListeners st;
     clickListeners := clickListeners st; created := created st |}.

Definition setInnerHTML (b : Body) (st : State) : State :=
  onPopup (fun p => {| pid := pid p; themeInfo := themeInfo p;
                       innerHTML := Some b; placed := placed p;
                       escHandler := escHandler p;
                       clickHandler := clickHandler p |}) st.

(** [document.body.appendChild(popup)]: the element becomes the last child
    (it is moved there if it is already a child). *)
Definition appendChild (p : Popup) (st : State) : State :=
  {| currentPopup := currentPopup st;
     currentSelection := currentSelection st;
     isPopupVisible := isPopupVisible st;
     attached := remove Nat.eq_dec (pid p) (attached st) ++ [pid p];
     keydownListeners := keydownListeners st;
     clickListeners := clickListeners st; created := created st |}.

(** [positionPopup(currentPopup, currentSelection)] *)
Definition positionPopup (w : Window) (st : State) : State :=
  match currentPopup st, currentSelection st with
  | Some p, Some rect =>
      onPopup (fun p => {| pid := pid p; themeInfo := themeInfo p;
                           innerHTML := innerHTML p;
                           placed := Some (Placement.positionPopup rect (view w));
                           escHandler := escHandler p;
                           clickHandler := clickHandler p |})
              (appendChild p st)
  | _, _ => st
  end.

(** [setupPopupEventListeners(currentPopup)]: the two new handlers are
    registered on [document] and stored on the element. *)
Definition setupPopupEventListeners (st : State) : State :=
  match currentPopup st with
  | Some p =>
      {| currentPopup :=
           Some {| pid := pid p; themeInfo := themeInfo p;
                   innerHTML := innerHTML p; placed := placed p;
                   escHandler := Some (pid p);
                   clickHandler := Some (pid p) |};
         currentSelection := currentSelection st;
         isPopupVisible := isPopupVisible st; attached := attached st;
         keydownListeners := keydownListeners st ++ [pid p];
         clickListeners := clickListeners st ++ [pid p];
         created := created st |}
  | None => st
  end.

Declare Scope dom_scope.
Notation "x <- c ;; k" := (bind c (fun x => k))
  (at level 61, c at next level, right associativity) : dom_scope.
Notation "c ;;; k" := (bind c (fun _ => k))
  (at level 61, right associativity) : dom_scope.
Local Open Scope dom_scope.

Section Handlers.

(** [formatDefinition] builds HTML text from a JSON value of any shape,
    through JavaScript's conversions to strings and numbers; it returns a
    text or throws (a [meanings] that is not an array, a [null] entry).
    The lifecycle is stated for every such function. *)
Variable formatDefinition : Json.value -> completion JsString.t.

(** [definition.data.word]: reading a property of [null] throws. *)
Definition readWord (data : Json.value) : completion unit :=
  match data with
  | Json.Null => Throw (mkTypeError "Cannot read properties of null (reading 'word')")
  | _ => Normal tt
  end.

Definition showLoadingPopup (w : Window) (selectedText : JsString.t) : Dom unit :=
  modify removeCurrentPopup ;;;
  if rangeCount w =? 0 then ret tt else
  modify (setSelection (rangeAt0 w)) ;;;
  modify (createPopupElement w) ;;;
  modify (setInnerHTML (LoadingBody selectedText)) ;;;
  modify (positionPopup w) ;;;
  modify setVisible ;;;
  modify setupPopupEventListeners.

Definition showErrorPopup (w : Window) (error selectedText : JsString.t) : Dom unit :=
  modify removeCurrentPopup ;;;
  if rangeCount w =? 0 then ret tt else
  modify (setSelection (rangeAt0 w)) ;;;
  modify (createPopupElement w) ;;;
  lift (encodeURIComponent selectedText) ;;;
  modify (setInnerHTML (ErrorBody selectedText)) ;;;
  modify (positionPopup w) ;;;
  modify setVisible ;;;
  modify setupPopupEventListeners.

Definition showDefinitionPopup (w : Window) (selectedText : JsString.t)
           (definition : LookupResult) : Dom unit :=
  modify removeCurrentPopup ;;;
  match definition with
  | Failure _ reason => showErrorPopup w reason selectedText
  | Success _ data =>
      if rangeCount w =? 0 then ret tt else
      modify (setSelection (rangeAt0 w)) ;;;
      modify (createPopupElement w) ;;;
      lift (readWord data) ;;;
      meaning <- lift (formatDefinition data) ;;
      modify (setInnerHTML (DefinitionBody meaning)) ;;;
      modify (positionPopup w) ;;;
      modify setVisible ;;;
      modify setupPopupEventListeners
  end.

(** The [switch] of the message listener. *)
Definition dispatch (w : Window) (message : Message) : Dom unit :=
  match message with
  | ShowLoading selectedText => showLoadingPopup w selectedText
  | ShowDefinition selectedText definition =>
      showDefinitionPopup w selectedText definition
  | ShowError error => showErrorPopup w error []
  | OtherAction _ => ret tt
  end.

(** The listener of [chrome.runtime.onMessage]: the state it leaves and
    the response it sends. *)
Definition onMessage (w : Window) (message : Message) (st : State)
  : State * Response :=
  match dispatch w message st with
  | (st', Normal _) => (st', {| success := true; error := None |})
  | (st', Throw e) => (st', {| success := false; error := Some (Js.message e) |})
  end.

(** Where a click lands: in a popup element (on its close button or
    not), or elsewhere in the page. *)
Inductive Target : Type :=
| InPopup (element : nat) (onCloseButton : bool)
| Elsewhere.

Definition contains (popup : nat) (target : Target) : bool :=
  match target with
  | InPopup element _ => Nat.eqb element popup
  | Elsewhere => false
  end.

(** [escHandler] *)
Definition escHandler_run (key : JsString.t) (st : State) : State :=
  if JsString.eqb key (lit "Escape") && isPopupVisible st
  then removeCurrentPopup st else st.

(** [clickHandler] of the popup [popup] *)
Definition clickHandler_run (popup : nat) (target : Target) (st : State) : State :=
  if isPopupVisible st && negb (contains popup target)
  then removeCurrentPopup st else st.

(** What happens in the page. *)
Inductive Event : Type :=
| Deliver (w : Window) (message : Message)
| KeyDown (key : JsString.t)
| Click (target : Target)
| BeforeUnload.

Definition step (st : State) (e : Event) : State :=
  match e with
  | Deliver w message => fst (onMessage w message st)
  | KeyDown key =>
      fold_left (fun s _ => escHandler_run key s) (keydownListeners st) st
  | Click target =>
      let st1 := match target with
                 | InPopup _ true => removeCurrentPopup st
                 | _ => st
                 end in
      fold_left (fun s popup => clickHandler_run popup target s)
                (clickListeners st1) st1
  | BeforeUnload => removeCurrentPopup st
  end.

Definition run (events : list Event) : State := fold_left step events initial.

(** The popup elements on the page. *)
Definition popupsOnPage (st : State) : nat := List.length (attached st).

Definition isShow (message : Message) : bool :=
  match message with
  | OtherAction _ => false
  | _ => true
  end.

End Handlers.

(** No popup: no element on the page, no listener on the document. *)
Definition Clean (st : State) : Prop :=
  currentPopup st = None /\ attached st = []
  /\ keydownListeners st = [] /\ clickListeners st = [].

(** A handler stored on the element [p] is the one registered on the
    document. *)
Definition Registered (stored : option nat) (p : Popup) (listeners : list nat) : Prop :=
  (stored = None /\ listeners = [])
  \/ (stored = Some (pid p) /\ listeners = [pid p]).

(** What is on the page belongs to the element [currentPopup] refers to. *)
Definition Consistent (st : State) : Prop :=
  match currentPopup st with
  | None => attached st = [] /\ keydownListeners st = [] /\ clickListeners st = []
  | Some p =>
      (pid p < created st)%nat
      /\ (attached st = [] \/ attached st = [pid p])
      /\ Registered (escHandler p) p (keydownListeners st)
      /\ Registered (clickHandler p) p (clickListeners st)
  end.

(** What a handler leaves when it starts without a popup: at most the
    element it created, with its two listeners. *)
Definition Rebuilt (st st' : State) : Prop :=
  Consistent st'
  /\ (created st <= created st')%nat
  /\ (forall x, In x (attached st') -> x = created st)
  /\ (forall h, In h (keydownListeners st') -> h = created st)
  /\ (forall h, In h (clickListeners st') -> h = created st).

End Content.

(** ** Concrete inputs *)

Module Samples.

Definition okDelivery : Router.Delivery :=
  {| Router.firstSend := Normal tt;
     Router.injection := Normal tt;
     Router.retrySend := Normal tt |}.

(** The page has no listener yet and the script cannot be injected into
    it. *)
Definition noReceiver : Error :=
  mkError "Could not establish connection. Receiving end does not exist.".

Definition blockedDelivery : Router.Delivery :=
  {| Router.firstSend := Throw noReceiver;
     Router.injection := Throw (mkError "Cannot access a chrome:// URL");
     Router.retrySend := Normal tt |}.

Definition lateReceiver : Router.Delivery :=
  {| Router.firstSend := Throw noReceiver;
     Router.injection := Normal tt;
     Router.retrySend := Normal tt |}.

(** A response [200 OK] after 120ms whose body is an array of two
    entries. *)
Definition entry (word : string) : Json.value :=
  Json.Obj [(lit "word", Json.Str (lit word)); (lit "meanings", Json.Arr [])].

Definition found : Fetcher.Network :=
  {| Fetcher.fetched :=
       Normal {| Fetcher.ok := true; Fetcher.status := 200;
                 Fetcher.statusText := lit "OK";
                 Fetcher.json := Normal (Json.Arr [entry "hello"; entry "hullo"]) |};
     Fetcher.settledAt := Some 120%N |}.

(** A response [200 OK] after 120ms whose body is the empty array. *)
Definition nothingFound : Fetcher.Network :=
  {| Fetcher.fetched :=
       Normal {| Fetcher.ok := true; Fetcher.status := 200;
                 Fetcher.statusText := lit "OK";
                 Fetcher.json := Normal (Json.Arr []) |};
     Fetcher.settledAt := Some 120%N |}.

(** A response [200 OK] whose promise settles when the timer is due. *)
Definition onTheDot : Fetcher.Network :=
  {| Fetcher.fetched :=
       Normal {| Fetcher.ok := true; Fetcher.status := 200;
                 Fetcher.statusText := lit "OK";
                 Fetcher.json := Normal (Json.Arr [entry "hello"; entry "hullo"]) |};
     Fetcher.settledAt := Some 5000%N |}.

(** A response [404 Not Found] after 120ms. *)
Definition notFoundResponse : Fetcher.Response :=
  {| Fetcher.ok := false; Fetcher.status := 404;
     Fetcher.statusText := lit "Not Found";
     Fetcher.json := Normal (Json.Obj [(lit "title", Json.Str (lit "No Definitions Found"))]) |}.

Definition notFound : Fetcher.Network :=
  {| Fetcher.fetched := Normal notFoundResponse;
     Fetcher.settledAt := Some 120%N |}.

(** A response that arrives after 7 seconds. *)
Definition slow : Fetcher.Network :=
  {| Fetcher.fetched := Fetcher.fetched found;
     Fetcher.settledAt := Some 7000%N |}.

(** No connection: [fetch] rejects after 30ms. *)
Definition offline : Fetcher.Network :=
  {| Fetcher.fetched := Throw (mkTypeError "Failed to fetch");
     Fetcher.settledAt := Some 30%N |}.

(** A selection of 60 characters. *)
Definition longSelection : JsString.t := repeat 97%N 60.

Definition browser (selection : JsString.t) : Lookup.Browser :=
  {| Lookup.storedEnabled := Normal None;
     Lookup.activeTab := Normal (Some 7%N);
     Lookup.pageSelection := Normal (Some selection);
     Lookup.loadingDelivery := okDelivery;
     Lookup.network := found;
     Lookup.definitionDelivery := okDelivery;
     Lookup.activeTabAgain := Normal (Some 7%N);
     Lookup.errorDelivery := okDelivery |}.

(** A page scrolled down by 1000px; the selection is in the middle of a
    window 300px high and the popup is 200px high: it fits on neither
    side, and there is more room above. *)
Definition midRect : Placement.Rect :=
  {| Placement.top := 150; Placement.bottom := 170;
     Placement.left := 100; Placement.width := 80 |}.

Definition scrolledView : Placement.View :=
  {| Placement.pageYOffset := 1000; Placement.docScrollTop := 1000;
     Placement.pageXOffset := 0; Placement.docScrollLeft := 0;
     Placement.innerHeight := 300; Placement.innerWidth := 1200;
     Placement.popupHeight := 200; Placement.popupWidth := 300 |}.

(** A selection with 400px above it, in a page that is not scrolled. *)
Definition lowRect : Placement.Rect :=
  {| Placement.top := 400; Placement.bottom := 420;
     Placement.left := 100; Placement.width := 80 |}.

Definition plainView : Placement.View :=
  {| Placement.pageYOffset := 0; Placement.docScrollTop := 0;
     Placement.pageXOffset := 0; Placement.docScrollLeft := 0;
     Placement.innerHeight := 800; Placement.innerWidth := 1200;
     Placement.popupHeight := 200; Placement.popupWidth := 300 |}.

Definition darkPage : Theme.Page :=
  {| Theme.backgroundColor := lit "rgb(20, 30, 40)";
     Theme.bodyHasDark := false; Theme.rootHasDark := false |}.

(** The computed colour of a body without a background. *)
Definition transparentPage : Theme.Page :=
  {| Theme.backgroundColor := lit "rgba(0, 0, 0, 0)";
     Theme.bodyHasDark := false; Theme.rootHasDark := false |}.

(** The window while a message is handled, with [ranges] ranges in the
    selection. *)
Definition window (ranges : nat) : Content.Window :=
  {| Content.rangeCount := ranges; Content.rangeAt0 := lowRect;
     Content.page := darkPage; Content.view := plainView |}.

(** A formatter that returns the text for an entry without meanings,
    whatever the entry. *)
Definition plainFormat (data : Json.value) : completion JsString.t :=
  Normal (lit "<p>No definition available</p>").

(** A lookup seen from the page: the loading popup, then the definition. *)
Definition lookupEvents : list Content.Event :=
  [Content.Deliver (window 1) (ShowLoading (lit "hello"));
   Content.Deliver (window 1)
     (ShowDefinition (lit "hello") (Success (lit "hello") (entry "hello")))].

End Samples.

(** ** chrome.storage.local, as the scripts use it *)

Module Storage.

(** The value stored under the key [extensionEnabled], the only key the
    scripts use; [None] when nothing is stored. *)
Definition t := option Json.value.

(** [chrome.storage.local.get(['extensionEnabled'])], read at
    [result.extensionEnabled].  [failure] is the reason of the rejection when
    the browser rejects the call. *)
Definition get (failure : option Error) (area : t) : completion (option Json.value) :=
  match failure with
  | None => Normal area
  | Some e => Throw e
  end.

(** [chrome.storage.local.set({ extensionEnabled: value })]; a rejected call
    leaves the area as it was. *)
Definition set (failure : option Error) (value : bool) (area : t) : t * completion unit :=
  match failure with
  | None => (Some (Json.Bool value), Normal tt)
  | Some e => (area, Throw e)
  end.

End Storage.

(** ** background.js: installation and update *)

Module Install.

(** The listener of [chrome.runtime.onInstalled]: the area it leaves, what
    it logs as error, and how it ends. *)
Definition onInstalled (failure : option Error) (area : Storage.t)
  : Storage.t * M unit :=
  match Storage.set failure true area with
  | (area', Normal _) => (area', ret tt)
  | (area', Throw _) =>
      (area', call (ConsoleError (lit "Error setting default extension state:"))
                   (Normal tt))
  end.

End Install.

(** ** popup.js: the control panel *)

Module Panel.

(** The panel: whether the switch carries the class [active], whether
    [handleToggleClick] listens to its clicks, the text of the shortcut
    display, and the storage area. *)
Record State := {
  active : bool;
  listening : bool;
  shortcutText : option JsString.t;
  area : Storage.t
}.

(** [updateToggleSwitch(isEnabled)] *)
Definition updateToggleSwitch (isEnabled : bool) (st : State) : State :=
  {| active := isEnabled; listening := listening st;
     shortcutText := shortcutText st; area := area st |}.

(** [updateShortcutDisplay()]; [isMac] is the result of the test on
    [navigator.platform], whose case conversion is not modelled. *)
Definition updateShortcutDisplay (isMac : bool) (st : State) : State :=
  {| active := active st; listening := listening st;
     shortcutText := Some (if isMac then lit "Cmd+Shift+L" else lit "Ctrl+Shift+L");
     area := area st |}.

Definition listen (st : State) : State :=
  {| active := active st; listening := true;
     shortcutText := shortcutText st; area := area st |}.

Definition setArea (a : Storage.t) (st : State) : State :=
  {| active := active st; listening := listening st;
     shortcutText := shortcutText st; area := a |}.

(** [initializePopup()]; [readFailure] is the rejection of the read, if
    any. *)
Definition initializePopup (readFailure : option Error) (isMac : bool) (st : State)
  : State :=
  match Storage.get readFailure (area st) with
  | Normal result =>
      updateShortcutDisplay isMac
        (listen (updateToggleSwitch (Lookup.isEnabled result) st))
  | Throw _ => updateToggleSwitch true st
  end.

(** What the browser answers during one click: the rejection of the write,
    if any, and the rejection of the read of the [catch] block, if any. *)
Record Click := {
  writeFailure : option Error;
  rereadFailure : option Error
}.

(** [handleToggleClick()] *)
Definition handleToggleClick (c : Click) (st : State) : State * completion unit :=
  let newState := negb (active st) in
  let st1 := updateToggleSwitch newState st in
  match Storage.set (writeFailure c) newState (area st1) with
  | (a, Normal _) => (setArea a st1, Normal tt)
  | (a, Throw _) =>
      match Storage.get (rereadFailure c) a with
      | Normal result =>
          (updateToggleSwitch (Lookup.isEnabled result) (setArea a st1), Normal tt)
      | Throw e => (setArea a st1, Throw e)
      end
  end.

(** A click on the switch: the handler runs if it was registered. *)
Definition click (st : State) (c : Click) : State :=
  if listening st then fst (handleToggleClick c st) else st.

(** A click during which the browser rejects nothing. *)
Definition quiet : Click := {| writeFailure := None; rereadFailure := None |}.

(** The switch shows what is stored. *)
Definition Agrees (st : State) : Prop := active st = Lookup.isEnabled (area st).

(** A click during which the write or the read of the [catch] block
    succeeds. *)
Definition Recovers (c : Click) : Prop :=
  writeFailure c = None \/ rereadFailure c = None.

End Panel.

(** ** Readings of a run of the shortcut handler *)

Module Run.

(** The words handed to the fetcher during a run. *)
Definition fetchedWords (tr : list Action) : list JsString.t :=
  flat_map (fun a => match a with FetchDefinition word => [word] | _ => [] end) tr.

(** The text [getSelectedText] returns for what the browser answers. *)
Definition selectedTextOf (b : Lookup.Browser) : JsString.t :=
  match Lookup.pageSelection b with
  | Normal (Some text) => trim text
  | _ => []
  end.

(** What [getSelectedText] logs when the selection cannot be read. *)
Definition readLog (b : Lookup.Browser) : list Action :=
  match Lookup.pageSelection b with
  | Normal _ => []
  | Throw _ => [ConsoleError (lit "Error getting selected text:")]
  end.

(** The tabs and messages of the sends of a run. *)
Definition sends (tr : list Action) : list (N * Message) :=
  flat_map (fun a => match a with SendMessage tabId m => [(tabId, m)] | _ => [] end) tr.

(** The tabs of the injections of a run. *)
Definition injections (tr : list Action) : list N :=
  flat_map (fun a => match a with InjectContentScript tabId => [tabId] | _ => [] end) tr.

End Run.

(** ** Readings of the state of the page *)

Module Page.

Import Content.

(** Nothing of a popup is on the page. *)
Definition Dismissed (st : State) : Prop :=
  isPopupVisible st = false /\ attached st = []
  /\ keydownListeners st = [] /\ clickListeners st = [].

(** The flag [isPopupVisible] tells what is on the page: when it is set,
    the element [currentPopup] refers to is the one popup on the page, placed,
    with its two handlers registered; when it is not, nothing is. *)
Definition Shown (st : State) : Prop :=
  if isPopupVisible st then
    exists p,
      currentPopup st = Some p
      /\ attached st = [pid p]
      /\ keydownListeners st = [pid p] /\ clickListeners st = [pid p]
      /\ escHandler p = Some (pid p) /\ clickHandler p = Some (pid p)
      /\ placed p <> None /\ innerHTML p <> None
  else
    attached st = [] /\ keydownListeners st = [] /\ clickListeners st = [].

(** Whether building the body of the popup for a message returns. *)
Definition bodyBuilds (formatDefinition : Json.value -> completion JsString.t)
           (message : Message) : bool :=
  match message with
  | ShowLoading _ => true
  | ShowDefinition _ (Success _ data) =>
      match Js.bind (readWord data) (fun _ => formatDefinition data) with
      | Normal _ => true
      | Throw _ => false
      end
  | ShowDefinition text (Failure _ _) => isWellFormed text
  | ShowError _ => true
  | OtherAction _ => false
  end.

(** The text substituted in the body of the popup for a message. *)
Definition bodyOf (formatDefinition : Json.value -> completion JsString.t)
           (message : Message) : option Body :=
  match message with
  | ShowLoading text => Some (LoadingBody text)
  | ShowDefinition _ (Success _ data) =>
      match formatDefinition data with
      | Normal meaning => Some (DefinitionBody meaning)
      | Throw _ => None
      end
  | ShowDefinition text (Failure _ _) => Some (ErrorBody text)
  | ShowError _ => Some (ErrorBody [])
  | OtherAction _ => None
  end.

(** The state without a popup, after [n] elements were created. *)
Definition blank (selection : option Placement.Rect) (n : nat) : State :=
  {| currentPopup := None; currentSelection := selection;
     isPopupVisible := false; attached := []; keydownListeners := [];
     clickListeners := []; created := n |}.

(** The state a show handler leaves when it ran to its end in the window
    [w], having created the element [n] with the body [body]. *)
Definition shownState (w : Window) (body : option Body) (n : nat) : State :=
  {| currentPopup :=
       Some {| pid := n;
               themeInfo := Theme.detectThemeAndContrast (page w);
               innerHTML := body;
               placed := Some (Placement.positionPopup (rangeAt0 w) (view w));
               escHandler := Some n; clickHandler := Some n |};
     currentSelection := Some (rangeAt0 w);
     isPopupVisible := true; attached := [n]; keydownListeners := [n];
     clickListeners := [n]; created := S n |}.

(** The state a show handler leaves when building the body threw: the
    element [n] was created and is referred to, but is not on the page. *)
Definition abandonedState (w : Window) (n : nat) : State :=
  {| currentPopup :=
       Some {| pid := n;
               themeInfo := Theme.detectThemeAndContrast (page w);
               innerHTML := None; placed := None;
               escHandler := None; clickHandler := None |};
     currentSelection := Some (rangeAt0 w);
     isPopupVisible := false; attached := []; keydownListeners := [];
     clickListeners := []; created := S n |}.

End Page.

(** ** Computed colours *)

Module Css.

(** The text [rgb(r, g, b)], as the browser writes a computed colour
    without transparency. *)
Definition rgbText (r g b : N) : JsString.t :=
  lit "rgb(" ++ showN r ++ lit ", " ++ showN g ++ lit ", " ++ showN b ++ lit ")".

End Css.

(** ** Further concrete inputs *)

Module Scenarios.

(** The extension was switched off in the panel. *)
Definition disabledBrowser : Lookup.Browser :=
  {| Lookup.storedEnabled := Normal (Some (Json.Bool false));
     Lookup.activeTab := Normal (Some 7%N);
     Lookup.pageSelection := Normal (Some (lit "hello"));
     Lookup.loadingDelivery := Samples.okDelivery;
     Lookup.network := Samples.found;
     Lookup.definitionDelivery := Samples.okDelivery;
     Lookup.activeTabAgain := Normal (Some 7%N);
     Lookup.errorDelivery := Samples.okDelivery |}.

(** The page's script is injected at the first message of the run. *)
Definition freshPage : Lookup.Browser :=
  {| Lookup.storedEnabled := Normal None;
     Lookup.activeTab := Normal (Some 7%N);
     Lookup.pageSelection := Normal (Some (lit "  hello "));
     Lookup.loadingDelivery := Samples.lateReceiver;
     Lookup.network := Samples.found;
     Lookup.definitionDelivery := Samples.okDelivery;
     Lookup.activeTabAgain := Normal (Some 7%N);
     Lookup.errorDelivery := Samples.okDelivery |}.

(** The panel, open and initialized, with the switch on. *)
Definition panelOn : Panel.State :=
  {| Panel.active := true; Panel.listening := true;
     Panel.shortcutText := Some (lit "Ctrl+Shift+L");
     Panel.area := Some (Json.Bool true) |}.

(** The panel's document before [initializePopup] has run; the extension
    was switched off earlier. *)
Definition panelLoaded : Panel.State :=
  {| Panel.active := false; Panel.listening := false;
     Panel.shortcutText := None;
     Panel.area := Some (Json.Bool false) |}.

Definition quotaExceeded : Error := mkError "QUOTA_BYTES quota exceeded".

(** A click during which the write is rejected and the read succeeds. *)
Definition failedWrite : Panel.Click :=
  {| Panel.writeFailure := Some quotaExceeded; Panel.rereadFailure := None |}.

(** A definition message whose entry is [null]: reading its word throws. *)
Definition nullEntry : Message :=
  ShowDefinition (lit "hello") (Success (lit "hello") Json.Null).

(** The popup element on the page after the lookup of [Samples.lookupEvents]. *)
Definition lookupPopup : Content.Popup :=
  {| Content.pid := 1%nat;
     Content.themeInfo := Theme.detectThemeAndContrast Samples.darkPage;
     Content.innerHTML :=
       Some (Content.DefinitionBody (lit "<p>No definition available</p>"));
     Content.placed :=
       Some (Placement.positionPopup Samples.lowRect Samples.plainView);
     Content.escHandler := Some 1%nat; Content.clickHandler := Some 1%nat |}.

(** A selection near the top of a window 600px high; the popup is 200px
    high. *)
Definition highRect : Placement.Rect :=
  {| Placement.top := 40; Placement.bottom := 60;
     Placement.left := 20; Placement.width := 80 |}.

Definition tallView : Placement.View :=
  {| Placement.pageYOffset := 0; Placement.docScrollTop := 0;
     Placement.pageXOffset := 0; Placement.docScrollLeft := 0;
     Placement.innerHeight := 600; Placement.innerWidth := 1200;
     Placement.popupHeight := 200; Placement.popupWidth := 300 |}.

(** A window 300px high, not scrolled, in which the popup of 200px fits on
    neither side of a selection in its lower half. *)
Definition lowerRect : Placement.Rect :=
  {| Placement.top := 130; Placement.bottom := 150;
     Placement.left := 100; Placement.width := 80 |}.

Definition shortView : Placement.View :=
  {| Placement.pageYOffset := 0; Placement.docScrollTop := 0;
     Placement.pageXOffset := 0; Placement.docScrollLeft := 0;
     Placement.innerHeight := 300; Placement.innerWidth := 1200;
     Placement.popupHeight := 200; Placement.popupWidth := 300 |}.

(** A selection and a scrolled window measured in fractions of a pixel. *)
Definition fractionRect : Placement.Rect :=
  {| Placement.top := 1601 # 4; Placement.bottom := 3363 # 8;
     Placement.left := 6405 # 64; Placement.width := 161 # 2 |}.

Definition scrolledView : Placement.View :=
  {| Placement.pageYOffset := 241 # 2; Placement.docScrollTop := 241 # 2;
     Placement.pageXOffset := 0; Placement.docScrollLeft := 0;
     Placement.innerHeight := 800; Placement.innerWidth := 1200;
     Placement.popupHeight := 6405 # 32; Placement.popupWidth := 4803 # 16 |}.

End Scenarios.

(** ** Measurements on which the arithmetic of the placement is exact *)

Module Grid.

(** A multiple of 1/64 of a pixel, of magnitude 2^32 pixels at most.  The
    sums, differences and halves that [positionPopup] takes of such
    measurements are multiples of 1/128 of magnitude below 2^35, which
    JavaScript's numbers, with their 53 binary digits, hold and compute
    without rounding, as the rationals of [Placement] do. *)
Definition measured (q : Q) : bool :=
  (((64 * Qnum q) mod Zpos (Qden q) =? 0)
   && (Z.abs (Qnum q) <=? 2 ^ 32 * Zpos (Qden q)))%Z.

Definition measuredRect (rect : Placement.Rect) : bool :=
  measured (Placement.top rect) && measured (Placement.bottom rect)
  && measured (Placement.left rect) && measured (Placement.width rect).

Definition measuredView (v : Placement.View) : bool :=
  measured (Placement.pageYOffset v) && measured (Placement.docScrollTop v)
  && measured (Placement.pageXOffset v) && measured (Placement.docScrollLeft v)
  && measured (Placement.innerHeight v) && measured (Placement.innerWidth v)
  && measured (Placement.popupHeight v) && measured (Placement.popupWidth v).

End Grid.

(** * Properties *)

Unset Implicit Arguments.
Open Scope nat_scope.

(** ** Strings *)

Module JsStringFacts.

Lemma eqb_eq (a b : JsString.t) : JsString.eqb a b = true <-> a = b.
Proof.
  unfold JsString.eqb.
  destruct (list_eq_dec N.eq_dec a b); split; congruence.
Qed.

Lemma dropWhile_suffix p (s : JsString.t) : exists pre, s = pre ++ dropWhile p s.
Proof.
  induction s as [|c r IH]; simpl.
  - now exists [].
  - destruct (p c).
    + destruct IH as [pre E]. exists (c :: pre). simpl. now f_equal.
    + now exists [].
Qed.

Lemma dropWhile_head p (s : JsString.t) c r :
  dropWhile p s = c :: r -> p c = false.
Proof.
  induction s as [|d t IH]; simpl; [discriminate|].
  destruct (p d) eqn:E; [exact IH|].
  intros H. injection H as -> _. exact E.
Qed.

Lemma dropWhile_stop p (s : JsString.t) c r :
  p c = false -> exists t, dropWhile p (s ++ c :: r) = t ++ c :: r.
Proof.
  intros Hc. induction s as [|d s IH]; simpl.
  - rewrite Hc. now exists [].
  - destruct (p d); [exact IH|]. now exists (d :: s).
Qed.

Lemma trimEnd_prefix (s : JsString.t) : exists suf, s = trimEnd s ++ suf.
Proof.
  unfold trimEnd.
  destruct (dropWhile_suffix isSpace (rev s)) as [pre E].
  exists (rev pre).
  rewrite <- rev_app_distr, <- E. symmetry. apply rev_involutive.
Qed.

Lemma trimEnd_last (s r : JsString.t) c :
  trimEnd s = r ++ [c] -> isSpace c = false.
Proof.
  unfold trimEnd. intros H.
  apply (f_equal (@rev N)) in H.
  rewrite rev_involutive, rev_app_distr in H. simpl in H.
  eapply dropWhile_head; eauto.
Qed.

Lemma trimEnd_keeps_head (c : N) (r : JsString.t) :
  isSpace c = false -> exists r', trimEnd (c :: r) = c :: r'.
Proof.
  intros Hc. unfold trimEnd. simpl rev.
  destruct (dropWhile_stop isSpace (rev r) c [] Hc) as [t E].
  rewrite E, rev_app_distr. simpl. now eexists.
Qed.

(** The sanitizer's result is an infix of what it trims. *)
Lemma trim_infix (s : JsString.t) : exists pre suf, s = pre ++ trim s ++ suf.
Proof.
  unfold trim, trimStart.
  destruct (dropWhile_suffix isSpace s) as [pre E].
  destruct (trimEnd_prefix (dropWhile isSpace s)) as [suf E'].
  exists pre, suf. now rewrite <- E', <- E.
Qed.

Lemma trim_head (s : JsString.t) c r : trim s = c :: r -> isSpace c = false.
Proof.
  unfold trim, trimStart. intros H.
  destruct (dropWhile isSpace s) as [|d t] eqn:E.
  - discriminate.
  - pose proof (dropWhile_head _ _ _ _ E) as Hd.
    destruct (trimEnd_keeps_head d t Hd) as [r' E'].
    rewrite E' in H. now injection H as <- _.
Qed.

Lemma trim_last (s r : JsString.t) c : trim s = r ++ [c] -> isSpace c = false.
Proof. unfold trim. apply trimEnd_last. Qed.

Lemma dropWhile_id p (s : JsString.t) :
  (forall c r, s = c :: r -> p c = false) -> dropWhile p s = s.
Proof.
  destruct s as [|c r]; simpl; [reflexivity|].
  intros H. now rewrite (H c r eq_refl).
Qed.

Lemma trim_idempotent (s : JsString.t) : trim (trim s) = trim s.
Proof.
  set (o := trim s).
  assert (Hh : forall c r, o = c :: r -> isSpace c = false)
    by (intros c r; apply trim_head).
  assert (Hl : forall r c, o = r ++ [c] -> isSpace c = false)
    by (intros r c; apply trim_last).
  unfold trim at 1, trimStart. rewrite (dropWhile_id _ _ Hh).
  unfold trimEnd. rewrite dropWhile_id; [apply rev_involutive|].
  intros c r E. apply (Hl (rev r) c).
  rewrite <- (rev_involutive o), E. reflexivity.
Qed.

End JsStringFacts.

(** ** Numbers *)

Module NumberFacts.

Lemma Qle_bool_false (a b : Q) : Qle_bool a b = false <-> (b < a)%Q.
Proof.
  split; intros H.
  - apply Qnot_le_lt. intros Hle. apply Qle_bool_iff in Hle. congruence.
  - destruct (Qle_bool a b) eqn:E; [|reflexivity].
    apply Qle_bool_iff in E. exfalso. exact (Qlt_not_le _ _ H E).
Qed.

Lemma Qltb_lt (a b : Q) : Qltb a b = true <-> (a < b)%Q.
Proof. unfold Qltb. rewrite negb_true_iff. apply Qle_bool_false. Qed.

End NumberFacts.

(** ** The sanitizer *)

Module SanitizerFacts.

Import JsStringFacts Sanitizer.

Lemma span_length p (s : JsString.t) :
  List.length (snd (span p s)) <= List.length s.
Proof.
  induction s as [|c r IH]; simpl; [lia|].
  destruct (p c); [|simpl; lia].
  destruct (span p r); simpl in *. lia.
Qed.

(** A match consumes at least the ampersand, so the scan ends. *)
Lemma matchEntity_shorter (s rest : JsString.t) :
  matchEntity s = Some rest -> List.length rest < List.length s.
Proof.
  destruct s as [|c r]; simpl; [discriminate|].
  destruct (c =? amp)%N; [|discriminate].
  pose proof (span_length isEntityChar r) as H.
  destruct (span isEntityChar r) as [[|x run] [|d t]]; try discriminate.
  destruct (d =? semicolon)%N; [|discriminate].
  intros E. injection E as <-. simpl in H. lia.
Qed.

(** More fuel than the length of the text changes nothing: [removeEntities]
    is the whole scan. *)
Lemma removeEntitiesFrom_enough (fuel : nat) :
  forall (s : JsString.t) (extra : nat),
    List.length s <= fuel ->
    removeEntitiesFrom (fuel + extra) s = removeEntitiesFrom fuel s.
Proof.
  induction fuel as [|f IH]; intros s extra Hlen.
  - destruct s; [|simpl in Hlen; lia]. destruct extra; reflexivity.
  - simpl. destruct s as [|c r]; [reflexivity|].
    destruct (matchEntity (c :: r)) as [rest|] eqn:E.
    + apply IH. apply matchEntity_shorter in E. simpl in *. lia.
    + f_equal. apply IH. simpl in Hlen. lia.
Qed.

Lemma isKept_space : isKept space = true.
Proof. reflexivity. Qed.

Lemma removeSpecial_kept (s : JsString.t) :
  Forall (fun c => isKept c = true) (removeSpecial s).
Proof.
  unfold removeSpecial. apply Forall_forall. intros c H.
  now apply filter_In in H.
Qed.

Lemma collapseFrom_kept (s : JsString.t) :
  Forall (fun c => isKept c = true) s ->
  forall inRun, Forall (fun c => isKept c = true) (collapseFrom inRun s).
Proof.
  induction 1 as [|c r Hc _ IH]; intros inRun; simpl; [constructor|].
  destruct (isSpace c); [destruct inRun|]; auto using isKept_space.
Qed.

(** After a whitespace character the collapsed text goes on with a
    character that is not whitespace. *)
Lemma collapseFrom_true_head (s : JsString.t) c r :
  collapseFrom true s = c :: r -> isSpace c = false.
Proof.
  induction s as [|d t IH]; simpl; [discriminate|].
  destruct (isSpace d) eqn:E; [exact IH|].
  intros H. now injection H as <- _.
Qed.

Lemma collapseFrom_noSpaceRun (s : JsString.t) :
  forall inRun, noSpaceRun (collapseFrom inRun s) = true.
Proof.
  induction s as [|c r IH]; intros inRun; [reflexivity|].
  simpl collapseFrom.
  destruct (isSpace c) eqn:E.
  - destruct inRun; [apply IH|].
    destruct (collapseFrom true r) as [|b t] eqn:E'; [reflexivity|].
    change (negb (isSpace space && isSpace b) && noSpaceRun (b :: t) = true).
    rewrite (collapseFrom_true_head r b t E'), andb_false_r.
    rewrite <- E'. apply IH.
  - destruct (collapseFrom false r) as [|b t] eqn:E'; [reflexivity|].
    change (negb (isSpace c && isSpace b) && noSpaceRun (b :: t) = true).
    rewrite E. rewrite <- E'. apply IH.
Qed.

Lemma noSpaceRun_spec (s : JsString.t) :
  noSpaceRun s = true ->
  forall pre a b post, s = pre ++ a :: b :: post -> isSpace a && isSpace b = false.
Proof.
  intros H pre. revert s H.
  induction pre as [|x pre IH]; intros s H a b post ->; simpl in H.
  - apply andb_true_iff in H as [H _]. now apply negb_true_iff in H.
  - destruct (pre ++ a :: b :: post) as [|y t] eqn:E.
    + destruct pre; discriminate.
    + apply andb_true_iff in H as [_ H]. eapply IH; eauto.
Qed.

Example sanitizeText_entities :
  sanitizeText (lit "  caf&eacute;  <au>   lait! ") = lit "caf au lait".
Proof. reflexivity. Qed.

(** Removing one entity can bring another together; what is left of it
    goes with the special characters. *)
Example sanitizeText_nested :
  removeEntities (lit "&a&b;mp;") = lit "&amp;"
  /\ sanitizeText (lit "&a&b;mp;") = lit "amp".
Proof. split; reflexivity. Qed.

Example sanitizeText_keeps : sanitizeText (lit "mother-in-law's") = lit "mother-in-law's".
Proof. reflexivity. Qed.

End SanitizerFacts.

(** C4.  Whatever the input, the text returned by [sanitizeText] contains
    only characters of the class [[\w\s'-]], contains no ampersand followed
    later by a semicolon (so no HTML entity), has no two adjacent whitespace
    characters, and neither starts nor ends with whitespace. *)
Theorem sanitizeText_output (text : JsString.t) :
  let out := Sanitizer.sanitizeText text in
  Forall (fun c => Sanitizer.isKept c = true) out
  /\ (forall pre mid post,
        out <> pre ++ [Sanitizer.amp] ++ mid ++ [Sanitizer.semicolon] ++ post)
  /\ (forall pre a b post,
        out = pre ++ a :: b :: post -> isSpace a && isSpace b = false)
  /\ (forall c rest, out = c :: rest -> isSpace c = false)
  /\ (forall front c, out = front ++ [c] -> isSpace c = false)
  /\ trim out = out.
Proof.
  intros out.
  set (mid := Sanitizer.normalizeWhitespace
                (Sanitizer.removeSpecial (Sanitizer.removeEntities text))).
  assert (Hout : out = trim mid) by reflexivity.
  destruct (JsStringFacts.trim_infix mid) as [p [q Emid]]. rewrite <- Hout in Emid.
  assert (Hkept : Forall (fun c => Sanitizer.isKept c = true) out).
  { assert (Hm : Forall (fun c => Sanitizer.isKept c = true) mid)
      by apply SanitizerFacts.collapseFrom_kept, SanitizerFacts.removeSpecial_kept.
    rewrite Emid in Hm.
    apply Forall_app in Hm as [_ Hm]. now apply Forall_app in Hm as [Hm _]. }
  repeat split.
  - exact Hkept.
  - intros pre m post E. rewrite E in Hkept.
    apply Forall_app in Hkept as [_ Hkept].
    inversion Hkept as [|? ? Hamp _]. discriminate Hamp.
  - intros pre a b post E.
    apply (SanitizerFacts.noSpaceRun_spec mid
             (SanitizerFacts.collapseFrom_noSpaceRun _ false)
             (p ++ pre) a b (post ++ q)).
    rewrite Emid, E, <- !app_assoc. reflexivity.
  - intros c rest E. rewrite Hout in E. eapply JsStringFacts.trim_head; eauto.
  - intros front c E. rewrite Hout in E. eapply JsStringFacts.trim_last; eauto.
  - rewrite Hout. apply JsStringFacts.trim_idempotent.
Qed.

(** ** The shortcut handler *)

Module LookupFacts.

Import Lookup Router.

(** A delivery hands nothing to the sanitizer and sends only its own
    message. *)
Lemma delivery_trace (d : Delivery) (tabId : N) (m : Message) :
  let tr := fst (sendMessageToContentScript d tabId m) in
  sanitizerInputs tr = [] /\ Forall (eq m) (sentMessages tr).
Proof.
  unfold sendMessageToContentScript.
  destruct d as [[[]|e1] [[]|e2] [[]|e3]]; simpl;
    try (split; [reflexivity | repeat constructor]);
    destruct (notInitialized e1); simpl;
    split; try reflexivity; repeat constructor.
Qed.

Lemma delivery_returns (d : Delivery) (tabId : N) (m : Message) :
  exists delivered, snd (sendMessageToContentScript d tabId m) = Normal delivered.
Proof.
  unfold sendMessageToContentScript.
  destruct d as [[[]|e1] [[]|e2] [[]|e3]]; simpl;
    try (now eexists); destruct (notInitialized e1); simpl; now eexists.
Qed.

(** The [catch] block of the handler sends nothing but the failure
    notice, and returns. *)
Lemma reportError_trace (b : Browser) :
  sanitizerInputs (fst (reportError b)) = []
  /\ Forall (eq failureNotice) (sentMessages (fst (reportError b)))
  /\ snd (reportError b) = Normal tt.
Proof.
  unfold reportError.
  destruct (activeTabAgain b) as [[tabId|]|e]; simpl;
    try (repeat split; constructor).
  pose proof (delivery_trace (errorDelivery b) tabId failureNotice) as H.
  destruct (delivery_returns (errorDelivery b) tabId failureNotice) as [r Hr].
  destruct (sendMessageToContentScript (errorDelivery b) tabId failureNotice)
    as [tr c]; simpl in *. subst c. simpl.
  rewrite app_nil_r. tauto.
Qed.

(** A short selection is sanitized, announced, looked up and shown. *)
Example short_selection_run :
  fst (onCommand (Samples.browser (lit " hello ")) (lit "lookup-word"))
  = [StorageGet; TabsQuery; ReadSelection 7; Sanitize (lit "hello");
     SendMessage 7 (ShowLoading (lit "hello"));
     FetchDefinition (lit "hello");
     SendMessage 7 (ShowDefinition (lit "hello")
                      (Success (lit "hello") (Samples.entry "hello")))].
Proof. reflexivity. Qed.

(** A selection of 60 characters ends in the [catch] block. *)
Example long_selection_run :
  fst (onCommand (Samples.browser Samples.longSelection) (lit "lookup-word"))
  = [StorageGet; TabsQuery; ReadSelection 7;
     ConsoleError (lit "Error in command handler:"); TabsQuery;
     SendMessage 7 failureNotice].
Proof. reflexivity. Qed.

End LookupFacts.

(** C1.  When the extension is enabled, a tab is active and the trimmed
    selection is longer than 50 characters, the handler reaches the
    assignment to the [const] binding [selectedText], which throws: nothing
    is handed to the sanitizer, no truncated text is looked up, and the only
    message the page can receive is the failure notice of the [catch]
    block. *)
Theorem long_selection_is_not_sanitized
        (b : Lookup.Browser) (stored : option Json.value) (tabId : N)
        (selection : JsString.t) :
  Lookup.storedEnabled b = Normal stored ->
  Lookup.isEnabled stored = true ->
  Lookup.activeTab b = Normal (Some tabId) ->
  Lookup.pageSelection b = Normal (Some selection) ->
  50 < List.length (trim selection) ->
  let tr := fst (Lookup.onCommand b (lit "lookup-word")) in
  Lookup.sanitizerInputs tr = []
  /\ Forall (eq Lookup.failureNotice) (Lookup.sentMessages tr)
  /\ snd (Lookup.onCommand b (lit "lookup-word")) = Normal tt.
Proof.
  intros Hstored Henabled Htab Hsel Hlong.
  pose proof (LookupFacts.reportError_trace b) as Hcatch.
  unfold Lookup.onCommand.
  change (JsString.eqb (lit "lookup-word") (lit "lookup-word")) with true.
  cbv iota.
  unfold Lookup.lookupWord, Lookup.getSelectedText.
  rewrite Hstored, Htab, Hsel.
  cbn [Trace.bind Trace.call Trace.tryCatch Trace.ret app fst snd].
  rewrite Henabled. cbn [negb].
  rewrite JsStringFacts.trim_idempotent.
  destruct (trim selection) as [|c rest] eqn:E; [simpl in Hlong; lia|].
  assert (Hlen : (List.length (c :: rest) =? 0) = false) by reflexivity.
  assert (Hlt : (50 <? List.length (c :: rest)) = true) by now apply Nat.ltb_lt.
  cbn [Lookup.isEmpty orb]. rewrite Hlen, Hlt.
  unfold Lookup.assignConst, Trace.throw.
  cbn [Trace.bind Trace.call Trace.tryCatch Trace.ret app fst snd].
  destruct (Lookup.reportError b) as [tr r].
  cbn [fst snd] in *. exact Hcatch.
Qed.

(** C1, at a selection of 60 characters. *)
Lemma long_selection_is_not_sanitized_witness :
  let tr := fst (Lookup.onCommand (Samples.browser Samples.longSelection)
                                  (lit "lookup-word")) in
  Lookup.sanitizerInputs tr = []
  /\ Forall (eq Lookup.failureNotice) (Lookup.sentMessages tr)
  /\ snd (Lookup.onCommand (Samples.browser Samples.longSelection)
                           (lit "lookup-word")) = Normal tt.
Proof.
  apply (long_selection_is_not_sanitized
           (Samples.browser Samples.longSelection) None 7%N Samples.longSelection);
    try reflexivity.
  vm_compute. lia.
Defined.

(** ** The definition fetcher *)

Module FetcherFacts.

Import Fetcher.

Lemma notTimeout_reason (m : JsString.t) :
  m <> lit "API timeout" ->
  (if JsString.eqb m (lit "API timeout")
   then lit "Request timed out"
   else lit "Failed to fetch definition") = lit "Failed to fetch definition".
Proof.
  intros H. destruct (JsString.eqb _ _) eqn:E; [|reflexivity].
  apply JsStringFacts.eqb_eq in E. contradiction.
Qed.

(** The message built for a response that is not 2xx is not the timer's. *)
Lemma httpError_notTimeout (n : N) (txt : JsString.t) :
  lit "API returned " ++ showN n ++ lit ": " ++ txt <> lit "API timeout".
Proof. discriminate. Qed.

(** The race when the chained promise settles before the timer is due. *)
Lemma race_api (net : Network) (t : N) :
  settledAt net = Some t -> (t < API_TIMEOUT)%N ->
  race (apiPromise net) timeoutPromise = Js.bind (fetched net) onResponse.
Proof.
  intros Hs Ht. unfold apiPromise, race. rewrite Hs. simpl fst.
  apply N.ltb_lt in Ht. now rewrite Ht.
Qed.

(** The race when the chained promise has not settled when the timer is
    due. *)
Lemma race_timer (net : Network) :
  (settledAt net = None \/ exists t, settledAt net = Some t /\ (API_TIMEOUT <= t)%N) ->
  race (apiPromise net) timeoutPromise = Throw (mkError "API timeout").
Proof.
  intros [Hs | [t [Hs Ht]]]; unfold apiPromise, race; rewrite Hs; [reflexivity|].
  simpl fst. apply N.ltb_ge in Ht. now rewrite Ht.
Qed.

End FetcherFacts.

(** C2, as the specification words it, fails: a [404 Not Found] response is
    reported with the generic reason, not with the status and its text. *)
Lemma http_reason_is_not_status_text :
  Fetcher.fetched Samples.notFound = Normal Samples.notFoundResponse
  /\ Fetcher.ok Samples.notFoundResponse = false
  /\ Fetcher.specHttpReason Samples.notFoundResponse = lit "404 Not Found"
  /\ Fetcher.fetchDictionaryDefinition Samples.notFound (lit "zzz")
     = Normal (Failure (lit "zzz") (lit "Failed to fetch definition"))
  /\ Fetcher.fetchDictionaryDefinition Samples.notFound (lit "zzz")
     <> Normal (Failure (lit "zzz")
                        (Fetcher.specHttpReason Samples.notFoundResponse)).
Proof. repeat split; try reflexivity. discriminate. Qed.

(** C2, amended.  The fetcher always returns an envelope and never throws.
    When the word can be encoded:
    - a response that is not 2xx, settled before the 5000ms of the timer,
      gives the reason [Failed to fetch definition];
    - the timer settling first, that is a request that has not settled
      before 5000ms (it never settles, or settles at 5000ms or later, the
      timer being started before the request), gives [Request timed out];
    - a rejection of [fetch] or of [response.json()] settled before the
      5000ms of the timer, whose message is not the timer's, gives
      [Failed to fetch definition].
    A word that cannot be encoded gives [Failed to fetch definition] too. *)
Theorem fetcher_failure_reasons (net : Fetcher.Network) (word : JsString.t) :
  (exists envelope, Fetcher.fetchDictionaryDefinition net word = Normal envelope)
  /\ (isWellFormed word = false ->
      Fetcher.fetchDictionaryDefinition net word
      = Normal (Failure word (lit "Failed to fetch definition")))
  /\ (isWellFormed word = true ->
      (forall t response,
          Fetcher.settledAt net = Some t -> (t < Fetcher.API_TIMEOUT)%N ->
          Fetcher.fetched net = Normal response -> Fetcher.ok response = false ->
          Fetcher.fetchDictionaryDefinition net word
          = Normal (Failure word (lit "Failed to fetch definition")))
      /\ ((Fetcher.settledAt net = None
           \/ exists t, Fetcher.settledAt net = Some t /\ (Fetcher.API_TIMEOUT <= t)%N) ->
          Fetcher.fetchDictionaryDefinition net word
          = Normal (Failure word (lit "Request timed out")))
      /\ (forall t e,
          Fetcher.settledAt net = Some t -> (t < Fetcher.API_TIMEOUT)%N ->
          (Fetcher.fetched net = Throw e
           \/ exists response,
               Fetcher.fetched net = Normal response
               /\ Fetcher.ok response = true
               /\ Fetcher.json response = Throw e) ->
          message e <> lit "API timeout" ->
          Fetcher.fetchDictionaryDefinition net word
          = Normal (Failure word (lit "Failed to fetch definition")))).
Proof.
  split; [|split].
  - unfold Fetcher.fetchDictionaryDefinition, encodeURIComponent.
    destruct (isWellFormed word); simpl; [|now eexists].
    destruct (Fetcher.race _ _) as [result|e]; simpl; [|now eexists].
    destruct (Fetcher.firstOfArray result); now eexists.
  - intros Hw. unfold Fetcher.fetchDictionaryDefinition, encodeURIComponent.
    rewrite Hw. reflexivity.
  - intros Hw. unfold Fetcher.fetchDictionaryDefinition, encodeURIComponent.
    rewrite Hw. cbn [Js.bind].
    split; [|split].
    + intros t response Hs Ht Hf Hok.
      rewrite (FetcherFacts.race_api net t Hs Ht), Hf.
      cbn [Js.bind]. unfold Fetcher.onResponse. rewrite Hok.
      cbn [Js.bind negb Js.tryCatch message].
      now rewrite FetcherFacts.notTimeout_reason
        by apply FetcherFacts.httpError_notTimeout.
    + intros Ht. rewrite (FetcherFacts.race_timer net Ht). reflexivity.
    + intros t e Hs Ht Hrej Hmsg.
      rewrite (FetcherFacts.race_api net t Hs Ht).
      destruct Hrej as [Hf | [response [Hf [Hok Hj]]]]; rewrite Hf;
        cbn [Js.bind Js.tryCatch].
      * now rewrite FetcherFacts.notTimeout_reason.
      * unfold Fetcher.onResponse. rewrite Hok, Hj. cbn [negb Js.bind Js.tryCatch].
        now rewrite FetcherFacts.notTimeout_reason.
Qed.

(** C2 amended, at a [404] response, at a slow response, at a response
    that arrives when the timer is due, and without a connection. *)
Lemma fetcher_failure_reasons_witness :
  Fetcher.fetchDictionaryDefinition Samples.notFound (lit "zzz")
  = Normal (Failure (lit "zzz") (lit "Failed to fetch definition"))
  /\ Fetcher.fetchDictionaryDefinition Samples.slow (lit "zzz")
     = Normal (Failure (lit "zzz") (lit "Request timed out"))
  /\ Fetcher.fetchDictionaryDefinition Samples.onTheDot (lit "zzz")
     = Normal (Failure (lit "zzz") (lit "Request timed out"))
  /\ Fetcher.fetchDictionaryDefinition Samples.offline (lit "zzz")
     = Normal (Failure (lit "zzz") (lit "Failed to fetch definition")).
Proof.
  split; [|split; [|split]].
  - apply (proj1 (proj2 (proj2 (fetcher_failure_reasons Samples.notFound (lit "zzz")))
                        eq_refl)
                 120%N Samples.notFoundResponse);
      reflexivity.
  - apply (proj1 (proj2 (proj2 (proj2 (fetcher_failure_reasons Samples.slow (lit "zzz")))
                               eq_refl))).
    right. exists 7000%N. split; [reflexivity | vm_compute; discriminate].
  - apply (proj1 (proj2 (proj2 (proj2 (fetcher_failure_reasons Samples.onTheDot (lit "zzz")))
                               eq_refl))).
    right. exists 5000%N. split; [reflexivity | vm_compute; discriminate].
  - apply (proj2 (proj2 (proj2 (proj2 (fetcher_failure_reasons Samples.offline (lit "zzz")))
                               eq_refl))
                 30%N (mkTypeError "Failed to fetch"));
      try reflexivity.
    + left. reflexivity.
    + discriminate.
Defined.

(** C7.  When the word can be encoded and the chained promise is fulfilled
    with a value before the 5000ms of the timer, which was started before the
    request: an array with at least one element gives [Success] with the word
    and the first element; any other value gives [Failure] with the reason
    [No definition found]. *)
Theorem fetcher_takes_first_result
        (net : Fetcher.Network) (word : JsString.t) (t : N) (value : Json.value) :
  isWellFormed word = true ->
  Fetcher.settledAt net = Some t -> (t < Fetcher.API_TIMEOUT)%N ->
  Js.bind (Fetcher.fetched net) Fetcher.onResponse = Normal value ->
  (forall first others,
      value = Json.Arr (first :: others) ->
      Fetcher.fetchDictionaryDefinition net word = Normal (Success word first))
  /\ ((forall first others, value <> Json.Arr (first :: others)) ->
      Fetcher.fetchDictionaryDefinition net word
      = Normal (Failure word (lit "No definition found"))).
Proof.
  intros Hw Hs Ht Hv.
  unfold Fetcher.fetchDictionaryDefinition, encodeURIComponent.
  rewrite Hw. cbn [Js.bind].
  rewrite (FetcherFacts.race_api net t Hs Ht), Hv. cbn [Js.bind Js.tryCatch].
  split.
  - intros first others ->. reflexivity.
  - intros Hno. destruct value as [| | | |[|first others]|]; try reflexivity.
    now destruct (Hno first others).
Qed.

(** C7, at a response whose body is an array of two entries, and at an empty
    array. *)
Lemma fetcher_takes_first_result_witness :
  Fetcher.fetchDictionaryDefinition Samples.found (lit "hello")
  = Normal (Success (lit "hello") (Samples.entry "hello"))
  /\ Fetcher.fetchDictionaryDefinition Samples.nothingFound (lit "zzzxxqq")
     = Normal (Failure (lit "zzzxxqq") (lit "No definition found")).
Proof.
  split.
  - apply (proj1 (fetcher_takes_first_result
                    Samples.found (lit "hello") 120%N
                    (Json.Arr [Samples.entry "hello"; Samples.entry "hullo"])
                    eq_refl eq_refl eq_refl eq_refl)
                 (Samples.entry "hello") [Samples.entry "hullo"] eq_refl).
  - apply (proj2 (fetcher_takes_first_result
                    Samples.nothingFound (lit "zzzxxqq") 120%N (Json.Arr [])
                    eq_refl eq_refl eq_refl eq_refl)).
    discriminate.
Defined.

(** ** The message router *)

Module RouterFacts.

Import Router.

(** The test on the first failure, read on the browser's answer. *)
Lemma receiverMissing_iff (d : Delivery) :
  receiverMissing d
  <-> match firstSend d with
      | Normal _ => False
      | Throw e => notInitialized e = true
      end.
Proof.
  unfold receiverMissing. destruct (firstSend d) as [u|e]; split.
  - intros [e [H _]]. discriminate.
  - intros [].
  - intros [e' [H H']]. now injection H as <-.
  - intros H. now exists e.
Qed.

(** The five ways a delivery can go, with the calls made in each. *)
Lemma delivery_cases (d : Delivery) (tabId : N) (m : Message) :
  let send := SendMessage tabId m in
  let inject := InjectContentScript tabId in
  sendMessageToContentScript d tabId m
  = match firstSend d with
    | Normal _ => ([send], Normal true)
    | Throw e =>
        if notInitialized e then
          match injection d with
          | Normal _ =>
              match retrySend d with
              | Normal _ => ([send; inject; Wait 100; send], Normal true)
              | Throw _ =>
                  ([send; inject; Wait 100; send;
                    ConsoleError (lit "Failed to inject content script or send message:")],
                   Normal false)
              end
          | Throw _ =>
              ([send; inject;
                ConsoleError (lit "Failed to inject content script or send message:")],
               Normal false)
          end
        else
          ([send; ConsoleError (lit "Error sending message to content script:")],
           Normal false)
    end.
Proof.
  unfold sendMessageToContentScript.
  destruct d as [[[]|e1] [[]|e2] [[]|e3]]; cbn; try reflexivity;
    destruct (notInitialized e1); reflexivity.
Qed.

End RouterFacts.

(** C6, as the specification words it, fails: on a page whose script is
    missing and into which it cannot be injected, the router injects but
    neither waits nor sends again. *)
Lemma no_retry_when_injection_fails :
  let tr := fst (Router.sendMessageToContentScript
                   Samples.blockedDelivery 7%N (ShowLoading (lit "hello"))) in
  Router.receiverMissing Samples.blockedDelivery
  /\ Trace.count Trace.isInject tr = 1
  /\ Trace.count Trace.isWait tr = 0
  /\ Trace.count Trace.isSend tr = 1.
Proof.
  repeat split. exists Samples.noReceiver. split; reflexivity.
Qed.

(** C6, amended.  Every delivery starts with a direct send and returns a
    boolean without throwing.  The script is injected if and only if the
    first send failed with one of the two messages of a missing receiver.
    A second send happens if and only if, moreover, the injection succeeded;
    it then follows a wait of 100ms, and there are never more than two sends.
    The result is [true] exactly when the first or the second send
    succeeded; otherwise one error is logged and the result is [false]. *)
Theorem router_delivery (d : Router.Delivery) (tabId : N) (message : Message) :
  let send := Trace.SendMessage tabId message in
  let tr := fst (Router.sendMessageToContentScript d tabId message) in
  let result := snd (Router.sendMessageToContentScript d tabId message) in
  (exists rest, tr = send :: rest)
  /\ Trace.count Trace.isSend tr <= 2
  /\ (Trace.count Trace.isInject tr = 1 <-> Router.receiverMissing d)
  /\ (Trace.count Trace.isInject tr = 0 <-> ~ Router.receiverMissing d)
  /\ (Trace.count Trace.isSend tr = 2
      <-> Router.receiverMissing d /\ Router.injection d = Normal tt)
  /\ (Trace.count Trace.isSend tr = 2 ->
      exists rest,
        tr = send :: Trace.InjectContentScript tabId :: Trace.Wait 100 :: send :: rest)
  /\ (result = Normal true
      <-> Router.firstSend d = Normal tt
          \/ (Trace.count Trace.isSend tr = 2 /\ Router.retrySend d = Normal tt))
  /\ (result = Normal true /\ Trace.count Trace.isConsoleError tr = 0
      \/ result = Normal false /\ Trace.count Trace.isConsoleError tr = 1).
Proof.
  cbv zeta.
  rewrite RouterFacts.delivery_cases, RouterFacts.receiverMissing_iff.
  destruct d as [[[]|e1] [[]|e2] [[]|e3]]; cbn -[Nat.le];
    try destruct (Router.notInitialized e1); cbn -[Nat.le];
    (split; [eexists; reflexivity|]);
    (split; [lia|]);
    intuition (try discriminate; try lia; try congruence; eauto).
Qed.

(** C6 amended, at a page whose script is injected on the first failure. *)
Lemma router_delivery_witness :
  exists rest,
    fst (Router.sendMessageToContentScript
           Samples.lateReceiver 7%N (ShowLoading (lit "hello")))
    = Trace.SendMessage 7%N (ShowLoading (lit "hello"))
      :: Trace.InjectContentScript 7%N :: Trace.Wait 100
      :: Trace.SendMessage 7%N (ShowLoading (lit "hello")) :: rest.
Proof.
  apply (proj1 (proj2 (proj2 (proj2 (proj2 (proj2
           (router_delivery Samples.lateReceiver 7%N (ShowLoading (lit "hello"))))))))).
  reflexivity.
Defined.

(** ** Theme detection *)

Module ThemeFacts.

Import Theme.

(** The brightness of a colour with components up to 255 lies between 0
    and 255. *)
Lemma brightnessOf_range (r g b : N) :
  (r <= 255)%N -> (g <= 255)%N -> (b <= 255)%N ->
  (0 <= brightnessOf r g b <= 255)%Q.
Proof.
  intros Hr Hg Hb.
  unfold brightnessOf, ofN, Qle, Qdiv, Qmult, Qplus, Qinv, inject_Z.
  simpl. lia.
Qed.

Example rgbMatch_black : rgbMatch (lit "rgb(0, 0, 0)") = Some (0, 0, 0)%N.
Proof. reflexivity. Qed.

Example rgbMatch_white : rgbMatch (lit "rgb(255, 255, 255)") = Some (255, 255, 255)%N.
Proof. reflexivity. Qed.

Example rgbMatch_transparent : rgbMatch (lit "rgba(0, 0, 0, 0)") = None.
Proof. reflexivity. Qed.

Example rgbMatch_named : rgbMatch (lit "white") = None.
Proof. reflexivity. Qed.

End ThemeFacts.

(** C8.  The brightness of black is 0 and that of white is 255; a background
    colour in which the pattern [rgb(r, g, b)] is not found gives the
    brightness 255; a parsed colour gives the brightness of its components;
    and whenever the brightness is below 128 the page is taken for dark, in
    particular for all components between 0 and 255. *)
Theorem brightness_and_dark_theme :
  (Theme.brightnessOf 0 0 0 == 0)%Q
  /\ (Theme.brightnessOf 255 255 255 == 255)%Q
  /\ (forall page,
        Theme.rgbMatch (Theme.backgroundColor page) = None ->
        Theme.brightness (Theme.detectThemeAndContrast page) = 255%Q)
  /\ (forall page,
        (Theme.brightness (Theme.detectThemeAndContrast page) < 128)%Q ->
        Theme.isDark (Theme.detectThemeAndContrast page) = true)
  /\ (forall page r g b,
        (r <= 255)%N -> (g <= 255)%N -> (b <= 255)%N ->
        Theme.rgbMatch (Theme.backgroundColor page) = Some (r, g, b) ->
        Theme.brightness (Theme.detectThemeAndContrast page) = Theme.brightnessOf r g b
        /\ (0 <= Theme.brightnessOf r g b <= 255)%Q
        /\ ((Theme.brightnessOf r g b < 128)%Q ->
            Theme.isDark (Theme.detectThemeAndContrast page) = true)).
Proof.
  split; [reflexivity|]. split; [reflexivity|].
  assert (Hdark : forall page,
             (Theme.brightness (Theme.detectThemeAndContrast page) < 128)%Q ->
             Theme.isDark (Theme.detectThemeAndContrast page) = true).
  { intros page H. unfold Theme.detectThemeAndContrast in *. cbn [Theme.brightness Theme.isDark] in *.
    apply NumberFacts.Qltb_lt in H. rewrite H. reflexivity. }
  split; [|split; [exact Hdark|]].
  - intros page H. unfold Theme.detectThemeAndContrast. now rewrite H.
  - intros page r g b Hr Hg Hb H.
    assert (E : Theme.brightness (Theme.detectThemeAndContrast page)
                = Theme.brightnessOf r g b)
      by (unfold Theme.detectThemeAndContrast; now rewrite H).
    split; [exact E|]. split.
    + apply ThemeFacts.brightnessOf_range; assumption.
    + intros Hlt. apply Hdark. now rewrite E.
Qed.

(** C8, at a page whose background is [rgb(20, 30, 40)] and at a page whose
    background is transparent. *)
Lemma brightness_and_dark_theme_witness :
  Theme.isDark (Theme.detectThemeAndContrast Samples.darkPage) = true
  /\ Theme.brightness (Theme.detectThemeAndContrast Samples.transparentPage) = 255%Q.
Proof.
  split.
  - apply (proj1 (proj2 (proj2 (proj2 brightness_and_dark_theme))) Samples.darkPage).
    vm_compute. reflexivity.
  - apply (proj1 (proj2 (proj2 brightness_and_dark_theme)) Samples.transparentPage).
    reflexivity.
Defined.

(** ** Placement *)

Module PlacementFacts.

Import Placement.

Lemma max_spec (a b : Q) : (a <= max a b /\ b <= max a b)%Q
                           /\ (max a b = a \/ max a b = b).
Proof.
  unfold max. destruct (Qle_bool a b) eqn:E.
  - apply Qle_bool_iff in E. repeat split; auto; lra.
  - apply NumberFacts.Qle_bool_false in E. repeat split; auto; lra.
Qed.

Lemma min_spec (a b : Q) : (min a b <= a /\ min a b <= b)%Q
                           /\ (min a b = a \/ min a b = b).
Proof.
  unfold min. destruct (Qle_bool a b) eqn:E.
  - apply Qle_bool_iff in E. repeat split; auto; lra.
  - apply NumberFacts.Qle_bool_false in E. repeat split; auto; lra.
Qed.

(** Enough room above: the popup ends [margin] above the selection. *)
Lemma enough_room_above (rect : Rect) (v : View) :
  (popupHeight v + margin <= spaceAbove rect)%Q ->
  positionAbove (positionPopup rect v) = true
  /\ finalTop (positionPopup rect v)
     = (top rect + scrollTop v - popupHeight v - margin)%Q.
Proof.
  intros H. apply Qle_bool_iff in H.
  unfold positionPopup, vertical. rewrite H. split; reflexivity.
Qed.

(** Not enough room above, enough below: the popup starts [margin] below
    the selection. *)
Lemma enough_room_below (rect : Rect) (v : View) :
  (spaceAbove rect < popupHeight v + margin)%Q ->
  (popupHeight v + margin <= spaceBelow rect v)%Q ->
  positionAbove (positionPopup rect v) = false
  /\ finalTop (positionPopup rect v) = (bottom rect + scrollTop v + margin)%Q.
Proof.
  intros Ha Hb. apply NumberFacts.Qle_bool_false in Ha. apply Qle_bool_iff in Hb.
  unfold positionPopup, vertical. rewrite Ha, Hb. split; reflexivity.
Qed.

(** Room on neither side, and not more above than below: the popup ends
    10px above the lower edge of the window. *)
Lemma pinned_to_lower_edge (rect : Rect) (v : View) :
  (spaceAbove rect < popupHeight v + margin)%Q ->
  (spaceBelow rect v < popupHeight v + margin)%Q ->
  (spaceAbove rect <= spaceBelow rect v)%Q ->
  positionAbove (positionPopup rect v) = false
  /\ (finalTop (positionPopup rect v) + popupHeight v
      <= scrollTop v + innerHeight v - 10)%Q.
Proof.
  intros Ha Hb Hc.
  apply NumberFacts.Qle_bool_false in Ha. apply NumberFacts.Qle_bool_false in Hb.
  assert (Hd : Qltb (spaceBelow rect v) (spaceAbove rect) = false).
  { unfold Qltb. apply negb_false_iff. now apply Qle_bool_iff. }
  unfold positionPopup, vertical. rewrite Ha, Hb, Hd.
  cbn [positionAbove finalTop]. split; [reflexivity|].
  destruct (min_spec (innerHeight v + scrollTop v - popupHeight v - 10)
                     (bottom rect + scrollTop v + margin)) as [[H _] _].
  lra.
Qed.

(** The left edge is the centred position kept between the two bounds;
    it lies between them when the lower bound does not exceed the upper
    one. *)
Lemma left_edge (rect : Rect) (v : View) :
  let x := finalLeft (positionPopup rect v) in
  (x = minLeft \/ x = maxLeft v \/ x = centred rect v)
  /\ ((minLeft <= maxLeft v)%Q -> (minLeft <= x <= maxLeft v)%Q).
Proof.
  unfold positionPopup. destruct (vertical rect v) as [above t].
  cbn [finalLeft]. unfold horizontal.
  destruct (Qltb (centred rect v) minLeft) eqn:E1.
  - split; [now left|]. intros H. lra.
  - destruct (Qltb (maxLeft v) (centred rect v)) eqn:E2.
    + split; [right; now left|]. intros H. lra.
    + split; [right; now right|]. intros _.
      unfold Qltb in *. apply negb_false_iff in E1, E2.
      apply Qle_bool_iff in E1, E2. lra.
Qed.

(** In a page that is not scrolled, with 400px above the selection, the
    popup of 200px ends 5px above the selection and is centred on it. *)
Example placed_above :
  positionAbove (positionPopup Samples.lowRect Samples.plainView) = true
  /\ (finalTop (positionPopup Samples.lowRect Samples.plainView) == 195)%Q
  /\ (finalLeft (positionPopup Samples.lowRect Samples.plainView) == 10)%Q.
Proof. repeat split. Qed.

(** In the page scrolled by 1000px the upper edge of the window is at
    1000px; the popup is placed at 945px. *)
Example placed_above_window :
  (scrollTop Samples.scrolledView == 1000)%Q
  /\ (finalTop (positionPopup Samples.midRect Samples.scrolledView) == 945)%Q.
Proof. split; reflexivity. Qed.

End PlacementFacts.

(** C3.  When the popup fits on neither side, there is more room above and
    the page is scrolled by more than 10px, the popup is placed above and
    its top edge lies above the upper edge of the window (which is at
    [scrollTop] in page coordinates): the bound [Math.max(10, ...)] is taken
    from the top of the page, not from the top of the window. *)
Theorem top_bound_ignores_scroll (rect : Placement.Rect) (v : Placement.View) :
  (Placement.spaceAbove rect < Placement.popupHeight v + Placement.margin)%Q ->
  (Placement.spaceBelow rect v < Placement.popupHeight v + Placement.margin)%Q ->
  (Placement.spaceBelow rect v < Placement.spaceAbove rect)%Q ->
  (10 < Placement.scrollTop v)%Q ->
  Placement.positionAbove (Placement.positionPopup rect v) = true
  /\ (Placement.finalTop (Placement.positionPopup rect v) < Placement.scrollTop v)%Q.
Proof.
  intros Ha Hb Hc Hs.
  pose proof Ha as Ha'. pose proof Hb as Hb'.
  apply NumberFacts.Qle_bool_false in Ha', Hb'.
  apply NumberFacts.Qltb_lt in Hc.
  unfold Placement.positionPopup, Placement.vertical.
  rewrite Ha', Hb', Hc. cbn [Placement.positionAbove Placement.finalTop].
  split; [reflexivity|].
  unfold Placement.spaceAbove in Ha.
  destruct (PlacementFacts.max_spec 10
              (Placement.top rect + Placement.scrollTop v
               - Placement.popupHeight v - Placement.margin)) as [_ [E | E]];
    rewrite E; lra.
Qed.

(** C3, at a page scrolled by 1000px: the popup is placed at 945px, 55px
    above the upper edge of the window. *)
Lemma top_bound_ignores_scroll_witness :
  Placement.positionAbove (Placement.positionPopup Samples.midRect Samples.scrolledView) = true
  /\ (Placement.finalTop (Placement.positionPopup Samples.midRect Samples.scrolledView)
      < Placement.scrollTop Samples.scrolledView)%Q.
Proof.
  apply (top_bound_ignores_scroll Samples.midRect Samples.scrolledView);
    vm_compute; reflexivity.
Defined.

(** ** The popup lifecycle *)

Module ContentFacts.

Import Content.

Lemma removeCurrentPopup_absent (st : State) :
  currentPopup st = None -> removeCurrentPopup st = st.
Proof. unfold removeCurrentPopup. now intros ->. Qed.

Lemma removeCurrentPopup_current (st : State) :
  currentPopup (removeCurrentPopup st) = None.
Proof.
  unfold removeCurrentPopup.
  destruct (currentPopup st) eqn:E; [reflexivity | exact E].
Qed.

Lemma removeCurrentPopup_twice (st : State) :
  removeCurrentPopup (removeCurrentPopup st) = removeCurrentPopup st.
Proof. apply removeCurrentPopup_absent, removeCurrentPopup_current. Qed.

Lemma removeCurrentPopup_created (st : State) :
  created (removeCurrentPopup st) = created st.
Proof. unfold removeCurrentPopup. now destruct (currentPopup st). Qed.

Lemma remove_single (x : nat) : remove Nat.eq_dec x [x] = [].
Proof. simpl. destruct (Nat.eq_dec x x); [reflexivity | contradiction]. Qed.

Lemma unregister_registered (stored : option nat) (p : Popup) (listeners : list nat) :
  Registered stored p listeners ->
  match stored with
  | Some h => unregister h listeners
  | None => listeners
  end = [].
Proof.
  intros [[-> ->] | [-> ->]]; [reflexivity | apply remove_single].
Qed.

(** The teardown leaves nothing of the popup on the page. *)
Lemma removeCurrentPopup_clean (st : State) :
  Consistent st -> Clean (removeCurrentPopup st).
Proof.
  unfold Consistent, Clean, removeCurrentPopup, isAttached.
  destruct (currentPopup st) as [p|] eqn:E.
  - intros (_ & Hatt & Hkey & Hclick). cbn.
    rewrite (unregister_registered _ _ _ Hkey), (unregister_registered _ _ _ Hclick).
    destruct Hatt as [-> | ->]; cbn; [tauto|].
    rewrite Nat.eqb_refl. cbn.
    destruct (Nat.eq_dec (pid p) (pid p)); [tauto | contradiction].
  - tauto.
Qed.

Lemma Clean_Consistent (st : State) : Clean st -> Consistent st.
Proof. unfold Clean, Consistent. intros (-> & H). exact H. Qed.

Lemma Consistent_popupsOnPage (st : State) : Consistent st -> popupsOnPage st <= 1.
Proof.
  unfold Consistent, popupsOnPage.
  destruct (currentPopup st).
  - intros (_ & [-> | ->] & _); simpl; lia.
  - intros (-> & _). simpl. lia.
Qed.

Ltac rebuilt :=
  unfold Rebuilt, Consistent, Registered; cbn;
  repeat split; auto; try lia; try tauto;
  try (intros ? [<- | []]; reflexivity);
  try (intros ? []).

Lemma showLoadingPopup_rebuilt (w : Window) (text : JsString.t) (st : State) :
  Clean st -> Rebuilt st (fst (showLoadingPopup w text st)).
Proof.
  destruct st as [cp cs vis att kd cl n].
  unfold Clean. cbn. intros (-> & -> & -> & ->).
  unfold showLoadingPopup, bind, modify, ret. cbn.
  destruct (rangeCount w =? 0); rebuilt.
Qed.

Lemma showErrorPopup_rebuilt (w : Window) (reason text : JsString.t) (st : State) :
  Clean st -> Rebuilt st (fst (showErrorPopup w reason text st)).
Proof.
  destruct st as [cp cs vis att kd cl n].
  unfold Clean. cbn. intros (-> & -> & -> & ->).
  unfold showErrorPopup, bind, modify, ret, lift, encodeURIComponent. cbn.
  destruct (rangeCount w =? 0); [rebuilt|].
  destruct (isWellFormed text); rebuilt.
Qed.

Section Handlers.

Variable formatDefinition : Json.value -> completion JsString.t.

Lemma showDefinitionPopup_rebuilt (w : Window) (text : JsString.t)
      (definition : LookupResult) (st : State) :
  Clean st -> Rebuilt st (fst (showDefinitionPopup formatDefinition w text definition st)).
Proof.
  intros Hclean.
  destruct definition as [word data | word reason].
  - destruct st as [cp cs vis att kd cl n].
    unfold Clean in Hclean. cbn in Hclean. destruct Hclean as (-> & -> & -> & ->).
    unfold showDefinitionPopup, bind, modify, ret, lift. cbn.
    destruct (rangeCount w =? 0); [rebuilt|].
    destruct data; cbn; try rebuilt;
      destruct (formatDefinition _); rebuilt.
  - pose proof (showErrorPopup_rebuilt w reason text st Hclean) as H.
    unfold showDefinitionPopup, bind, modify.
    rewrite removeCurrentPopup_absent by apply Hclean.
    exact H.
Qed.

(** A handler of a show message starts with the teardown: it does in any
    state what it does once the popup is gone. *)
Lemma dispatch_after_teardown (w : Window) (message : Message) (st : State) :
  isShow message = true ->
  dispatch formatDefinition w message st
  = dispatch formatDefinition w message (removeCurrentPopup st).
Proof.
  destruct message as [text | text [word data | word reason] | reason | action];
    try discriminate; intros _; cbn;
    unfold showLoadingPopup, showDefinitionPopup, showErrorPopup, bind, modify;
    now rewrite !removeCurrentPopup_twice.
Qed.

Lemma dispatch_rebuilt (w : Window) (message : Message) (st : State) :
  Clean st -> isShow message = true ->
  Rebuilt st (fst (dispatch formatDefinition w message st)).
Proof.
  intros Hclean Hshow.
  destruct message; try discriminate; unfold dispatch.
  - now apply showLoadingPopup_rebuilt.
  - now apply showDefinitionPopup_rebuilt.
  - now apply showErrorPopup_rebuilt.
Qed.

Lemma onMessage_state (w : Window) (message : Message) (st : State) :
  fst (onMessage formatDefinition w message st)
  = fst (dispatch formatDefinition w message st).
Proof.
  unfold onMessage.
  now destruct (dispatch formatDefinition w message st) as [st' [u|e]].
Qed.

Lemma onMessage_consistent (w : Window) (message : Message) (st : State) :
  Consistent st -> Consistent (fst (onMessage formatDefinition w message st)).
Proof.
  intros H. rewrite onMessage_state.
  destruct (isShow message) eqn:E.
  - rewrite dispatch_after_teardown by exact E.
    apply (dispatch_rebuilt w message (removeCurrentPopup st)); [|exact E].
    now apply removeCurrentPopup_clean.
  - destruct message; try discriminate. exact H.
Qed.

Lemma fold_left_keeps {A B} (P : A -> Prop) (f : A -> B -> A) (l : list B) :
  (forall a b, P a -> P (f a b)) -> forall a, P a -> P (fold_left f l a).
Proof.
  intros Hf. induction l as [|b l IH]; intros a Ha; simpl; auto.
Qed.

Lemma removeCurrentPopup_consistent (st : State) :
  Consistent st -> Consistent (removeCurrentPopup st).
Proof. intros H. now apply Clean_Consistent, removeCurrentPopup_clean. Qed.

Lemma step_consistent (st : State) (e : Event) :
  Consistent st -> Consistent (step formatDefinition st e).
Proof.
  intros H. destruct e as [w message | key | target | ]; cbn.
  - now apply onMessage_consistent.
  - apply fold_left_keeps; [|exact H].
    intros a _ Ha. unfold escHandler_run.
    destruct (_ && _); [now apply removeCurrentPopup_consistent | exact Ha].
  - apply fold_left_keeps.
    + intros a popup Ha. unfold clickHandler_run.
      destruct (_ && _); [now apply removeCurrentPopup_consistent | exact Ha].
    + destruct target as [element [|] | ];
        [now apply removeCurrentPopup_consistent | exact H | exact H].
  - now apply removeCurrentPopup_consistent.
Qed.

Lemma initial_consistent : Consistent initial.
Proof. unfold Consistent, initial. cbn. tauto. Qed.

(** Every state the script can reach is consistent. *)
Lemma run_consistent (events : list Event) : Consistent (run formatDefinition events).
Proof.
  unfold run. apply fold_left_keeps.
  - intros a e. apply step_consistent.
  - exact initial_consistent.
Qed.

(** In a consistent state, what is on the page was created earlier. *)
Lemma Consistent_older (st : State) :
  Consistent st ->
  (forall x, In x (attached st) -> x < created st)
  /\ (forall h, In h (keydownListeners st) -> h < created st)
  /\ (forall h, In h (clickListeners st) -> h < created st).
Proof.
  unfold Consistent, Registered. destruct (currentPopup st) as [p|].
  - intros (Hlt & Hatt & Hkey & Hclick).
    assert (Hin : forall l x, l = [] \/ l = [pid p] -> In x l -> x < created st).
    { intros l x [-> | ->] Hx; [destruct Hx|].
      destruct Hx as [<- | []]. exact Hlt. }
    repeat split; intros x Hx; apply (Hin _ x) in Hx; auto.
    + destruct Hkey as [[_ E] | [_ E]]; auto.
    + destruct Hclick as [[_ E] | [_ E]]; auto.
  - intros (-> & -> & ->). repeat split; intros x [].
Qed.

End Handlers.

End ContentFacts.

(** C5.  After any sequence of messages (and of key presses, clicks and
    unloads between them) at most one popup element is on the page.  In
    every state so reached, handling a show message does what it does once
    the current popup is torn down; the teardown leaves no popup element and
    no listener; and afterwards none of the elements and listeners that were
    on the page before is there any more, and at most one popup element
    is. *)
Theorem at_most_one_popup
        (formatDefinition : Json.value -> completion JsString.t)
        (events : list Content.Event) :
  let st := Content.run formatDefinition events in
  Content.popupsOnPage st <= 1
  /\ Content.Clean (Content.removeCurrentPopup st)
  /\ forall w message,
      Content.isShow message = true ->
      let st' := fst (Content.onMessage formatDefinition w message st) in
      Content.onMessage formatDefinition w message st
      = Content.onMessage formatDefinition w message (Content.removeCurrentPopup st)
      /\ Content.popupsOnPage st' <= 1
      /\ (forall x, In x (Content.attached st) -> ~ In x (Content.attached st'))
      /\ (forall h, In h (Content.keydownListeners st) ->
                    ~ In h (Content.keydownListeners st'))
      /\ (forall h, In h (Content.clickListeners st) ->
                    ~ In h (Content.clickListeners st')).
Proof.
  intros st.
  pose proof (ContentFacts.run_consistent formatDefinition events) as Hst.
  fold st in Hst.
  split; [now apply ContentFacts.Consistent_popupsOnPage|].
  split; [now apply ContentFacts.removeCurrentPopup_clean|].
  intros w message Hshow st'.
  assert (Hsame : Content.onMessage formatDefinition w message st
                  = Content.onMessage formatDefinition w message
                      (Content.removeCurrentPopup st)).
  { unfold Content.onMessage.
    now rewrite (ContentFacts.dispatch_after_teardown formatDefinition w message st Hshow). }
  split; [exact Hsame|].
  pose proof (ContentFacts.dispatch_rebuilt formatDefinition w message
                (Content.removeCurrentPopup st)
                (ContentFacts.removeCurrentPopup_clean st Hst) Hshow) as Hnew.
  rewrite <- ContentFacts.onMessage_state, <- Hsame in Hnew. fold st' in Hnew.
  unfold Content.Rebuilt in Hnew.
  rewrite ContentFacts.removeCurrentPopup_created in Hnew.
  destruct Hnew as (Hcons & _ & Hatt & Hkey & Hclick).
  destruct (ContentFacts.Consistent_older st Hst) as (Oatt & Okey & Oclick).
  split; [now apply ContentFacts.Consistent_popupsOnPage|].
  repeat split; intros x Hold Hnew.
  - apply Oatt in Hold. apply Hatt in Hnew. lia.
  - apply Okey in Hold. apply Hkey in Hnew. lia.
  - apply Oclick in Hold. apply Hclick in Hnew. lia.
Qed.

(** C5, after a lookup: one popup is on the page, and a further message
    replaces it. *)
Lemma at_most_one_popup_witness :
  Content.popupsOnPage (Content.run Samples.plainFormat Samples.lookupEvents) = 1
  /\ Content.popupsOnPage
       (fst (Content.onMessage Samples.plainFormat (Samples.window 1)
               (ShowError (lit "Failed"))
               (Content.run Samples.plainFormat Samples.lookupEvents))) <= 1.
Proof.
  split; [reflexivity|].
  apply (proj2 (proj2 (at_most_one_popup Samples.plainFormat Samples.lookupEvents))
               (Samples.window 1) (ShowError (lit "Failed")) eq_refl).
Defined.

(** C9.  Without a current popup the teardown returns normally and leaves
    the whole state as it is: the three globals, the elements on the page
    and the listeners; so a second teardown after a first changes nothing. *)
Theorem teardown_without_popup (st : Content.State) :
  (Content.currentPopup st = None ->
   Content.modify Content.removeCurrentPopup st = (st, Normal tt))
  /\ Content.currentPopup (Content.removeCurrentPopup st) = None
  /\ Content.removeCurrentPopup (Content.removeCurrentPopup st)
     = Content.removeCurrentPopup st.
Proof.
  split; [|split].
  - intros H. unfold Content.modify.
    now rewrite ContentFacts.removeCurrentPopup_absent.
  - apply ContentFacts.removeCurrentPopup_current.
  - apply ContentFacts.removeCurrentPopup_twice.
Qed.

(** C9, at the state before any message. *)
Lemma teardown_without_popup_witness :
  Content.modify Content.removeCurrentPopup Content.initial
  = (Content.initial, Normal tt).
Proof.
  apply (proj1 (teardown_without_popup Content.initial)). reflexivity.
Defined.

(** C10.  When the selection has no range, handling a show message in a
    state the script can reach ends in the state the teardown leaves and
    responds with success: no popup element is on the page, no listener is
    registered, no element was created. *)
Theorem no_range_no_popup
        (formatDefinition : Json.value -> completion JsString.t)
        (events : list Content.Event) (w : Content.Window) (message : Message) :
  Content.rangeCount w = 0 ->
  Content.isShow message = true ->
  let st := Content.run formatDefinition events in
  let st' := fst (Content.onMessage formatDefinition w message st) in
  Content.onMessage formatDefinition w message st
  = (Content.removeCurrentPopup st,
     {| Content.success := true; Content.error := None |})
  /\ Content.currentPopup st' = None
  /\ Content.popupsOnPage st' = 0
  /\ Content.keydownListeners st' = []
  /\ Content.clickListeners st' = []
  /\ Content.created st' = Content.created st.
Proof.
  intros Hrange Hshow st st'.
  assert (E : Content.onMessage formatDefinition w message st
              = (Content.removeCurrentPopup st,
                 {| Content.success := true; Content.error := None |})).
  { unfold Content.onMessage.
    destruct message as [text | text [word data | word reason] | reason | action];
      try discriminate; cbn;
      unfold Content.showLoadingPopup, Content.showDefinitionPopup,
        Content.showErrorPopup, Content.bind, Content.modify, Content.ret;
      rewrite ?Hrange; cbn; rewrite ?Hrange; cbn;
      now rewrite ?ContentFacts.removeCurrentPopup_twice. }
  split; [exact E|].
  unfold st'. rewrite E. cbn [fst].
  destruct (ContentFacts.removeCurrentPopup_clean st
              (ContentFacts.run_consistent formatDefinition events))
    as (Hcur & Hatt & Hkey & Hclick).
  unfold Content.popupsOnPage. rewrite Hatt.
  repeat split; auto using ContentFacts.removeCurrentPopup_created.
Qed.

(** C10, after a lookup, when the selection is gone. *)
Lemma no_range_no_popup_witness :
  Content.onMessage Samples.plainFormat (Samples.window 0) (ShowLoading (lit "hello"))
    (Content.run Samples.plainFormat Samples.lookupEvents)
  = (Content.removeCurrentPopup (Content.run Samples.plainFormat Samples.lookupEvents),
     {| Content.success := true; Content.error := None |}).
Proof.
  apply (proj1 (no_range_no_popup Samples.plainFormat Samples.lookupEvents
                  (Samples.window 0) (ShowLoading (lit "hello")) eq_refl eq_refl)).
Defined.

(** * Further properties of the scripts *)

(** ** The sanitizer, continued *)

Module SanitizerMore.

Import JsStringFacts Sanitizer SanitizerFacts.

Lemma removeEntitiesFrom_length (fuel : nat) :
  forall s : JsString.t, List.length (removeEntitiesFrom fuel s) <= List.length s.
Proof.
  induction fuel as [|f IH]; intros s; simpl; [lia|].
  destruct s as [|c r]; [simpl; lia|].
  destruct (matchEntity (c :: r)) as [rest|] eqn:E.
  - apply matchEntity_shorter in E. specialize (IH rest). lia.
  - simpl. specialize (IH r). lia.
Qed.

Lemma collapseFrom_length (s : JsString.t) :
  forall inRun, List.length (collapseFrom inRun s) <= List.length s.
Proof.
  induction s as [|c r IH]; intros inRun; simpl; [lia|].
  destruct (isSpace c); [destruct inRun|]; simpl;
    [specialize (IH true) | specialize (IH true) | specialize (IH false)]; lia.
Qed.

Lemma trim_length (s : JsString.t) : List.length (trim s) <= List.length s.
Proof.
  destruct (trim_infix s) as [pre [suf E]].
  rewrite E at 2. rewrite !length_app. lia.
Qed.

(** Without an ampersand there is no entity to remove. *)
Lemma removeEntitiesFrom_no_amp (fuel : nat) :
  forall s : JsString.t, ~ In amp s -> removeEntitiesFrom fuel s = s.
Proof.
  induction fuel as [|f IH]; intros s H; simpl; [reflexivity|].
  destruct s as [|c r]; [reflexivity|].
  assert (Hc : (c =? amp)%N = false).
  { apply N.eqb_neq. intros ->. apply H. now left. }
  unfold matchEntity. rewrite Hc. f_equal. apply IH.
  intros Hr. apply H. now right.
Qed.

Lemma removeSpecial_kept_id (s : JsString.t) :
  Forall (fun c => isKept c = true) s -> removeSpecial s = s.
Proof.
  unfold removeSpecial. induction 1 as [|c r Hc _ IH]; simpl; [reflexivity|].
  now rewrite Hc, IH.
Qed.

(** The whitespace of a collapsed text is made of spaces. *)
Lemma collapseFrom_spaces (s : JsString.t) :
  forall inRun c, In c (collapseFrom inRun s) -> isSpace c = true -> c = space.
Proof.
  induction s as [|d r IH]; intros inRun c; simpl; [intros []|].
  destruct (isSpace d) eqn:E.
  - destruct inRun; [apply IH|].
    intros [<- | H]; [reflexivity | now apply (IH true)].
  - intros [<- | H]; [congruence | now apply (IH false)].
Qed.

(** A text without whitespace runs whose whitespace is made of spaces is
    left as it is. *)
Lemma collapseFrom_id (s : JsString.t) :
  noSpaceRun s = true ->
  (forall c, In c s -> isSpace c = true -> c = space) ->
  forall inRun,
    (inRun = true -> forall c r, s = c :: r -> isSpace c = false) ->
    collapseFrom inRun s = s.
Proof.
  induction s as [|c r IH]; intros Hrun Hsp inRun Hhead; [reflexivity|].
  simpl. destruct (isSpace c) eqn:E.
  - destruct inRun.
    + rewrite (Hhead eq_refl c r eq_refl) in E. discriminate.
    + rewrite <- (Hsp c (or_introl eq_refl) E). f_equal.
      apply IH.
      * destruct r as [|b t]; [reflexivity|].
        simpl in Hrun. apply andb_true_iff in Hrun. apply Hrun.
      * intros x Hx. apply Hsp. now right.
      * intros _ b t ->. simpl in Hrun.
        apply andb_true_iff in Hrun as [Hrun _].
        apply negb_true_iff in Hrun. rewrite E in Hrun. exact Hrun.
  - f_equal. apply IH.
    + destruct r as [|b t]; [reflexivity|].
      simpl in Hrun. apply andb_true_iff in Hrun. apply Hrun.
    + intros x Hx. apply Hsp. now right.
    + discriminate.
Qed.

Lemma noSpaceRun_app_inv (a b : JsString.t) :
  noSpaceRun (a ++ b) = true -> noSpaceRun b = true.
Proof.
  induction a as [|x a IH]; [trivial|].
  intros H. apply IH. simpl in H.
  destruct (a ++ b); [reflexivity|].
  apply andb_true_iff in H. apply H.
Qed.

Lemma noSpaceRun_app_inv_l (a b : JsString.t) :
  noSpaceRun (a ++ b) = true -> noSpaceRun a = true.
Proof.
  induction a as [|x a IH]; [trivial|].
  intros H. simpl in H. simpl.
  destruct a as [|y a]; [reflexivity|].
  simpl in H. apply andb_true_iff in H as [H1 H2].
  rewrite H1. simpl. apply IH. exact H2.
Qed.

(** A character the sanitizer keeps is not a surrogate. *)
Lemma isKept_not_surrogate (c : N) :
  isKept c = true -> isHighSurrogate c = false /\ isLowSurrogate c = false.
Proof.
  unfold isKept, isWord, isLetter, isDigit, isSpace, isHighSurrogate,
    isLowSurrogate, between.
  intros H.
  repeat rewrite ?orb_true_iff, ?andb_true_iff, ?N.leb_le, ?N.eqb_eq in H.
  split; apply andb_false_iff; rewrite !N.leb_gt; lia.
Qed.

Lemma kept_isWellFormed (s : JsString.t) :
  Forall (fun c => isKept c = true) s -> isWellFormed s = true.
Proof.
  induction 1 as [|c r Hc _ IH]; [reflexivity|].
  destruct (isKept_not_surrogate c Hc) as [Hh Hl].
  simpl. now rewrite Hh, Hl, IH.
Qed.

(** The facts about the result that the further properties rest on. *)
Lemma sanitizeText_shape (text : JsString.t) :
  let out := sanitizeText text in
  Forall (fun c => isKept c = true) out
  /\ noSpaceRun out = true
  /\ (forall c, In c out -> isSpace c = true -> c = space)
  /\ trim out = out.
Proof.
  intros out.
  set (mid := normalizeWhitespace (removeSpecial (removeEntities text))).
  assert (Hout : out = trim mid) by reflexivity.
  destruct (trim_infix mid) as [p [q Emid]]. rewrite <- Hout in Emid.
  assert (Hm : Forall (fun c => isKept c = true) mid)
    by apply collapseFrom_kept, removeSpecial_kept.
  repeat split.
  - rewrite Emid in Hm. apply Forall_app in Hm as [_ Hm].
    now apply Forall_app in Hm as [Hm _].
  - pose proof (collapseFrom_noSpaceRun (removeSpecial (removeEntities text)) false) as H.
    fold (normalizeWhitespace (removeSpecial (removeEntities text))) in H.
    fold mid in H. rewrite Emid in H.
    apply noSpaceRun_app_inv in H. now apply noSpaceRun_app_inv_l in H.
  - intros c Hc. apply (collapseFrom_spaces (removeSpecial (removeEntities text)) false).
    fold (normalizeWhitespace (removeSpecial (removeEntities text))).
    fold mid. rewrite Emid. apply in_or_app. right. apply in_or_app. now left.
  - rewrite Hout. apply trim_idempotent.
Qed.

Lemma sanitizeText_length (text : JsString.t) :
  List.length (sanitizeText text) <= List.length text.
Proof.
  unfold sanitizeText, normalizeWhitespace, removeSpecial, removeEntities.
  etransitivity; [apply trim_length|].
  etransitivity; [apply collapseFrom_length|].
  etransitivity; [apply filter_length_le|].
  apply removeEntitiesFrom_length.
Qed.

Lemma sanitizeText_isWellFormed (text : JsString.t) :
  isWellFormed (sanitizeText text) = true.
Proof. apply kept_isWellFormed. apply (sanitizeText_shape text). Qed.

End SanitizerMore.

(** X1.  Sanitizing a sanitized text changes nothing. *)
Theorem sanitizeText_idempotent (text : JsString.t) :
  Sanitizer.sanitizeText (Sanitizer.sanitizeText text) = Sanitizer.sanitizeText text.
Proof.
  destruct (SanitizerMore.sanitizeText_shape text) as (Hkept & Hrun & Hsp & Htrim).
  set (out := Sanitizer.sanitizeText text) in *.
  unfold Sanitizer.sanitizeText at 1.
  unfold Sanitizer.removeEntities.
  rewrite SanitizerMore.removeEntitiesFrom_no_amp.
  - rewrite (SanitizerMore.removeSpecial_kept_id out Hkept).
    unfold Sanitizer.normalizeWhitespace.
    rewrite (SanitizerMore.collapseFrom_id out Hrun Hsp false); [exact Htrim|].
    discriminate.
  - intros Hamp. rewrite Forall_forall in Hkept.
    apply Hkept in Hamp. discriminate Hamp.
Qed.

(** X2.  The sanitized text is never longer than the text, and it can
    always be URL-encoded: it holds no surrogate. *)
Theorem sanitizeText_short_and_encodable (text : JsString.t) :
  List.length (Sanitizer.sanitizeText text) <= List.length text
  /\ isWellFormed (Sanitizer.sanitizeText text) = true
  /\ encodeURIComponent (Sanitizer.sanitizeText text) = Normal tt.
Proof.
  split; [apply SanitizerMore.sanitizeText_length|].
  split; [apply SanitizerMore.sanitizeText_isWellFormed|].
  unfold encodeURIComponent.
  now rewrite SanitizerMore.sanitizeText_isWellFormed.
Qed.

(** X3.  A text made of word characters, apostrophes and hyphens only is
    returned as it is. *)
Theorem sanitizeText_plain_word (text : JsString.t) :
  Forall (fun c => isWord c = true \/ c = 39%N \/ c = 45%N) text ->
  Sanitizer.sanitizeText text = text.
Proof.
  intros H.
  assert (Hns : Forall (fun c => isSpace c = false /\ Sanitizer.isKept c = true
                                 /\ c <> Sanitizer.amp) text).
  { eapply Forall_impl; [|exact H]. intros c Hc.
    unfold Sanitizer.isKept, Sanitizer.amp.
    destruct Hc as [Hc | [-> | ->]];
      [|repeat split; try reflexivity; discriminate
       |repeat split; try reflexivity; discriminate].
    rewrite Hc. repeat split; try reflexivity.
    - unfold isWord, isLetter, isDigit, isSpace, between in *.
      repeat rewrite ?orb_true_iff, ?andb_true_iff, ?N.leb_le, ?N.eqb_eq in Hc.
      repeat (apply orb_false_iff; split);
        try apply andb_false_iff; rewrite ?N.leb_gt, ?N.eqb_neq; lia.
    - intros ->. discriminate Hc. }
  unfold Sanitizer.sanitizeText, Sanitizer.removeEntities.
  rewrite SanitizerMore.removeEntitiesFrom_no_amp.
  2:{ intros Hamp. rewrite Forall_forall in Hns. now apply Hns in Hamp. }
  rewrite SanitizerMore.removeSpecial_kept_id.
  2:{ eapply Forall_impl; [|exact Hns]. intros c Hc. apply Hc. }
  assert (Hc : forall inRun, Sanitizer.collapseFrom inRun text = text).
  { clear H. induction Hns as [|c r [Hc _] _ IH]; intros inRun; simpl; [reflexivity|].
    rewrite Hc. f_equal. apply IH. }
  unfold Sanitizer.normalizeWhitespace. rewrite Hc.
  unfold trim, trimStart, trimEnd.
  rewrite (JsStringFacts.dropWhile_id isSpace text).
  2:{ intros c r ->. inversion Hns as [|? ? [Hc' _] _]. exact Hc'. }
  rewrite (JsStringFacts.dropWhile_id isSpace (rev text)); [apply rev_involutive|].
  intros c r E. rewrite Forall_forall in Hns.
  apply (Hns c). apply in_rev. rewrite E. now left.
Qed.

(** X3, at a word with an apostrophe and hyphens. *)
Lemma sanitizeText_plain_word_witness :
  Sanitizer.sanitizeText (lit "mother-in-law's") = lit "mother-in-law's".
Proof.
  apply sanitizeText_plain_word.
  repeat (constructor; [vm_compute; auto|]). constructor.
Defined.

(** ** The definition fetcher, continued *)

Module FetcherMore.

Import Fetcher.

(** The fetcher returns an envelope, whatever the network does. *)
Lemma fetcher_returns (net : Network) (word : JsString.t) :
  exists envelope, fetchDictionaryDefinition net word = Normal envelope.
Proof.
  unfold fetchDictionaryDefinition, encodeURIComponent.
  destruct (isWellFormed word); simpl; [|now eexists].
  destruct (race _ _) as [result|e]; simpl; [|now eexists].
  destruct (firstOfArray result); now eexists.
Qed.

Lemma firstOfArray_Some (result first : Json.value) :
  firstOfArray result = Some first ->
  exists others, result = Json.Arr (first :: others).
Proof.
  destruct result as [| | | |[|x others]|]; try discriminate.
  intros H. injection H as ->. now exists others.
Qed.

(** When the race gives a value, the request's promise gave it in time. *)
Lemma race_value (net : Network) (value : Json.value) :
  race (apiPromise net) timeoutPromise = Normal value ->
  exists t, settledAt net = Some t /\ (t < API_TIMEOUT)%N
            /\ Js.bind (fetched net) onResponse = Normal value.
Proof.
  unfold race, apiPromise, timeoutPromise.
  destruct (settledAt net) as [t|]; [|discriminate].
  simpl fst. simpl snd.
  destruct (t <? API_TIMEOUT)%N eqn:E; [|discriminate].
  intros H. exists t. apply N.ltb_lt in E. auto.
Qed.

End FetcherMore.

(** X4.  Every envelope the fetcher returns carries the word it was given;
    a failure envelope carries one of three reasons. *)
Theorem fetcher_envelopes (net : Fetcher.Network) (word : JsString.t) :
  (exists data, Fetcher.fetchDictionaryDefinition net word = Normal (Success word data))
  \/ Fetcher.fetchDictionaryDefinition net word
     = Normal (Failure word (lit "No definition found"))
  \/ Fetcher.fetchDictionaryDefinition net word
     = Normal (Failure word (lit "Request timed out"))
  \/ Fetcher.fetchDictionaryDefinition net word
     = Normal (Failure word (lit "Failed to fetch definition")).
Proof.
  unfold Fetcher.fetchDictionaryDefinition, encodeURIComponent.
  destruct (isWellFormed word); simpl; [|now (right; right; right)].
  destruct (Fetcher.race _ _) as [result|e]; simpl.
  - destruct (Fetcher.firstOfArray result) as [first|].
    + left. now exists first.
    + right. now left.
  - destruct (JsString.eqb (message e) (lit "API timeout"));
      [right; right; now left | now (right; right; right)].
Qed.

(** X5.  A success envelope is returned only when the word can be encoded
    and the request's promise was fulfilled, before the 5000ms of the timer,
    with an array whose first element is the data of the envelope: never
    once the timer has settled, never for a response that is not 2xx. *)
Theorem fetcher_success_only
        (net : Fetcher.Network) (word found : JsString.t) (data : Json.value) :
  Fetcher.fetchDictionaryDefinition net word = Normal (Success found data) ->
  found = word
  /\ isWellFormed word = true
  /\ exists t response others,
      Fetcher.settledAt net = Some t /\ (t < Fetcher.API_TIMEOUT)%N
      /\ Fetcher.fetched net = Normal response
      /\ Fetcher.ok response = true
      /\ Fetcher.json response = Normal (Json.Arr (data :: others)).
Proof.
  unfold Fetcher.fetchDictionaryDefinition, encodeURIComponent.
  destruct (isWellFormed word) eqn:Hw; simpl; [|discriminate].
  destruct (Fetcher.race _ _) as [result|e] eqn:Er; simpl; [|discriminate].
  destruct (Fetcher.firstOfArray result) as [first|] eqn:Ef; [|discriminate].
  intros H. injection H as <- <-.
  destruct (FetcherMore.firstOfArray_Some _ _ Ef) as [others ->].
  destruct (FetcherMore.race_value net _ Er) as (t & Hs & Ht & Hv).
  split; [reflexivity|]. split; [reflexivity|].
  destruct (Fetcher.fetched net) as [response|e]; [|discriminate].
  cbn [Js.bind] in Hv. unfold Fetcher.onResponse in Hv.
  destruct (Fetcher.ok response) eqn:Hok; [|discriminate].
  exists t, response, others. auto.
Qed.

(** X5, at a response whose body is an array of two entries. *)
Lemma fetcher_success_only_witness :
  exists t response others,
    Fetcher.settledAt Samples.found = Some t /\ (t < Fetcher.API_TIMEOUT)%N
    /\ Fetcher.fetched Samples.found = Normal response
    /\ Fetcher.ok response = true
    /\ Fetcher.json response = Normal (Json.Arr (Samples.entry "hello" :: others)).
Proof.
  apply (fetcher_success_only Samples.found (lit "hello") (lit "hello")
           (Samples.entry "hello") eq_refl).
Defined.

(** ** The shortcut handler, continued *)

Module LookupMore.

Import Lookup Router Run.

Open Scope js_scope.

(** The calls [tr], then the computation [m]. *)
Definition after {B} (tr : list Action) (m : M B) : M B := (tr ++ fst m, snd m).

Lemma bind_normal {A B} (tr : list Action) (x : A) (k : A -> M B) :
  Trace.bind (tr, Normal x) k = after tr (k x).
Proof. unfold Trace.bind, after. now destruct (k x). Qed.

Lemma bind_call {A B} (a : Action) (x : A) (k : A -> M B) :
  Trace.bind (call a (Normal x)) k = after [a] (k x).
Proof. apply bind_normal. Qed.

Lemma bind_ret {A B} (x : A) (k : A -> M B) : Trace.bind (ret x) k = k x.
Proof. unfold Trace.bind, ret. now destruct (k x). Qed.

(** What one delivery leaves in the readings of a run. *)
Lemma delivery_readings (d : Delivery) (tabId : N) (m : Message) :
  let tr := fst (sendMessageToContentScript d tabId m) in
  fetchedWords tr = []
  /\ sanitizerInputs tr = []
  /\ Forall (eq (tabId, m)) (sends tr)
  /\ Forall (eq tabId) (injections tr).
Proof.
  cbv zeta. rewrite RouterFacts.delivery_cases.
  destruct (firstSend d) as [u|e]; cbn; [repeat split; repeat constructor|].
  destruct (notInitialized e); cbn; [|repeat split; repeat constructor].
  destruct (injection d) as [u|e2]; cbn; [|repeat split; repeat constructor].
  destruct (retrySend d) as [u'|e3]; cbn; repeat split; repeat constructor.
Qed.

(** A delivery whose result is not used: its calls, then the rest. *)
Lemma delivery_then {B} (d : Delivery) (tabId : N) (m : Message) (k : M B) :
  (sendMessageToContentScript d tabId m ;;; k)
  = after (fst (sendMessageToContentScript d tabId m)) k.
Proof.
  destruct (LookupFacts.delivery_returns d tabId m) as [r Hr].
  destruct (sendMessageToContentScript d tabId m) as [tr c].
  cbn [fst snd] in *. subst c.
  exact (bind_normal tr r (fun _ => k)).
Qed.

Lemma getSelectedText_eq (b : Browser) (tabId : N) :
  getSelectedText b tabId
  = (ReadSelection tabId
       :: match pageSelection b with
          | Normal _ => []
          | Throw _ => [ConsoleError (lit "Error getting selected text:")]
          end,
     Normal (selectedTextOf b)).
Proof.
  unfold getSelectedText, selectedTextOf.
  destruct (pageSelection b) as [[text|]|e]; reflexivity.
Qed.

(** The calls of the [catch] block. *)
Lemma reportError_eq (b : Browser) :
  reportError b
  = (ConsoleError (lit "Error in command handler:") :: TabsQuery
       :: match activeTabAgain b with
          | Normal (Some tabId) =>
              fst (sendMessageToContentScript (errorDelivery b) tabId failureNotice)
          | Normal None => []
          | Throw _ =>
              [ConsoleError (lit "Error sending error message to content script:")]
          end,
     Normal tt).
Proof.
  unfold reportError.
  destruct (activeTabAgain b) as [[tabId|]|e]; try reflexivity.
  rewrite !bind_call. cbv beta iota.
  rewrite delivery_then. unfold after. cbn. now rewrite app_nil_r.
Qed.

Lemma reportError_readings (b : Browser) :
  fetchedWords (fst (reportError b)) = []
  /\ sanitizerInputs (fst (reportError b)) = [].
Proof.
  rewrite reportError_eq. cbn.
  destruct (activeTabAgain b) as [[tabId|]|e]; cbn; auto.
  destruct (delivery_readings (errorDelivery b) tabId failureNotice) as (H1 & H2 & _).
  auto.
Qed.

(** The run on the path on which a word is looked up. *)
Lemma lookup_path (b : Browser) (stored : option Json.value) (tabId : N)
      (envelope : LookupResult) :
  storedEnabled b = Normal stored -> isEnabled stored = true ->
  activeTab b = Normal (Some tabId) ->
  selectedTextOf b <> [] ->
  List.length (selectedTextOf b) <= 50 ->
  Sanitizer.sanitizeText (selectedTextOf b) <> [] ->
  Fetcher.fetchDictionaryDefinition (network b) (Sanitizer.sanitizeText (selectedTextOf b))
  = Normal envelope ->
  let word := Sanitizer.sanitizeText (selectedTextOf b) in
  onCommand b (lit "lookup-word")
  = ([StorageGet; TabsQuery; ReadSelection tabId]
       ++ match pageSelection b with
          | Normal _ => []
          | Throw _ => [ConsoleError (lit "Error getting selected text:")]
          end
       ++ [Sanitize (selectedTextOf b)]
       ++ fst (sendMessageToContentScript (loadingDelivery b) tabId (ShowLoading word))
       ++ [FetchDefinition word]
       ++ fst (sendMessageToContentScript (definitionDelivery b) tabId
                 (ShowDefinition word envelope)),
     Normal tt).
Proof.
  intros Hstored Henabled Htab Hsel Hlen Hword Hfetch word.
  unfold onCommand.
  change (JsString.eqb (lit "lookup-word") (lit "lookup-word")) with true.
  cbv iota. unfold lookupWord.
  rewrite Hstored, bind_call. cbv beta.
  rewrite Henabled. cbn [negb]. cbv iota.
  rewrite Htab, bind_call. cbv beta iota.
  rewrite getSelectedText_eq, bind_normal.
  assert (Htrim : trim (selectedTextOf b) = selectedTextOf b).
  { unfold selectedTextOf. destruct (pageSelection b) as [[text|]|e]; try reflexivity.
    apply JsStringFacts.trim_idempotent. }
  rewrite Htrim.
  destruct (selectedTextOf b) as [|c rest] eqn:E; [contradiction|].
  assert (Hlt : (50 <? List.length (c :: rest)) = false) by now apply Nat.ltb_ge.
  cbn [isEmpty orb]. change (List.length (c :: rest) =? 0) with false.
  rewrite Hlt. cbv iota.
  rewrite bind_ret, bind_call. cbv beta.
  assert (Hw1 : (List.length (Sanitizer.sanitizeText (c :: rest)) <? 1) = false).
  { destruct (Sanitizer.sanitizeText (c :: rest)) eqn:Ew; [congruence | reflexivity]. }
  rewrite Hw1. subst word.
  rewrite delivery_then.
  rewrite Hfetch, bind_call. cbv beta.
  rewrite delivery_then.
  unfold after. cbn [Trace.tryCatch Trace.ret app fst snd].
  rewrite app_nil_r.
  destruct (pageSelection b) as [[text|]|e]; cbn [app];
    rewrite <- ?app_assoc; reflexivity.
Qed.

Lemma selectedTextOf_trim (b : Browser) :
  trim (selectedTextOf b) = selectedTextOf b.
Proof.
  unfold selectedTextOf. destruct (pageSelection b) as [[text|]|e]; try reflexivity.
  apply JsStringFacts.trim_idempotent.
Qed.

(** The run up to the test of the selection. *)
Lemma lookup_prefix (b : Browser) (stored : option Json.value) (tabId : N) :
  storedEnabled b = Normal stored -> isEnabled stored = true ->
  activeTab b = Normal (Some tabId) ->
  lookupWord b
  = after ([StorageGet; TabsQuery; ReadSelection tabId] ++ readLog b)
      (let selectedText := selectedTextOf b in
       if isEmpty selectedText || (List.length (trim selectedText) =? 0)
       then ret tt else
       (if 50 <? List.length selectedText
        then assignConst (substring0 50 selectedText)
        else ret tt) ;;;
       sanitizedText <- call (Sanitize selectedText)
                             (Normal (Sanitizer.sanitizeText selectedText)) ;;
       if List.length sanitizedText <? 1 then ret tt else
       sendMessageToContentScript (loadingDelivery b) tabId
         (ShowLoading sanitizedText) ;;;
       definition <- call (FetchDefinition sanitizedText)
                          (Fetcher.fetchDictionaryDefinition (network b) sanitizedText) ;;
       sendMessageToContentScript (definitionDelivery b) tabId
         (ShowDefinition sanitizedText definition) ;;;
       ret tt).
Proof.
  intros Hstored Henabled Htab. unfold lookupWord.
  rewrite Hstored, bind_call. cbv beta.
  rewrite Henabled. cbn [negb]. cbv iota.
  rewrite Htab, bind_call. cbv beta iota.
  rewrite getSelectedText_eq, bind_normal. fold (readLog b).
  unfold after. cbn [fst snd app]. reflexivity.
Qed.

(** No selection, a selection of whitespace, or a selection that cannot be
    read: the run ends after the read. *)
Lemma lookup_blank (b : Browser) (stored : option Json.value) (tabId : N) :
  storedEnabled b = Normal stored -> isEnabled stored = true ->
  activeTab b = Normal (Some tabId) ->
  selectedTextOf b = [] ->
  onCommand b (lit "lookup-word")
  = ([StorageGet; TabsQuery; ReadSelection tabId] ++ readLog b, Normal tt).
Proof.
  intros Hstored Henabled Htab Hsel. unfold onCommand.
  change (JsString.eqb (lit "lookup-word") (lit "lookup-word")) with true.
  cbv iota. rewrite (lookup_prefix b stored tabId Hstored Henabled Htab).
  rewrite Hsel. unfold after. cbn. now rewrite app_nil_r.
Qed.

(** A selection of which the sanitizer keeps nothing: the run ends after
    the sanitizer. *)
Lemma lookup_nothing_kept (b : Browser) (stored : option Json.value) (tabId : N) :
  storedEnabled b = Normal stored -> isEnabled stored = true ->
  activeTab b = Normal (Some tabId) ->
  selectedTextOf b <> [] ->
  List.length (selectedTextOf b) <= 50 ->
  Sanitizer.sanitizeText (selectedTextOf b) = [] ->
  onCommand b (lit "lookup-word")
  = ([StorageGet; TabsQuery; ReadSelection tabId] ++ readLog b
       ++ [Sanitize (selectedTextOf b)], Normal tt).
Proof.
  intros Hstored Henabled Htab Hsel Hlen Hword. unfold onCommand.
  change (JsString.eqb (lit "lookup-word") (lit "lookup-word")) with true.
  cbv iota. rewrite (lookup_prefix b stored tabId Hstored Henabled Htab).
  cbv zeta. rewrite selectedTextOf_trim.
  destruct (selectedTextOf b) as [|c rest] eqn:E; [contradiction|].
  assert (Hlt : (50 <? List.length (c :: rest)) = false) by now apply Nat.ltb_ge.
  cbn [isEmpty orb]. change (List.length (c :: rest) =? 0) with false.
  rewrite Hlt. cbv iota.
  rewrite bind_ret, bind_call. cbv beta. rewrite Hword.
  unfold after. cbn. reflexivity.
Qed.

(** A selection longer than 50 characters: the run goes on in the [catch]
    block. *)
Lemma lookup_long (b : Browser) (stored : option Json.value) (tabId : N) :
  storedEnabled b = Normal stored -> isEnabled stored = true ->
  activeTab b = Normal (Some tabId) ->
  50 < List.length (selectedTextOf b) ->
  onCommand b (lit "lookup-word")
  = after ([StorageGet; TabsQuery; ReadSelection tabId] ++ readLog b) (reportError b).
Proof.
  intros Hstored Henabled Htab Hlen. unfold onCommand.
  change (JsString.eqb (lit "lookup-word") (lit "lookup-word")) with true.
  cbv iota. rewrite (lookup_prefix b stored tabId Hstored Henabled Htab).
  cbv zeta. rewrite selectedTextOf_trim.
  destruct (selectedTextOf b) as [|c rest] eqn:E; [simpl in Hlen; lia|].
  assert (Hlt : (50 <? List.length (c :: rest)) = true) by now apply Nat.ltb_lt.
  cbn [isEmpty orb]. change (List.length (c :: rest) =? 0) with false.
  rewrite Hlt. cbv iota.
  unfold assignConst, throw, after, Trace.bind, Trace.tryCatch.
  cbn [fst snd]. rewrite app_nil_r.
  now destruct (reportError b).
Qed.

(** The runs that end before the selection is read. *)
Lemma lookup_early (b : Browser) :
  match storedEnabled b with
  | Throw _ => onCommand b (lit "lookup-word") = after [StorageGet] (reportError b)
  | Normal stored =>
      if isEnabled stored then
        match activeTab b with
        | Throw _ =>
            onCommand b (lit "lookup-word")
            = after [StorageGet; TabsQuery] (reportError b)
        | Normal None =>
            onCommand b (lit "lookup-word")
            = ([StorageGet; TabsQuery; ConsoleError (lit "No active tab found")],
               Normal tt)
        | Normal (Some _) => True
        end
      else onCommand b (lit "lookup-word") = ([StorageGet], Normal tt)
  end.
Proof.
  unfold onCommand.
  change (JsString.eqb (lit "lookup-word") (lit "lookup-word")) with true.
  cbv iota. unfold lookupWord.
  destruct (storedEnabled b) as [stored|e].
  - destruct (isEnabled stored) eqn:He.
    + destruct (activeTab b) as [[tabId|]|e]; [exact I | |].
      * rewrite bind_call. cbv beta. rewrite He. cbn [negb]. cbv iota.
        rewrite bind_call. reflexivity.
      * rewrite bind_call. cbv beta. rewrite He. cbn [negb]. cbv iota.
        unfold after, call, Trace.bind, Trace.tryCatch. cbn [fst snd app].
        now destruct (reportError b).
    + rewrite bind_call. cbv beta. rewrite He. reflexivity.
  - unfold after, call, Trace.bind, Trace.tryCatch. cbn [fst snd app].
    now destruct (reportError b).
Qed.

Lemma fetchedWords_app (a b : list Action) :
  fetchedWords (a ++ b) = fetchedWords a ++ fetchedWords b.
Proof. apply flat_map_app. Qed.

Lemma sends_app (a b : list Action) : sends (a ++ b) = sends a ++ sends b.
Proof. apply flat_map_app. Qed.

Lemma sanitizerInputs_app (a b : list Action) :
  sanitizerInputs (a ++ b) = sanitizerInputs a ++ sanitizerInputs b.
Proof. apply flat_map_app. Qed.

Lemma readLog_readings (b : Browser) :
  fetchedWords (readLog b) = [] /\ sends (readLog b) = []
  /\ sanitizerInputs (readLog b) = [].
Proof. unfold readLog. now destruct (pageSelection b). Qed.

Lemma onCommand_lookup (b : Browser) (command : JsString.t) :
  JsString.eqb command (lit "lookup-word") = true ->
  onCommand b command = onCommand b (lit "lookup-word").
Proof. intros H. apply JsStringFacts.eqb_eq in H. now subst. Qed.

(** A run hands no word to the fetcher, or it is on the path of
    [lookup_path] and hands it the sanitized selection, once. *)
Lemma fetched_cases (b : Browser) (command : JsString.t) :
  fetchedWords (fst (onCommand b command)) = []
  \/ (fetchedWords (fst (onCommand b command))
       = [Sanitizer.sanitizeText (selectedTextOf b)]
      /\ List.length (selectedTextOf b) <= 50
      /\ Sanitizer.sanitizeText (selectedTextOf b) <> []).
Proof.
  destruct (JsString.eqb command (lit "lookup-word")) eqn:Ec.
  2:{ left. unfold onCommand. now rewrite Ec. }
  rewrite (onCommand_lookup b command Ec).
  pose proof (lookup_early b) as Hearly.
  pose proof (proj1 (reportError_readings b)) as Hrep.
  pose proof (proj1 (readLog_readings b)) as Hlog.
  destruct (storedEnabled b) as [stored|e] eqn:Hstored.
  2:{ left. rewrite Hearly. unfold after. cbn [fst]. now rewrite fetchedWords_app, Hrep. }
  destruct (isEnabled stored) eqn:Henabled.
  2:{ left. now rewrite Hearly. }
  destruct (activeTab b) as [[tabId|]|e] eqn:Htab.
  2:{ left. now rewrite Hearly. }
  2:{ left. rewrite Hearly. unfold after. cbn [fst]. now rewrite fetchedWords_app, Hrep. }
  clear Hearly.
  destruct (selectedTextOf b) as [|c rest] eqn:Esel.
  { left. rewrite (lookup_blank b stored tabId Hstored Henabled Htab Esel).
    cbn [fst]. now rewrite fetchedWords_app, Hlog. }
  rewrite <- Esel in *.
  assert (Hne : selectedTextOf b <> []) by (rewrite Esel; discriminate).
  destruct (le_lt_dec (List.length (selectedTextOf b)) 50) as [Hlen | Hlen].
  2:{ left. rewrite (lookup_long b stored tabId Hstored Henabled Htab Hlen).
      unfold after. cbn [fst]. now rewrite !fetchedWords_app, Hlog, Hrep. }
  destruct (Sanitizer.sanitizeText (selectedTextOf b)) as [|w ws] eqn:Eword.
  { left. rewrite (lookup_nothing_kept b stored tabId Hstored Henabled Htab Hne Hlen Eword).
    cbn [fst]. now rewrite !fetchedWords_app, Hlog. }
  rewrite <- Eword in *.
  assert (Hw : Sanitizer.sanitizeText (selectedTextOf b) <> [])
    by (rewrite Eword; discriminate).
  destruct (FetcherMore.fetcher_returns (network b)
              (Sanitizer.sanitizeText (selectedTextOf b))) as [envelope Hfetch].
  right. split; [|auto].
  rewrite (lookup_path b stored tabId envelope Hstored Henabled Htab Hne Hlen Hw Hfetch).
  cbn [fst]. fold (readLog b).
  rewrite !fetchedWords_app, Hlog.
  rewrite (proj1 (delivery_readings _ _ _)), (proj1 (delivery_readings _ _ _)).
  reflexivity.
Qed.

End LookupMore.

(** X6.  The listener of the shortcut returns normally whatever the
    browser answers: no rejection of a browser call escapes it. *)
Theorem shortcut_handler_returns (b : Lookup.Browser) (command : JsString.t) :
  snd (Lookup.onCommand b command) = Normal tt.
Proof.
  unfold Lookup.onCommand.
  destruct (JsString.eqb command (lit "lookup-word")); [|reflexivity].
  unfold Trace.tryCatch.
  destruct (Lookup.lookupWord b) as [tr [[]|e]]; [reflexivity|].
  rewrite LookupMore.reportError_eq. reflexivity.
Qed.

(** X7.  Another command than [lookup-word] makes no call at all, and when
    the stored flag is [false] the handler reads the flag and makes no other
    call: no tab is queried, no selection read, no message sent. *)
Theorem disabled_handler_is_silent (b : Lookup.Browser) (command : JsString.t) :
  (command <> lit "lookup-word" -> Lookup.onCommand b command = ([], Normal tt))
  /\ (Lookup.storedEnabled b = Normal (Some (Json.Bool false)) ->
      Lookup.onCommand b (lit "lookup-word") = ([Trace.StorageGet], Normal tt)).
Proof.
  split.
  - intros H. unfold Lookup.onCommand.
    destruct (JsString.eqb command (lit "lookup-word")) eqn:E; [|reflexivity].
    apply JsStringFacts.eqb_eq in E. contradiction.
  - intros H. pose proof (LookupMore.lookup_early b) as Hearly.
    rewrite H in Hearly. exact Hearly.
Qed.

(** X7, at a browser in which the flag is stored as [false]. *)
Lemma disabled_handler_is_silent_witness :
  Lookup.onCommand Scenarios.disabledBrowser (lit "lookup-word")
  = ([Trace.StorageGet], Normal tt).
Proof.
  apply (proj2 (disabled_handler_is_silent Scenarios.disabledBrowser (lit "lookup-word"))).
  reflexivity.
Defined.

(** X8.  When nothing is selected, when the selection is whitespace only,
    or when the selection cannot be read, the enabled handler stops after the
    read: nothing is sanitized, fetched or sent. *)
Theorem blank_selection_is_ignored
        (b : Lookup.Browser) (stored : option Json.value) (tabId : N) :
  Lookup.storedEnabled b = Normal stored -> Lookup.isEnabled stored = true ->
  Lookup.activeTab b = Normal (Some tabId) ->
  Run.selectedTextOf b = [] ->
  let tr := fst (Lookup.onCommand b (lit "lookup-word")) in
  Lookup.sanitizerInputs tr = [] /\ Run.fetchedWords tr = [] /\ Run.sends tr = [].
Proof.
  intros Hstored Henabled Htab Hsel tr. unfold tr.
  rewrite (LookupMore.lookup_blank b stored tabId Hstored Henabled Htab Hsel).
  cbn [fst].
  rewrite LookupMore.sanitizerInputs_app, LookupMore.fetchedWords_app,
    LookupMore.sends_app.
  destruct (LookupMore.readLog_readings b) as (-> & -> & ->).
  repeat split.
Qed.

(** X8, at a selection of three spaces. *)
Lemma blank_selection_is_ignored_witness :
  let tr := fst (Lookup.onCommand (Samples.browser (lit "   ")) (lit "lookup-word")) in
  Lookup.sanitizerInputs tr = [] /\ Run.fetchedWords tr = [] /\ Run.sends tr = [].
Proof.
  apply (blank_selection_is_ignored (Samples.browser (lit "   ")) None 7%N);
    reflexivity.
Defined.

(** X9.  When the selection is not blank and not longer than 50 characters
    but the sanitizer keeps nothing of it, the handler stops after the
    sanitizer: nothing is fetched or sent. *)
Theorem unsanitizable_selection_is_ignored
        (b : Lookup.Browser) (stored : option Json.value) (tabId : N) :
  Lookup.storedEnabled b = Normal stored -> Lookup.isEnabled stored = true ->
  Lookup.activeTab b = Normal (Some tabId) ->
  Run.selectedTextOf b <> [] ->
  List.length (Run.selectedTextOf b) <= 50 ->
  Sanitizer.sanitizeText (Run.selectedTextOf b) = [] ->
  let tr := fst (Lookup.onCommand b (lit "lookup-word")) in
  Lookup.sanitizerInputs tr = [Run.selectedTextOf b]
  /\ Run.fetchedWords tr = [] /\ Run.sends tr = [].
Proof.
  intros Hstored Henabled Htab Hsel Hlen Hword tr. unfold tr.
  rewrite (LookupMore.lookup_nothing_kept b stored tabId
             Hstored Henabled Htab Hsel Hlen Hword).
  cbn [fst].
  rewrite !LookupMore.sanitizerInputs_app, !LookupMore.fetchedWords_app,
    !LookupMore.sends_app.
  destruct (LookupMore.readLog_readings b) as (-> & -> & ->).
  repeat split.
Qed.

(** X9, at a selection of punctuation. *)
Lemma unsanitizable_selection_is_ignored_witness :
  let tr := fst (Lookup.onCommand (Samples.browser (lit "?!...")) (lit "lookup-word")) in
  Lookup.sanitizerInputs tr = [lit "?!..."]
  /\ Run.fetchedWords tr = [] /\ Run.sends tr = [].
Proof.
  apply (unsanitizable_selection_is_ignored (Samples.browser (lit "?!...")) None 7%N);
    try reflexivity.
  - discriminate.
  - vm_compute. lia.
Defined.

(** X10.  When the extension is enabled, a tab is active, and the trimmed
    selection is not blank, not longer than 50 characters and not emptied by
    the sanitizer, the run is: the sanitizer on the trimmed selection, the
    delivery of [showLoading] with the sanitized text, one fetch of the
    sanitized text, and the delivery of [showDefinition] with the sanitized
    text and the envelope the fetcher returned. *)
Theorem lookup_run
        (b : Lookup.Browser) (stored : option Json.value) (tabId : N)
        (envelope : LookupResult) :
  Lookup.storedEnabled b = Normal stored -> Lookup.isEnabled stored = true ->
  Lookup.activeTab b = Normal (Some tabId) ->
  Run.selectedTextOf b <> [] ->
  List.length (Run.selectedTextOf b) <= 50 ->
  Sanitizer.sanitizeText (Run.selectedTextOf b) <> [] ->
  Fetcher.fetchDictionaryDefinition (Lookup.network b)
    (Sanitizer.sanitizeText (Run.selectedTextOf b)) = Normal envelope ->
  let word := Sanitizer.sanitizeText (Run.selectedTextOf b) in
  Lookup.onCommand b (lit "lookup-word")
  = ([Trace.StorageGet; Trace.TabsQuery; Trace.ReadSelection tabId]
       ++ Run.readLog b
       ++ [Trace.Sanitize (Run.selectedTextOf b)]
       ++ fst (Router.sendMessageToContentScript
                 (Lookup.loadingDelivery b) tabId (ShowLoading word))
       ++ [Trace.FetchDefinition word]
       ++ fst (Router.sendMessageToContentScript
                 (Lookup.definitionDelivery b) tabId (ShowDefinition word envelope)),
     Normal tt).
Proof.
  intros Hstored Henabled Htab Hsel Hlen Hword Hfetch.
  exact (LookupMore.lookup_path b stored tabId envelope
           Hstored Henabled Htab Hsel Hlen Hword Hfetch).
Qed.

(** X10, at a page whose script is injected at the first message. *)
Lemma lookup_run_witness :
  Lookup.onCommand Scenarios.freshPage (lit "lookup-word")
  = ([Trace.StorageGet; Trace.TabsQuery; Trace.ReadSelection 7;
      Trace.Sanitize (lit "hello");
      Trace.SendMessage 7 (ShowLoading (lit "hello"));
      Trace.InjectContentScript 7; Trace.Wait 100;
      Trace.SendMessage 7 (ShowLoading (lit "hello"));
      Trace.FetchDefinition (lit "hello");
      Trace.SendMessage 7
        (ShowDefinition (lit "hello") (Success (lit "hello") (Samples.entry "hello")))],
     Normal tt).
Proof.
  apply (lookup_run Scenarios.freshPage None 7%N
           (Success (lit "hello") (Samples.entry "hello")));
    try reflexivity; try discriminate.
  vm_compute. lia.
Defined.

(** X11.  In every run of the handler, a word handed to the fetcher is the
    sanitized trimmed selection; it is not empty, not longer than 50
    characters and can be URL-encoded; and it is the only word fetched in
    the run. *)
Theorem looked_up_words (b : Lookup.Browser) (command word : JsString.t) :
  In word (Run.fetchedWords (fst (Lookup.onCommand b command))) ->
  word = Sanitizer.sanitizeText (Run.selectedTextOf b)
  /\ 1 <= List.length word <= 50
  /\ isWellFormed word = true
  /\ Run.fetchedWords (fst (Lookup.onCommand b command)) = [word].
Proof.
  intros Hin.
  destruct (LookupMore.fetched_cases b command) as [E | (E & Hlen & Hne)];
    rewrite E in Hin; [destruct Hin|].
  destruct Hin as [<- | []].
  split; [reflexivity|]. split; [|split; [|exact E]].
  - pose proof (SanitizerMore.sanitizeText_length (Run.selectedTextOf b)).
    destruct (Sanitizer.sanitizeText (Run.selectedTextOf b)); [contradiction|].
    simpl in *. lia.
  - apply SanitizerMore.sanitizeText_isWellFormed.
Qed.

(** X11, at a run that looks up [hello]. *)
Lemma looked_up_words_witness :
  lit "hello" = Sanitizer.sanitizeText (Run.selectedTextOf Scenarios.freshPage)
  /\ 1 <= List.length (lit "hello") <= 50
  /\ isWellFormed (lit "hello") = true
  /\ Run.fetchedWords (fst (Lookup.onCommand Scenarios.freshPage (lit "lookup-word")))
     = [lit "hello"].
Proof.
  apply (looked_up_words Scenarios.freshPage (lit "lookup-word") (lit "hello")).
  vm_compute. auto.
Defined.

(** X12.  A delivery sends nothing but the given message, to the given tab
    only, and injects the script into that tab only. *)
Theorem delivery_addresses (d : Router.Delivery) (tabId : N) (message : Message) :
  let tr := fst (Router.sendMessageToContentScript d tabId message) in
  Forall (eq (tabId, message)) (Run.sends tr)
  /\ Forall (eq tabId) (Run.injections tr).
Proof.
  cbv zeta.
  destruct (LookupMore.delivery_readings d tabId message) as (_ & _ & Hs & Hi).
  auto.
Qed.

(** ** The control panel and the stored flag *)

Module PanelFacts.

Import Panel.

Lemma handleToggleClick_agrees (c : Click) (st : State) :
  Recovers c -> Agrees (fst (handleToggleClick c st)).
Proof.
  unfold Recovers, Agrees, handleToggleClick, Storage.set, Storage.get.
  destruct (writeFailure c) as [e|].
  - destruct (rereadFailure c) as [e'|]; [|reflexivity].
    intros [H | H]; discriminate.
  - intros _. cbn. now destruct (active st).
Qed.


Lemma click_listening (c : Click) (st : State) :
  listening (click st c) = listening st.
Proof.
  unfold click, handleToggleClick, Storage.set, Storage.get.
  destruct (listening st) eqn:E; [|exact E].
  destruct (writeFailure c); [destruct (rereadFailure c)|]; exact E.
Qed.

Lemma toggle_twice_area (st : State) :
  listening st = true ->
  area (click st quiet) = Some (Json.Bool (negb (active st)))
  /\ area (click (click st quiet) quiet) = Some (Json.Bool (active st)).
Proof.
  intros H. unfold click. rewrite H. cbn. rewrite H. cbn.
  now rewrite negb_involutive.
Qed.

End PanelFacts.

(** An enabled handler goes on to query the tab. *)
Lemma enabled_run_queries_tab (b : Lookup.Browser) (stored : option Json.value) :
  Lookup.storedEnabled b = Normal stored -> Lookup.isEnabled stored = true ->
  exists rest,
    fst (Lookup.onCommand b (lit "lookup-word"))
    = Trace.StorageGet :: Trace.TabsQuery :: rest.
Proof.
  intros Hb He.
  pose proof (LookupMore.lookup_early b) as Hearly. rewrite Hb, He in Hearly.
  destruct (Lookup.activeTab b) as [[tabId|]|e] eqn:Htab.
  - unfold Lookup.onCommand.
    change (JsString.eqb (lit "lookup-word") (lit "lookup-word")) with true.
    cbv iota.
    rewrite (LookupMore.lookup_prefix b stored tabId Hb He Htab).
    unfold LookupMore.after, Trace.tryCatch. cbn [fst snd app].
    match goal with
    | |- context [snd ?m] => destruct m as [tr [u|e]]
    end; cbn [fst snd]; [now eexists|].
    destruct (Lookup.reportError b). cbn. now eexists.
  - rewrite Hearly. now eexists.
  - rewrite Hearly. unfold LookupMore.after. cbn. now eexists.
Qed.

(** X13.  The listener of installation and update never throws.  When the
    write succeeds the flag is stored as [true] whatever was stored before, so
    an update switches a switched-off extension on again: a handler that reads
    the area goes on to query the tab.  When the write is rejected the area
    is as before and one error is logged. *)
Theorem install_enables (failure : option Error) (area : Storage.t) :
  snd (snd (Install.onInstalled failure area)) = Normal tt
  /\ (failure = None ->
      fst (Install.onInstalled failure area) = Some (Json.Bool true)
      /\ forall b,
          Lookup.storedEnabled b
          = Storage.get None (fst (Install.onInstalled failure area)) ->
          exists rest,
            fst (Lookup.onCommand b (lit "lookup-word"))
            = Trace.StorageGet :: Trace.TabsQuery :: rest)
  /\ (failure <> None ->
      fst (Install.onInstalled failure area) = area
      /\ Trace.count Trace.isConsoleError (fst (snd (Install.onInstalled failure area))) = 1).
Proof.
  unfold Install.onInstalled, Storage.set.
  destruct failure as [e|]; cbn [fst snd].
  - split; [reflexivity|]. split; [discriminate|]. intros _. split; reflexivity.
  - split; [reflexivity|]. split; [|intros H; now destruct H].
    intros _. split; [reflexivity|].
    intros b Hb. now apply (enabled_run_queries_tab b (Some (Json.Bool true))).
Qed.

(** X13, at an area in which [false] is stored. *)
Lemma install_enables_witness :
  fst (Install.onInstalled None (Some (Json.Bool false))) = Some (Json.Bool true).
Proof.
  apply (proj1 (proj2 (install_enables None (Some (Json.Bool false))))).
  reflexivity.
Defined.

(** X14.  When the panel opens and the flag can be read, the switch shows
    the stored flag (on when nothing or anything but [false] is stored), the
    click handler is registered and the shortcut is displayed.  When the read
    is rejected the switch is shown on, but neither is the click handler
    registered nor the shortcut displayed: clicks then change neither the
    panel nor the storage. *)
Theorem panel_initialization
        (readFailure : option Error) (isMac : bool) (st : Panel.State) :
  let st' := Panel.initializePopup readFailure isMac st in
  Panel.area st' = Panel.area st
  /\ (readFailure = None ->
      Panel.Agrees st' /\ Panel.listening st' = true
      /\ Panel.shortcutText st' <> None)
  /\ (readFailure <> None ->
      Panel.active st' = true
      /\ Panel.listening st' = Panel.listening st
      /\ Panel.shortcutText st' = Panel.shortcutText st
      /\ (Panel.listening st = false -> forall c, Panel.click st' c = st')).
Proof.
  unfold Panel.initializePopup, Storage.get, Panel.Agrees.
  destruct readFailure as [e|]; cbn.
  - split; [reflexivity|]. split; [discriminate|]. intros _.
    repeat split. intros H c. unfold Panel.click. cbn. now rewrite H.
  - split; [reflexivity|]. split; [|intros H; now destruct H].
    intros _. repeat split. discriminate.
Qed.

(** X14, at a panel whose stored flag is [false]: read, and not read. *)
Lemma panel_initialization_witness :
  Panel.Agrees (Panel.initializePopup None false Scenarios.panelLoaded)
  /\ Panel.active (Panel.initializePopup (Some Scenarios.quotaExceeded) false
                     Scenarios.panelLoaded) = true.
Proof.
  split.
  - apply (proj1 (proj2 (panel_initialization None false Scenarios.panelLoaded))).
    reflexivity.
  - apply (proj2 (proj2 (panel_initialization (Some Scenarios.quotaExceeded) false
                           Scenarios.panelLoaded))).
    discriminate.
Defined.

(** X15.  A click handler returns normally exactly when the write, or else
    the read of its [catch] block, succeeds; the switch then shows what is
    stored, whatever it showed before.  When both are rejected the handler
    ends with the rejection, the storage is as before and the switch is
    flipped: a switch that agreed with the storage no longer does. *)
Theorem toggle_click_outcome (c : Panel.Click) (st : Panel.State) :
  let st' := fst (Panel.handleToggleClick c st) in
  (snd (Panel.handleToggleClick c st) = Normal tt <-> Panel.Recovers c)
  /\ (Panel.Recovers c -> Panel.Agrees st')
  /\ (Panel.writeFailure c <> None -> Panel.area st' = Panel.area st)
  /\ (~ Panel.Recovers c ->
      Panel.active st' = negb (Panel.active st)
      /\ (Panel.Agrees st -> ~ Panel.Agrees st')).
Proof.
  cbv zeta. split; [|split; [apply PanelFacts.handleToggleClick_agrees|]].
  - unfold Panel.Recovers, Panel.handleToggleClick, Storage.set, Storage.get.
    destruct (Panel.writeFailure c) as [e|]; [|cbn; tauto].
    destruct (Panel.rereadFailure c) as [e'|]; cbn; [|tauto].
    split; [discriminate | intros [H | H]; discriminate].
  - unfold Panel.Recovers, Panel.Agrees, Panel.handleToggleClick,
      Storage.set, Storage.get.
    destruct (Panel.writeFailure c) as [e|].
    + destruct (Panel.rereadFailure c) as [e'|]; cbn.
      * repeat split. intros H1 H2. rewrite <- H1 in H2.
        now destruct (Panel.active st).
      * split; [reflexivity|]. intros H. exfalso. apply H. now right.
    + cbn. split; [intros H; now destruct H|].
      intros H. exfalso. apply H. now left.
Qed.

(** X15, at a click whose write is rejected: the switch goes back to what
    is stored. *)
Lemma toggle_click_outcome_witness :
  Panel.Agrees (fst (Panel.handleToggleClick Scenarios.failedWrite Scenarios.panelOn))
  /\ Panel.area (fst (Panel.handleToggleClick Scenarios.failedWrite Scenarios.panelOn))
     = Panel.area Scenarios.panelOn.
Proof.
  split.
  - apply (proj1 (proj2 (toggle_click_outcome Scenarios.failedWrite Scenarios.panelOn))).
    right. reflexivity.
  - apply (proj1 (proj2 (proj2 (toggle_click_outcome Scenarios.failedWrite
                                  Scenarios.panelOn)))).
    discriminate.
Defined.

(** X16.  On a panel whose click handler is registered, a click that
    nothing rejects stores the opposite of what the switch showed, and a
    second one stores what the switch showed at first and shows it again. *)
Theorem toggle_twice (st : Panel.State) :
  Panel.listening st = true ->
  let once := Panel.click st Panel.quiet in
  let twice := Panel.click once Panel.quiet in
  Panel.active once = negb (Panel.active st)
  /\ Panel.area once = Some (Json.Bool (negb (Panel.active st)))
  /\ Panel.active twice = Panel.active st
  /\ Panel.area twice = Some (Json.Bool (Panel.active st)).
Proof.
  intros H. unfold Panel.click. rewrite H. cbn. rewrite H. cbn.
  now rewrite negb_involutive.
Qed.

(** X16, at the panel with the switch on. *)
Lemma toggle_twice_witness :
  Panel.area (Panel.click Scenarios.panelOn Panel.quiet) = Some (Json.Bool false)
  /\ Panel.area (Panel.click (Panel.click Scenarios.panelOn Panel.quiet) Panel.quiet)
     = Some (Json.Bool true).
Proof.
  destruct (toggle_twice Scenarios.panelOn eq_refl) as (_ & H1 & _ & H2).
  split; [exact H1 | exact H2].
Defined.



(** X18.  Switching the extension off in the panel silences the shortcut:
    after a click that nothing rejects on a switch that was on, a handler
    that reads the storage makes no other call; after such a click on a
    switch that was off, it goes on to query the tab. *)
Theorem panel_switch_rules_shortcut (st : Panel.State) (b : Lookup.Browser) :
  Panel.listening st = true ->
  Lookup.storedEnabled b
  = Storage.get None (Panel.area (Panel.click st Panel.quiet)) ->
  (Panel.active st = true ->
   Lookup.onCommand b (lit "lookup-word") = ([Trace.StorageGet], Normal tt))
  /\ (Panel.active st = false ->
      exists rest,
        fst (Lookup.onCommand b (lit "lookup-word"))
        = Trace.StorageGet :: Trace.TabsQuery :: rest).
Proof.
  intros Hl Hb.
  destruct (PanelFacts.toggle_twice_area st Hl) as [Harea _].
  rewrite Harea in Hb. cbn in Hb.
  split; intros Ha; rewrite Ha in Hb; cbn in Hb.
  - pose proof (LookupMore.lookup_early b) as Hearly.
    rewrite Hb in Hearly. exact Hearly.
  - now apply (enabled_run_queries_tab b (Some (Json.Bool true))).
Qed.

(** X18, at the panel with the switch on and a browser that reads [false]. *)
Lemma panel_switch_rules_shortcut_witness :
  Lookup.onCommand Scenarios.disabledBrowser (lit "lookup-word")
  = ([Trace.StorageGet], Normal tt).
Proof.
  apply (proj1 (panel_switch_rules_shortcut Scenarios.panelOn Scenarios.disabledBrowser
                  eq_refl eq_refl)).
  reflexivity.
Defined.

(** ** The popup lifecycle, continued *)

Module PageFacts.

Import Content Page.

Lemma removeCurrentPopup_blank (st : State) :
  Shown st ->
  exists selection, removeCurrentPopup st = blank selection (created st).
Proof.
  unfold Shown, removeCurrentPopup, isAttached, blank.
  destruct st as [cp cs vis att kd cl n]. cbn.
  destruct vis.
  - intros (p & -> & -> & -> & -> & -> & -> & _). unfold unregister.
    cbn -[remove]. rewrite Nat.eqb_refl. cbn -[remove].
    rewrite !ContentFacts.remove_single. now exists None.
  - intros (-> & -> & ->). destruct cp as [p|]; [|now exists cs].
    cbn. exists None.
    destruct (escHandler p), (clickHandler p); reflexivity.
Qed.

Lemma blank_Shown (selection : option Placement.Rect) (n : nat) :
  Shown (blank selection n).
Proof. unfold Shown, blank. cbn. auto. Qed.

Lemma abandonedState_Shown (w : Window) (n : nat) : Shown (abandonedState w n).
Proof. unfold Shown, abandonedState. cbn. auto. Qed.

Section Handlers.

Variable formatDefinition : Json.value -> completion JsString.t.

Lemma bodyBuilds_bodyOf (message : Message) :
  bodyBuilds formatDefinition message = true ->
  bodyOf formatDefinition message <> None.
Proof.
  destruct message as [text | text [word data | word reason] | reason | action];
    cbn; try discriminate.
  destruct (readWord data); cbn; [|discriminate].
  destruct (formatDefinition data); discriminate.
Qed.

Lemma shownState_Shown (w : Window) (message : Message) (n : nat) :
  bodyBuilds formatDefinition message = true ->
  Shown (shownState w (bodyOf formatDefinition message) n).
Proof.
  intros H. unfold Shown, shownState. cbn.
  eexists. repeat split; try reflexivity; cbn.
  - discriminate.
  - now apply bodyBuilds_bodyOf.
Qed.

(** What a show handler does when there is no popup. *)
Lemma dispatch_blank (w : Window) (message : Message)
      (selection : option Placement.Rect) (n : nat) :
  isShow message = true ->
  let st := blank selection n in
  if rangeCount w =? 0 then
    dispatch formatDefinition w message st = (st, Normal tt)
  else if bodyBuilds formatDefinition message then
    dispatch formatDefinition w message st
    = (shownState w (bodyOf formatDefinition message) n, Normal tt)
  else
    fst (dispatch formatDefinition w message st) = abandonedState w n
    /\ exists e, snd (dispatch formatDefinition w message st) = Throw e.
Proof.
  intros Hshow. cbv zeta. unfold blank.
  destruct message as [text | text [word data | word reason] | reason | action];
    try discriminate; cbn;
    unfold showLoadingPopup, showDefinitionPopup, showErrorPopup,
      Content.bind, modify, Content.ret, lift, encodeURIComponent; cbn;
    destruct (rangeCount w =? 0); try reflexivity; cbn.
  - destruct data; cbn; try (split; [reflexivity | now eexists]);
      destruct (formatDefinition _); cbn;
      try reflexivity; split; try reflexivity; now eexists.
  - destruct (isWellFormed text); cbn; [reflexivity|].
    split; [reflexivity | now eexists].
Qed.

(** What a show handler does in a state the flag describes. *)
Lemma dispatch_Shown (w : Window) (message : Message) (st : State) :
  isShow message = true -> Shown st ->
  if rangeCount w =? 0 then
    exists selection,
      dispatch formatDefinition w message st
      = (blank selection (created st), Normal tt)
  else if bodyBuilds formatDefinition message then
    dispatch formatDefinition w message st
    = (shownState w (bodyOf formatDefinition message) (created st), Normal tt)
  else
    fst (dispatch formatDefinition w message st) = abandonedState w (created st)
    /\ exists e, snd (dispatch formatDefinition w message st) = Throw e.
Proof.
  intros Hshow Hst.
  rewrite (ContentFacts.dispatch_after_teardown formatDefinition w message st Hshow).
  destruct (removeCurrentPopup_blank st Hst) as [selection ->].
  pose proof (dispatch_blank w message selection (created st) Hshow) as H.
  cbv zeta in H.
  destruct (rangeCount w =? 0); [now exists selection | exact H].
Qed.

Lemma onMessage_Shown (w : Window) (message : Message) (st : State) :
  Shown st -> Shown (fst (onMessage formatDefinition w message st)).
Proof.
  intros Hst. rewrite ContentFacts.onMessage_state.
  destruct (isShow message) eqn:Hshow.
  - pose proof (dispatch_Shown w message st Hshow Hst) as H.
    destruct (rangeCount w =? 0).
    + destruct H as [selection ->]. apply blank_Shown.
    + destruct (bodyBuilds formatDefinition message) eqn:Hb.
      * rewrite H. now apply shownState_Shown.
      * destruct H as [-> _]. apply abandonedState_Shown.
  - destruct message; try discriminate. exact Hst.
Qed.

Lemma removeCurrentPopup_Shown (st : State) :
  Shown st -> Shown (removeCurrentPopup st).
Proof.
  intros H. destruct (removeCurrentPopup_blank st H) as [selection ->].
  apply blank_Shown.
Qed.

Lemma step_Shown (st : State) (e : Event) :
  Shown st -> Shown (step formatDefinition st e).
Proof.
  intros H. destruct e as [w message | key | target | ]; cbn.
  - now apply onMessage_Shown.
  - apply ContentFacts.fold_left_keeps; [|exact H].
    intros a _ Ha. unfold escHandler_run.
    destruct (_ && _); [now apply removeCurrentPopup_Shown | exact Ha].
  - apply ContentFacts.fold_left_keeps.
    + intros a popup Ha. unfold clickHandler_run.
      destruct (_ && _); [now apply removeCurrentPopup_Shown | exact Ha].
    + destruct target as [element [|] | ];
        [now apply removeCurrentPopup_Shown | exact H | exact H].
  - now apply removeCurrentPopup_Shown.
Qed.

Lemma run_Shown (events : list Event) : Shown (run formatDefinition events).
Proof.
  unfold run. apply ContentFacts.fold_left_keeps.
  - intros a e. apply step_Shown.
  - unfold Shown, initial. cbn. auto.
Qed.

Lemma Shown_Dismissed (st : State) :
  Shown st -> isPopupVisible st = false -> Dismissed st.
Proof. unfold Shown, Dismissed. intros H E. rewrite E in H. tauto. Qed.

Lemma removeCurrentPopup_Dismissed (st : State) :
  Shown st -> Dismissed (removeCurrentPopup st).
Proof.
  intros H. destruct (removeCurrentPopup_blank st H) as [selection ->].
  unfold Dismissed, blank. cbn. auto.
Qed.

End Handlers.

End PageFacts.

(** X19.  In every state the page's script can reach, the flag
    [isPopupVisible] tells what is on the page: when it is set, the element
    [currentPopup] refers to is the only popup element on the page, it has a
    body and a position, and its key handler and its click handler are the
    only ones registered; when it is not set, no popup element is on the page
    and no handler is registered. *)
Theorem visibility_flag_is_accurate
        (formatDefinition : Json.value -> completion JsString.t)
        (events : list Content.Event) :
  Page.Shown (Content.run formatDefinition events).
Proof. apply PageFacts.run_Shown. Qed.

(** X20.  In a reachable state, a show message handled while the selection
    has a range and the body of the popup builds leaves exactly the new popup:
    a new element, themed for the page, placed by [positionPopup] at the
    range read when the message is handled, on the page with its two handlers
    registered and the flag set; the response is a success. *)
Theorem show_builds_the_popup
        (formatDefinition : Json.value -> completion JsString.t)
        (events : list Content.Event) (w : Content.Window) (message : Message) :
  Content.isShow message = true ->
  Content.rangeCount w <> 0 ->
  Page.bodyBuilds formatDefinition message = true ->
  let st := Content.run formatDefinition events in
  Content.onMessage formatDefinition w message st
  = (Page.shownState w (Page.bodyOf formatDefinition message) (Content.created st),
     {| Content.success := true; Content.error := None |}).
Proof.
  intros Hshow Hrange Hbuilds st.
  pose proof (PageFacts.dispatch_Shown formatDefinition w message st Hshow
                (PageFacts.run_Shown formatDefinition events)) as H.
  apply Nat.eqb_neq in Hrange. rewrite Hrange, Hbuilds in H.
  unfold Content.onMessage. now rewrite H.
Qed.

(** X20, at the definition message of a lookup. *)
Lemma show_builds_the_popup_witness :
  Content.popupsOnPage
    (fst (Content.onMessage Samples.plainFormat (Samples.window 1)
            (ShowError (lit "Failed"))
            (Content.run Samples.plainFormat Samples.lookupEvents))) = 1.
Proof.
  rewrite (show_builds_the_popup Samples.plainFormat Samples.lookupEvents
             (Samples.window 1) (ShowError (lit "Failed")) eq_refl
             ltac:(discriminate) eq_refl).
  reflexivity.
Defined.

(** X21.  In a reachable state, a show message handled while the selection
    has a range and the body of the popup does not build (an entry that is
    [null], a formatter that throws, a text that cannot be URL-encoded) is
    answered with a failure and the message of the error; the earlier popup is
    gone, the new element is referred to by [currentPopup] but is not on the
    page, and no handler is registered. *)
Theorem failed_body_leaves_no_popup
        (formatDefinition : Json.value -> completion JsString.t)
        (events : list Content.Event) (w : Content.Window) (message : Message) :
  Content.isShow message = true ->
  Content.rangeCount w <> 0 ->
  Page.bodyBuilds formatDefinition message = false ->
  let st := Content.run formatDefinition events in
  fst (Content.onMessage formatDefinition w message st)
  = Page.abandonedState w (Content.created st)
  /\ Content.success (snd (Content.onMessage formatDefinition w message st)) = false
  /\ Content.error (snd (Content.onMessage formatDefinition w message st)) <> None.
Proof.
  intros Hshow Hrange Hbuilds st.
  pose proof (PageFacts.dispatch_Shown formatDefinition w message st Hshow
                (PageFacts.run_Shown formatDefinition events)) as H.
  apply Nat.eqb_neq in Hrange. rewrite Hrange, Hbuilds in H.
  destruct H as [Hst [e He]].
  unfold Content.onMessage.
  destruct (Content.dispatch formatDefinition w message st) as [st' r].
  cbn [fst snd] in *. subst. cbn. repeat split. discriminate.
Qed.

(** X21, at an entry that is [null], after a lookup. *)
Lemma failed_body_leaves_no_popup_witness :
  Content.popupsOnPage
    (fst (Content.onMessage Samples.plainFormat (Samples.window 1)
            Scenarios.nullEntry
            (Content.run Samples.plainFormat Samples.lookupEvents))) = 0.
Proof.
  rewrite (proj1 (failed_body_leaves_no_popup Samples.plainFormat Samples.lookupEvents
                    (Samples.window 1) Scenarios.nullEntry eq_refl
                    ltac:(discriminate) eq_refl)).
  reflexivity.
Defined.

(** X22.  In a reachable state, the key [Escape] leaves no popup element on
    the page, no handler registered and the flag unset; any other key leaves
    the state as it is. *)
Theorem escape_key_dismisses
        (formatDefinition : Json.value -> completion JsString.t)
        (events : list Content.Event) (key : JsString.t) :
  let st := Content.run formatDefinition events in
  (key = lit "Escape" ->
   Page.Dismissed (Content.step formatDefinition st (Content.KeyDown key)))
  /\ (key <> lit "Escape" ->
      Content.step formatDefinition st (Content.KeyDown key) = st).
Proof.
  intros st.
  pose proof (PageFacts.run_Shown formatDefinition events) as Hst. fold st in Hst.
  split.
  - intros ->. cbn [Content.step]. unfold Content.escHandler_run.
    change (JsString.eqb (lit "Escape") (lit "Escape")) with true. cbn [andb].
    pose proof Hst as Hs. unfold Page.Shown in Hs.
    destruct (Content.isPopupVisible st) eqn:Ev.
    + destruct Hs as (p & _ & _ & Hk & _). rewrite Hk. cbn [fold_left].
      rewrite Ev. now apply PageFacts.removeCurrentPopup_Dismissed.
    + destruct Hs as (_ & Hk & _). rewrite Hk. cbn [fold_left].
      now apply PageFacts.Shown_Dismissed.
  - intros Hkey. cbn [Content.step]. unfold Content.escHandler_run.
    assert (E : JsString.eqb key (lit "Escape") = false).
    { destruct (JsString.eqb key (lit "Escape")) eqn:E; [|reflexivity].
      apply JsStringFacts.eqb_eq in E. contradiction. }
    rewrite E. cbn [andb].
    induction (Content.keydownListeners st) as [|h l IH]; [reflexivity | exact IH].
Qed.

(** X22, after a lookup. *)
Lemma escape_key_dismisses_witness :
  Page.Dismissed
    (Content.step Samples.plainFormat
       (Content.run Samples.plainFormat Samples.lookupEvents)
       (Content.KeyDown (lit "Escape"))).
Proof.
  apply (proj1 (escape_key_dismisses Samples.plainFormat Samples.lookupEvents
                  (lit "Escape"))).
  reflexivity.
Defined.

(** X23.  In a reachable state, a click outside the popup, a click on a
    close button and the unload of the page each leave no popup element on
    the page, no handler registered and the flag unset; a click inside the
    current popup, not on its close button, leaves the state as it is. *)
Theorem clicks_and_unload
        (formatDefinition : Json.value -> completion JsString.t)
        (events : list Content.Event) :
  let st := Content.run formatDefinition events in
  Page.Dismissed (Content.step formatDefinition st (Content.Click Content.Elsewhere))
  /\ (forall element,
        Page.Dismissed
          (Content.step formatDefinition st
             (Content.Click (Content.InPopup element true))))
  /\ Page.Dismissed (Content.step formatDefinition st Content.BeforeUnload)
  /\ (forall p,
        Content.currentPopup st = Some p ->
        Content.step formatDefinition st
          (Content.Click (Content.InPopup (Content.pid p) false)) = st).
Proof.
  intros st.
  pose proof (PageFacts.run_Shown formatDefinition events) as Hst. fold st in Hst.
  pose proof Hst as Hs. unfold Page.Shown in Hs.
  split; [|split; [|split]].
  - cbn [Content.step]. unfold Content.clickHandler_run.
    destruct (Content.isPopupVisible st) eqn:Ev.
    + destruct Hs as (p & _ & _ & _ & Hc & _). rewrite Hc. cbn [fold_left].
      rewrite Ev. cbn. now apply PageFacts.removeCurrentPopup_Dismissed.
    + destruct Hs as (_ & _ & Hc). rewrite Hc. cbn [fold_left].
      now apply PageFacts.Shown_Dismissed.
  - intros element. cbn [Content.step].
    destruct (PageFacts.removeCurrentPopup_blank st Hst) as [selection ->].
    cbn. unfold Page.Dismissed. cbn. auto.
  - cbn [Content.step]. now apply PageFacts.removeCurrentPopup_Dismissed.
  - intros p Hp. cbn [Content.step]. unfold Content.clickHandler_run.
    destruct (Content.isPopupVisible st) eqn:Ev.
    + destruct Hs as (q & Hq & _ & _ & Hc & _). rewrite Hc.
      rewrite Hp in Hq. injection Hq as <-. cbn [fold_left].
      rewrite Ev. cbn. now rewrite Nat.eqb_refl.
    + destruct Hs as (_ & _ & Hc). now rewrite Hc.
Qed.

(** X23, after a lookup: a click in the popup keeps it. *)
Lemma clicks_and_unload_witness :
  Content.step Samples.plainFormat
    (Content.run Samples.plainFormat Samples.lookupEvents)
    (Content.Click (Content.InPopup (Content.pid Scenarios.lookupPopup) false))
  = Content.run Samples.plainFormat Samples.lookupEvents.
Proof.
  apply (proj2 (proj2 (proj2 (clicks_and_unload Samples.plainFormat
                                Samples.lookupEvents)))
               Scenarios.lookupPopup).
  reflexivity.
Defined.

(** ** Theme detection, continued *)

Module ThemeMore.

Import Theme.

Definition digitStep (acc d : N) : N := (acc * 10 + (d - 48))%N.

Lemma digitsValue_fold (ds : JsString.t) : digitsValue ds = fold_left digitStep ds 0%N.
Proof. reflexivity. Qed.

Definition decimal (d : Decimal.uint) : JsString.t :=
  lit (DecimalString.NilEmpty.string_of_uint d).

(** Reading the digits of a decimal number gives the number. *)
Lemma fold_decimal_pos (d : Decimal.uint) :
  forall a : positive,
    fold_left digitStep (decimal d) (Npos a) = Npos (Pos.of_uint_acc d a).
Proof.
  unfold decimal.
  induction d as [|d IH|d IH|d IH|d IH|d IH|d IH|d IH|d IH|d IH|d IH]; intros a;
    [reflexivity|..];
    cbn [DecimalString.NilEmpty.string_of_uint lit list_ascii_of_string map
         fold_left Pos.of_uint_acc];
    rewrite <- IH; f_equal; unfold digitStep;
    match goal with
    | |- context [N_of_ascii ?c] =>
        let v := eval vm_compute in (N_of_ascii c) in change (N_of_ascii c) with v
    end; lia.
Qed.

Lemma fold_decimal (d : Decimal.uint) :
  fold_left digitStep (decimal d) 0%N = N.of_uint d.
Proof.
  unfold N.of_uint.
  induction d as [|d IH|d IH|d IH|d IH|d IH|d IH|d IH|d IH|d IH|d IH];
    [reflexivity | exact IH |..];
    unfold decimal;
    cbn [DecimalString.NilEmpty.string_of_uint lit list_ascii_of_string map
         fold_left Pos.of_uint];
    exact (fold_decimal_pos d _).
Qed.

Lemma digitsValue_showN (n : N) : digitsValue (showN n) = n.
Proof.
  rewrite digitsValue_fold. unfold showN. fold (decimal (N.to_uint n)).
  rewrite fold_decimal. apply DecimalN.Unsigned.of_to.
Qed.

Lemma decimal_digits (d : Decimal.uint) : forallb isDigit (decimal d) = true.
Proof.
  unfold decimal.
  induction d as [|d IH|d IH|d IH|d IH|d IH|d IH|d IH|d IH|d IH|d IH];
    [reflexivity|..]; exact IH.
Qed.

Lemma showN_digits (n : N) : forallb isDigit (showN n) = true.
Proof. apply decimal_digits. Qed.

Lemma showN_not_empty (n : N) : showN n <> [].
Proof.
  intros H. pose proof (digitsValue_showN n) as E. rewrite H in E.
  cbn in E. subst n. discriminate H.
Qed.

Lemma stripPrefix_app (p s : JsString.t) : stripPrefix p (p ++ s) = Some s.
Proof.
  induction p as [|c p IH]; [reflexivity|].
  cbn. now rewrite N.eqb_refl.
Qed.

(** A run of digits followed by a character that is not a digit. *)
Lemma span_digits (ds : JsString.t) (c : N) (s : JsString.t) :
  forallb isDigit ds = true -> isDigit c = false ->
  span isDigit (ds ++ c :: s) = (ds, c :: s).
Proof.
  intros Hds Hc. induction ds as [|d ds IH]; cbn.
  - now rewrite Hc.
  - cbn in Hds. apply andb_true_iff in Hds as [Hd Hds].
    now rewrite Hd, (IH Hds).
Qed.

Lemma digits1_digits (ds : JsString.t) (c : N) (s : JsString.t) :
  ds <> [] -> forallb isDigit ds = true -> isDigit c = false ->
  digits1 (ds ++ c :: s) = Some (digitsValue ds, c :: s).
Proof.
  intros Hne Hds Hc. unfold digits1. rewrite (span_digits ds c s Hds Hc).
  destruct ds; [contradiction | reflexivity].
Qed.

Lemma dropWhile_space_digits (n : N) (x : JsString.t) :
  dropWhile isSpace (32%N :: showN n ++ x) = showN n ++ x.
Proof.
  cbn [dropWhile]. change (isSpace 32) with true. cbv iota.
  pose proof (showN_digits n) as Hd. pose proof (showN_not_empty n) as Hn.
  destruct (showN n) as [|d ds]; [contradiction|].
  cbn in Hd. apply andb_true_iff in Hd as [Hd _].
  cbn [app dropWhile].
  assert (Hs : isSpace d = false).
  { unfold isDigit, isSpace, between in *.
    rewrite andb_true_iff, !N.leb_le in Hd.
    repeat (apply orb_false_iff; split);
      try apply andb_false_iff; rewrite ?N.leb_gt, ?N.eqb_neq; lia. }
  now rewrite Hs.
Qed.

Lemma matchRgbAt_rgbText (r g b : N) (rest : JsString.t) :
  matchRgbAt (Css.rgbText r g b ++ rest) = Some (r, g, b).
Proof.
  unfold matchRgbAt, Css.rgbText.
  change (lit ", ") with [44%N; 32%N].
  change (lit ",") with [44%N]. change (lit ")") with [41%N].
  rewrite <- !app_assoc, stripPrefix_app. cbn [app].
  rewrite (digits1_digits (showN r) 44 _ (showN_not_empty r) (showN_digits r) eq_refl).
  change (stripPrefix [44%N] (44%N :: ?x)) with (Some x). cbv iota.
  rewrite dropWhile_space_digits.
  rewrite (digits1_digits (showN g) 44 _ (showN_not_empty g) (showN_digits g) eq_refl).
  change (stripPrefix [44%N] (44%N :: ?x)) with (Some x). cbv iota.
  rewrite dropWhile_space_digits.
  rewrite (digits1_digits (showN b) 41 _ (showN_not_empty b) (showN_digits b) eq_refl).
  change (stripPrefix [41%N] (41%N :: ?x)) with (Some x). cbv iota.
  now rewrite !digitsValue_showN.
Qed.

Lemma rgbMatch_head (s : JsString.t) (m : N * N * N) :
  matchRgbAt s = Some m -> rgbMatch s = Some m.
Proof. intros H. destruct s; cbn [rgbMatch]; now rewrite H. Qed.

Lemma stripPrefix_startsWith (p s r : JsString.t) :
  stripPrefix p s = Some r -> startsWith p s = true.
Proof.
  revert s. induction p as [|c p IH]; intros s; [reflexivity|].
  destruct s as [|d s]; cbn; [discriminate|].
  destruct (c =? d)%N; [apply IH | discriminate].
Qed.

(** A match of the pattern starts with the text [rgb(]. *)
Lemma rgbMatch_includes (s : JsString.t) (m : N * N * N) :
  rgbMatch s = Some m -> includes s (lit "rgb(") = true.
Proof.
  induction s as [|c s IH]; cbn [rgbMatch includes].
  - unfold matchRgbAt. cbn. discriminate.
  - destruct (matchRgbAt (c :: s)) as [m'|] eqn:E.
    + intros _. unfold matchRgbAt in E.
      destruct (stripPrefix (lit "rgb(") (c :: s)) as [r|] eqn:Ep; [|discriminate].
      now rewrite (stripPrefix_startsWith _ _ _ Ep).
    + intros H. rewrite (IH H). apply orb_true_r.
Qed.

Lemma startsWith_app (p q s : JsString.t) :
  startsWith (p ++ q) s = true -> startsWith p s = true.
Proof.
  revert s. induction p as [|c p IH]; intros s; [reflexivity|].
  destruct s as [|d s]; cbn; [discriminate|].
  destruct (c =? d)%N; [apply IH | discriminate].
Qed.

Lemma includes_app (s p q : JsString.t) :
  includes s (p ++ q) = true -> includes s p = true.
Proof.
  induction s as [|c s IH]; cbn [includes]; intros H;
    apply orb_true_iff in H as [H | H].
  - now rewrite (startsWith_app p q _ H).
  - discriminate.
  - now rewrite (startsWith_app p q _ H).
  - rewrite (IH H). apply orb_true_r.
Qed.

(** The comparisons of the brightness with a whole number, on the
    weighted sum of the components. *)
Lemma brightness_below (r g b k : N) :
  Qltb (brightnessOf r g b) (ofN k) = (299 * r + 587 * g + 114 * b <? 1000 * k)%N.
Proof.
  destruct (N.ltb_spec (299 * r + 587 * g + 114 * b) (1000 * k)) as [H | H].
  - apply NumberFacts.Qltb_lt.
    unfold brightnessOf, ofN, Qlt, Qdiv, Qmult, Qplus, Qinv, inject_Z. simpl. lia.
  - unfold Qltb. apply negb_false_iff, Qle_bool_iff.
    unfold brightnessOf, ofN, Qle, Qdiv, Qmult, Qplus, Qinv, inject_Z. simpl. lia.
Qed.

Lemma brightness_above (r g b k : N) :
  Qltb (ofN k) (brightnessOf r g b) = (1000 * k <? 299 * r + 587 * g + 114 * b)%N.
Proof.
  destruct (N.ltb_spec (1000 * k) (299 * r + 587 * g + 114 * b)) as [H | H].
  - apply NumberFacts.Qltb_lt.
    unfold brightnessOf, ofN, Qlt, Qdiv, Qmult, Qplus, Qinv, inject_Z. simpl. lia.
  - unfold Qltb. apply negb_false_iff, Qle_bool_iff.
    unfold brightnessOf, ofN, Qle, Qdiv, Qmult, Qplus, Qinv, inject_Z. simpl. lia.
Qed.

End ThemeMore.

(** X24.  A background colour written [rgb(r, g, b)] with components up to
    255, as computed colours without transparency are, is parsed back to its
    three components, whatever follows it.  With the weighted sum
    [299 r + 587 g + 114 b]: the page is taken for dark exactly when the sum
    is below 128000, or [body] or the root element carries the class [dark],
    or the colour contains one of the texts [rgb(0, 0, 0)] and
    [rgb(20, 20, 20)]; and the popup takes the palette for very light pages
    when the sum is above 200000, the palette for light pages when it is
    above 128000 and 200000 at most, and the palette for dark pages
    otherwise. *)
Theorem rgb_text_is_parsed (r g b : N) (rest : JsString.t) (body root : bool) :
  (r <= 255)%N -> (g <= 255)%N -> (b <= 255)%N ->
  let colour := Css.rgbText r g b ++ rest in
  let theme :=
    Theme.detectThemeAndContrast
      {| Theme.backgroundColor := colour;
         Theme.bodyHasDark := body; Theme.rootHasDark := root |} in
  let weighted := (299 * r + 587 * g + 114 * b)%N in
  Theme.rgbMatch colour = Some (r, g, b)
  /\ Theme.isDark theme
     = (weighted <? 128000)%N || body || root
       || includes colour (lit "rgb(0, 0, 0)")
       || includes colour (lit "rgb(20, 20, 20)")
  /\ Theme.background (Theme.colors theme)
     = (if (200000 <? weighted)%N then lit "#2c3e50"
        else if (128000 <? weighted)%N then lit "#34495e"
        else lit "#ffffff")
  /\ Theme.text (Theme.colors theme)
     = (if (200000 <? weighted)%N then lit "#ffffff"
        else if (128000 <? weighted)%N then lit "#ecf0f1"
        else lit "#2c3e50").
Proof.
  intros _ _ _ colour theme weighted.
  assert (H : Theme.rgbMatch colour = Some (r, g, b))
    by apply ThemeMore.rgbMatch_head, ThemeMore.matchRgbAt_rgbText.
  split; [exact H|].
  unfold theme, Theme.detectThemeAndContrast, Theme.calculateContrastColors.
  cbn [Theme.backgroundColor Theme.bodyHasDark Theme.rootHasDark
       Theme.isDark Theme.colors].
  rewrite H.
  change 128%Q with (Theme.ofN 128). change 200%Q with (Theme.ofN 200).
  rewrite ThemeMore.brightness_below, !ThemeMore.brightness_above.
  change (1000 * 128)%N with 128000%N. change (1000 * 200)%N with 200000%N.
  fold weighted.
  split; [reflexivity|].
  split; destruct (200000 <? weighted)%N; try reflexivity;
    destruct (128000 <? weighted)%N; reflexivity.
Qed.

(** X24, at the colours [rgb(20, 30, 40)], [rgb(240, 240, 240)] and
    [rgb(150, 150, 150)]. *)
Lemma rgb_text_is_parsed_witness :
  Theme.isDark (Theme.detectThemeAndContrast Samples.darkPage) = true
  /\ Theme.background
       (Theme.colors
          (Theme.detectThemeAndContrast
             {| Theme.backgroundColor := Css.rgbText 240 240 240 ++ [];
                Theme.bodyHasDark := false; Theme.rootHasDark := false |}))
     = lit "#2c3e50"
  /\ Theme.text
       (Theme.colors
          (Theme.detectThemeAndContrast
             {| Theme.backgroundColor := Css.rgbText 150 150 150 ++ [];
                Theme.bodyHasDark := false; Theme.rootHasDark := false |}))
     = lit "#ecf0f1".
Proof.
  split; [|split].
  - exact (proj1 (proj2 (rgb_text_is_parsed 20 30 40 [] false false
                           ltac:(vm_compute; discriminate)
                           ltac:(vm_compute; discriminate)
                           ltac:(vm_compute; discriminate)))).
  - exact (proj1 (proj2 (proj2 (rgb_text_is_parsed 240 240 240 [] false false
                                  ltac:(vm_compute; discriminate)
                                  ltac:(vm_compute; discriminate)
                                  ltac:(vm_compute; discriminate))))).
  - exact (proj2 (proj2 (proj2 (rgb_text_is_parsed 150 150 150 [] false false
                                  ltac:(vm_compute; discriminate)
                                  ltac:(vm_compute; discriminate)
                                  ltac:(vm_compute; discriminate))))).
Defined.

(** X25.  A background colour in which the text [rgb(] does not occur
    (a transparent body is [rgba(0, 0, 0, 0)], for one) is given the brightness
    255: the popup takes the palette for very light pages, and the page is
    taken for dark exactly when [body] or the root element carries the class
    [dark]. *)
Theorem colour_without_rgb (page : Theme.Page) :
  includes (Theme.backgroundColor page) (lit "rgb(") = false ->
  Theme.brightness (Theme.detectThemeAndContrast page) = 255%Q
  /\ Theme.isDark (Theme.detectThemeAndContrast page)
     = Theme.bodyHasDark page || Theme.rootHasDark page
  /\ Theme.background (Theme.colors (Theme.detectThemeAndContrast page)) = lit "#2c3e50"
  /\ Theme.text (Theme.colors (Theme.detectThemeAndContrast page)) = lit "#ffffff".
Proof.
  intros H.
  assert (Hm : Theme.rgbMatch (Theme.backgroundColor page) = None).
  { destruct (Theme.rgbMatch (Theme.backgroundColor page)) as [m|] eqn:E; [|reflexivity].
    apply ThemeMore.rgbMatch_includes in E. congruence. }
  assert (Hi : forall tail,
             includes (Theme.backgroundColor page) (lit "rgb(" ++ tail) = false).
  { intros tail.
    destruct (includes (Theme.backgroundColor page) (lit "rgb(" ++ tail)) eqn:E;
      [|reflexivity].
    apply ThemeMore.includes_app in E. congruence. }
  unfold Theme.detectThemeAndContrast. rewrite Hm.
  cbn [Theme.brightness Theme.isDark Theme.colors].
  change (lit "rgb(0, 0, 0)") with (lit "rgb(" ++ lit "0, 0, 0)").
  change (lit "rgb(20, 20, 20)") with (lit "rgb(" ++ lit "20, 20, 20)").
  rewrite !Hi.
  repeat split. cbn. now rewrite !orb_false_r.
Qed.

(** X25, at the computed colour of a body without a background. *)
Lemma colour_without_rgb_witness :
  Theme.brightness (Theme.detectThemeAndContrast Samples.transparentPage) = 255%Q
  /\ Theme.isDark (Theme.detectThemeAndContrast Samples.transparentPage) = false.
Proof.
  destruct (colour_without_rgb Samples.transparentPage eq_refl) as (H1 & H2 & _).
  split; [exact H1 | exact H2].
Defined.

(** ** Placement, continued *)

Module GridFacts.

(** A measurement of the grid is a number of 64ths of a pixel, below 2^38
    of them in magnitude. *)
Lemma measured_spec (q : Q) :
  Grid.measured q = true ->
  exists z : Z, (q == z # 64)%Q /\ (Z.abs z <= 2 ^ 38)%Z.
Proof.
  unfold Grid.measured. destruct q as [n d]. cbn [Qnum Qden].
  intros H. apply andb_true_iff in H as [Hm Hb].
  apply Z.eqb_eq in Hm. apply Z.leb_le in Hb.
  apply Z.mod_divide in Hm; [|discriminate].
  destruct Hm as [z Hz]. exists z. split.
  - unfold Qeq. cbn [Qnum Qden]. lia.
  - assert (Hd : (Z.abs z * Zpos d <= 2 ^ 38 * Zpos d)%Z).
    { replace (Z.abs z * Zpos d)%Z with (Z.abs (z * Zpos d)) by (rewrite Z.abs_mul; lia).
      rewrite <- Hz. rewrite Z.abs_mul. change (2 ^ 38)%Z with (64 * 2 ^ 32)%Z. lia. }
    nia.
Qed.

(** Whole numbers of pixels are on the grid. *)
Lemma measured_whole (z : Z) :
  (Z.abs z <= 2 ^ 32)%Z -> Grid.measured (inject_Z z) = true.
Proof.
  intros H. unfold Grid.measured, inject_Z. cbn [Qnum Qden].
  rewrite Z.mod_1_r. apply andb_true_iff. split; [reflexivity|].
  apply Z.leb_le. lia.
Qed.

End GridFacts.

(** X26.  For measurements on the grid of 1/64 pixel, on which the script's
    sums are exact: when there is room above the selection, the popup is
    placed above it, its lower edge is exactly the margin of 5px above the
    top of the selection, and its upper edge is not above the upper edge of
    the window. *)
Theorem placed_above_clear_of_selection (rect : Placement.Rect) (v : Placement.View) :
  Grid.measuredRect rect = true -> Grid.measuredView v = true ->
  (Placement.popupHeight v + Placement.margin <= Placement.spaceAbove rect)%Q ->
  let placed := Placement.positionPopup rect v in
  Placement.positionAbove placed = true
  /\ (Placement.finalTop placed + Placement.popupHeight v + 5
      == Placement.top rect + Placement.scrollTop v)%Q
  /\ (Placement.scrollTop v <= Placement.finalTop placed)%Q.
Proof.
  intros _ _ H placed.
  destruct (PlacementFacts.enough_room_above rect v H) as [Ha Ht].
  fold placed in Ha, Ht. rewrite Ht. unfold Placement.spaceAbove in H.
  unfold Placement.margin in *. split; [exact Ha|]. split; [ring | lra].
Qed.

(** X26, at a selection with 400px above it, and at a selection measured
    in fractions of a pixel in a scrolled window. *)
Lemma placed_above_clear_of_selection_witness :
  (Placement.finalTop (Placement.positionPopup Samples.lowRect Samples.plainView)
   + Placement.popupHeight Samples.plainView + 5
   == Placement.top Samples.lowRect + Placement.scrollTop Samples.plainView)%Q
  /\ (Placement.scrollTop Scenarios.scrolledView
      <= Placement.finalTop
           (Placement.positionPopup Scenarios.fractionRect Scenarios.scrolledView))%Q.
Proof.
  split.
  - apply (placed_above_clear_of_selection Samples.lowRect Samples.plainView
             eq_refl eq_refl).
    vm_compute. discriminate.
  - apply (placed_above_clear_of_selection Scenarios.fractionRect Scenarios.scrolledView
             eq_refl eq_refl).
    vm_compute. discriminate.
Defined.

(** X27.  For measurements on the grid of 1/64 pixel, on which the script's
    sums are exact: when there is no room above the selection but room
    below, the popup is placed below it, its upper edge is exactly the margin
    of 5px below the bottom of the selection, and its lower edge is not below
    the lower edge of the window. *)
Theorem placed_below_clear_of_selection (rect : Placement.Rect) (v : Placement.View) :
  Grid.measuredRect rect = true -> Grid.measuredView v = true ->
  (Placement.spaceAbove rect < Placement.popupHeight v + Placement.margin)%Q ->
  (Placement.popupHeight v + Placement.margin <= Placement.spaceBelow rect v)%Q ->
  let placed := Placement.positionPopup rect v in
  Placement.positionAbove placed = false
  /\ (Placement.finalTop placed
      == Placement.bottom rect + Placement.scrollTop v + 5)%Q
  /\ (Placement.finalTop placed + Placement.popupHeight v
      <= Placement.scrollTop v + Placement.innerHeight v)%Q.
Proof.
  intros _ _ Ha Hb placed.
  destruct (PlacementFacts.enough_room_below rect v Ha Hb) as [Hp Ht].
  fold placed in Hp, Ht. rewrite Ht. unfold Placement.spaceBelow in Hb.
  unfold Placement.margin in *. split; [exact Hp|]. split; [ring | lra].
Qed.

(** X27, at a selection near the top of the window. *)
Lemma placed_below_clear_of_selection_witness :
  (Placement.finalTop (Placement.positionPopup Scenarios.highRect Scenarios.tallView)
   == Placement.bottom Scenarios.highRect + Placement.scrollTop Scenarios.tallView + 5)%Q.
Proof.
  apply (placed_below_clear_of_selection Scenarios.highRect Scenarios.tallView
           eq_refl eq_refl);
    vm_compute; [reflexivity | discriminate].
Defined.

(** X28.  For measurements on the grid of 1/64 pixel, on which the script's
    sums are exact, when the popup fits on neither side of the selection: if
    there is not more room above than below, its lower edge is exactly 10px
    above the lower edge of the window, and it starts above the place 5px
    below the selection; if there is more room above and the page is scrolled
    by 10px at most, its upper edge is at 10px from the top of the page. *)
Theorem placed_without_room (rect : Placement.Rect) (v : Placement.View) :
  Grid.measuredRect rect = true -> Grid.measuredView v = true ->
  (Placement.spaceAbove rect < Placement.popupHeight v + Placement.margin)%Q ->
  (Placement.spaceBelow rect v < Placement.popupHeight v + Placement.margin)%Q ->
  let placed := Placement.positionPopup rect v in
  ((Placement.spaceAbove rect <= Placement.spaceBelow rect v)%Q ->
   Placement.positionAbove placed = false
   /\ (Placement.finalTop placed + Placement.popupHeight v
       == Placement.scrollTop v + Placement.innerHeight v - 10)%Q
   /\ (Placement.finalTop placed
       < Placement.bottom rect + Placement.scrollTop v + 5)%Q)
  /\ ((Placement.spaceBelow rect v < Placement.spaceAbove rect)%Q ->
      (Placement.scrollTop v <= 10)%Q ->
      Placement.positionAbove placed = true
      /\ (Placement.finalTop placed == 10)%Q).
Proof.
  intros _ _ Ha Hb placed.
  pose proof Ha as Ha'. pose proof Hb as Hb'.
  apply NumberFacts.Qle_bool_false in Ha', Hb'.
  unfold placed, Placement.positionPopup, Placement.vertical.
  rewrite Ha', Hb'.
  unfold Placement.spaceAbove, Placement.spaceBelow, Placement.margin in *.
  split.
  - intros Hc.
    assert (Hd : Qltb (Placement.innerHeight v - Placement.bottom rect)
                      (Placement.top rect) = false).
    { unfold Qltb. apply negb_false_iff. now apply Qle_bool_iff. }
    rewrite Hd. cbn [Placement.positionAbove Placement.finalTop].
    split; [reflexivity|].
    destruct (PlacementFacts.min_spec
                (Placement.innerHeight v + Placement.scrollTop v
                 - Placement.popupHeight v - 10)
                (Placement.bottom rect + Placement.scrollTop v + 5))
      as [[H1 H2] [E | E]]; rewrite E in *; split; lra.
  - intros Hc Hs. apply NumberFacts.Qltb_lt in Hc. rewrite Hc.
    cbn [Placement.positionAbove Placement.finalTop].
    split; [reflexivity|].
    destruct (PlacementFacts.max_spec 10
                (Placement.top rect + Placement.scrollTop v
                 - Placement.popupHeight v - 5))
      as [[H1 H2] [E | E]]; rewrite E in *; lra.
Qed.

(** X28, at a window in which the popup fits on neither side. *)
Lemma placed_without_room_witness :
  (Placement.finalTop (Placement.positionPopup Scenarios.lowerRect Scenarios.shortView)
   + Placement.popupHeight Scenarios.shortView
   == Placement.scrollTop Scenarios.shortView
      + Placement.innerHeight Scenarios.shortView - 10)%Q.
Proof.
  apply (proj1 (placed_without_room Scenarios.lowerRect Scenarios.shortView
                  eq_refl eq_refl eq_refl eq_refl)).
  vm_compute. discriminate.
Defined.

(** X29.  For measurements on the grid of 1/64 pixel, on which the script's
    sums and halves are exact: when the window is at least 20px wider than
    the popup, the left edge of the popup is at least 10 and its right edge
    at most the width of the window less 10, in the coordinates in which the
    left edge is written; and when the position centred on the selection lies
    between these bounds, the popup is centred on the selection. *)
Theorem placed_between_the_sides (rect : Placement.Rect) (v : Placement.View) :
  Grid.measuredRect rect = true -> Grid.measuredView v = true ->
  (Placement.popupWidth v + 20 <= Placement.innerWidth v)%Q ->
  let placed := Placement.positionPopup rect v in
  (10 <= Placement.finalLeft placed)%Q
  /\ (Placement.finalLeft placed + Placement.popupWidth v
      <= Placement.innerWidth v - 10)%Q
  /\ ((10 <= Placement.centred rect v)%Q ->
      (Placement.centred rect v + Placement.popupWidth v
       <= Placement.innerWidth v - 10)%Q ->
      (Placement.finalLeft placed + Placement.popupWidth v / 2
       == Placement.left rect + Placement.scrollLeft v + Placement.width rect / 2)%Q).
Proof.
  intros _ _ Hfit placed.
  destruct (PlacementFacts.left_edge rect v) as [Hcases Hbounds].
  fold placed in Hcases, Hbounds. cbv zeta in Hcases, Hbounds.
  unfold Placement.minLeft, Placement.maxLeft in *.
  assert (H : (10 <= Placement.innerWidth v - Placement.popupWidth v - 10)%Q) by lra.
  specialize (Hbounds H).
  split; [lra|]. split; [lra|].
  intros Hlo Hhi.
  assert (E : Placement.finalLeft placed = Placement.centred rect v).
  { unfold placed, Placement.positionPopup.
    destruct (Placement.vertical rect v) as [above t]. cbn [Placement.finalLeft].
    unfold Placement.horizontal, Placement.minLeft, Placement.maxLeft.
    assert (E1 : Qltb (Placement.centred rect v) 10 = false).
    { unfold Qltb. apply negb_false_iff. now apply Qle_bool_iff. }
    assert (E2 : Qltb (Placement.innerWidth v - Placement.popupWidth v - 10)
                      (Placement.centred rect v) = false).
    { unfold Qltb. apply negb_false_iff. apply Qle_bool_iff. lra. }
    now rewrite E1, E2. }
  rewrite E. unfold Placement.centred. field.
Qed.

(** X29, at a selection near the left side of the window: the popup is
    kept 10px from the side. *)
Lemma placed_between_the_sides_witness :
  (10 <= Placement.finalLeft
           (Placement.positionPopup Scenarios.highRect Scenarios.tallView))%Q.
Proof.
  apply (placed_between_the_sides Scenarios.highRect Scenarios.tallView
           eq_refl eq_refl).
  vm_compute. discriminate.
Defined.
